(** * Meal-planning agent: orchestration, session store and memory bank

    A shallow embedding of the Python sources
    [memory/session_service.py], [memory/memory_bank.py],
    [agents/meal_planner.py], [agents/recipe_finder.py],
    [tools/recipe_search.py], [agents/shopping_list.py],
    [tools/shopping_optimizer.py], [tools/nutrition.py] and
    [agents/orchestrator.py], followed by the properties of the
    specification that concern them.

    Conventions.
    - Python dictionaries whose iteration order is irrelevant to the
      modelled code are [gmap]s; dictionaries that are iterated in insertion
      order are association lists with Python's assignment semantics
      ([PyDict]).
    - [datetime] values are integers (microseconds); [timedelta] likewise.
    - Everything the program obtains from outside (the wall clock, the
      random generator, uuid4, the Gemini model, json.loads, the Spoonacular
      API, the completion order of futures) is an oracle of the environment
      [Env]; the mutable objects of the process are the fields of [World].
    - Strings are byte strings; the case and blank operations are the ASCII
      ones. They are Python's on strings of ASCII characters
      ([PyStr.is_ascii]); statements that depend on them for strings from
      outside assume such strings.
    - [json.loads] is read at the shape of a meal plan: a dictionary whose
      meals are dictionaries with a name. A reply of the model that decodes
      to a document of another shape is not represented; the statements
      about the workflow that depend on it assume that no document is
      decoded from the reply. *)

From stdpp Require Import gmap strings list fin_maps pretty.
From Stdlib Require Import Ascii ZArith Lia.
From Stdlib Require Qcanon.

Set Default Proof Using "Type".
Set Warnings "-register-all".

(** ** Python string operations *)

Module PyStr.

Definition is_upper (c : ascii) : bool :=
  let n := nat_of_ascii c in (65 <=? n)%nat && (n <=? 90)%nat.

Definition is_lower (c : ascii) : bool :=
  let n := nat_of_ascii c in (97 <=? n)%nat && (n <=? 122)%nat.

Definition to_lower (c : ascii) : ascii :=
  if is_upper c then ascii_of_nat (nat_of_ascii c + 32) else c.

Definition to_upper (c : ascii) : ascii :=
  if is_lower c then ascii_of_nat (nat_of_ascii c - 32) else c.

(** [str.isspace] on a single ASCII character. *)
Definition is_space (c : ascii) : bool :=
  let n := nat_of_ascii c in
  ((9 <=? n)%nat && (n <=? 13)%nat) || ((28 <=? n)%nat && (n <=? 32)%nat).

(** The string has ASCII characters only; on such strings the operations
    below are Python's, for which a character is a code point. *)
Fixpoint is_ascii (s : string) : bool :=
  match s with
  | EmptyString => true
  | String c s' => (nat_of_ascii c <? 128)%nat && is_ascii s'
  end.

(** [s.lower()] *)
Fixpoint lower (s : string) : string :=
  match s with
  | EmptyString => EmptyString
  | String c s' => String (to_lower c) (lower s')
  end.

(** [s.title()]: a cased character is upper-cased when the previous
    character is not cased, and lower-cased otherwise. *)
Fixpoint title_from (prev_cased : bool) (s : string) : string :=
  match s with
  | EmptyString => EmptyString
  | String c s' =>
      if is_upper c || is_lower c
      then String (if prev_cased then to_lower c else to_upper c) (title_from true s')
      else String c (title_from false s')
  end.

Definition title (s : string) : string := title_from false s.

(** [sub in s] *)
Fixpoint contains (sub s : string) : bool :=
  if String.prefix sub s then true
  else match s with
       | EmptyString => false
       | String _ s' => contains sub s'
       end.

(** Index of the first occurrence of [sub] in [s], counted from [i]. *)
Fixpoint find_go (sub s : string) (i : nat) : option nat :=
  if String.prefix sub s then Some i
  else match s with
       | EmptyString => None
       | String _ s' => find_go sub s' (S i)
       end.

Fixpoint drop_chars (n : nat) (s : string) : string :=
  match n, s with
  | O, _ => s
  | S _, EmptyString => EmptyString
  | S n', String _ s' => drop_chars n' s'
  end.

(** [s.find(sub, start)] for [start >= 0]; [-1] when there is none. *)
Definition find (sub s : string) (start : nat) : Z :=
  if (start <=? String.length s)%nat
  then match find_go sub (drop_chars start s) start with
       | Some i => Z.of_nat i
       | None => (-1)%Z
       end
  else (-1)%Z.

Fixpoint rfind_go (sub s : string) (i : nat) (acc : option nat) : option nat :=
  let acc' := if String.prefix sub s then Some i else acc in
  match s with
  | EmptyString => acc'
  | String _ s' => rfind_go sub s' (S i) acc'
  end.

(** [s.rfind(sub)] *)
Definition rfind (sub s : string) : Z :=
  match rfind_go sub s 0 None with
  | Some i => Z.of_nat i
  | None => (-1)%Z
  end.

(** Normalisation of a slice bound against a length. *)
Definition clamp (len i : Z) : Z :=
  if (i <? 0)%Z then Z.max (i + len) 0 else Z.min i len.

(** [s[a:b]] *)
Definition slice (a b : Z) (s : string) : string :=
  let n := Z.of_nat (String.length s) in
  let a' := clamp n a in
  let b' := clamp n b in
  String.substring (Z.to_nat a') (Z.to_nat (b' - a')) s.

Fixpoint lstrip (s : string) : string :=
  match s with
  | EmptyString => EmptyString
  | String c s' => if is_space c then lstrip s' else s
  end.

(** [s.strip()] *)
Definition strip (s : string) : string :=
  String.rev (lstrip (String.rev (lstrip s))).

(** [s.replace(old, new)] for a non-empty [old]: occurrences are replaced
    from left to right without overlap. [skip] counts the characters of
    a match that remain to be dropped. *)
Fixpoint replace_go (old new : string) (skip : nat) (s : string) : string :=
  match s with
  | EmptyString => EmptyString
  | String c s' =>
      match skip with
      | S k => replace_go old new k s'
      | O => if String.prefix old s
             then new +:+ replace_go old new (String.length old - 1) s'
             else String c (replace_go old new 0 s')
      end
  end.

Definition replace (old new s : string) : string := replace_go old new 0 s.

(** [sep.join(l)] *)
Fixpoint join (sep : string) (l : list string) : string :=
  match l with
  | [] => EmptyString
  | [x] => x
  | x :: l' => x +:+ sep +:+ join sep l'
  end.

End PyStr.

(** ** Python dictionaries iterated in insertion order *)

Module PyDict.
Section dict.
Context {V : Type}.

(** [d[k] = v]: an existing key keeps its position, a new key goes last. *)
Fixpoint set (k : string) (v : V) (d : list (string * V)) : list (string * V) :=
  match d with
  | [] => [(k, v)]
  | (k', v') :: d' =>
      if decide (k' = k) then (k, v) :: d' else (k', v') :: set k v d'
  end.

(** [d.get(k)] *)
Fixpoint get (k : string) (d : list (string * V)) : option V :=
  match d with
  | [] => None
  | (k', v') :: d' => if decide (k' = k) then Some v' else get k d'
  end.

Definition keys (d : list (string * V)) : list string := d.*1.
Definition values (d : list (string * V)) : list V := d.*2.
End dict.
End PyDict.

(** ** Data model *)

(** Values of type [Any] that the stores receive. A [float] is the
    rational it denotes. *)
Inductive PyVal :=
| VNone
| VBool (b : bool)
| VInt (z : Z)
| VFloat (q : Qcanon.Qc)
| VStr (s : string)
| VList (l : list PyVal).

(** A meal of a plan: the dictionary with keys day, meal_type, name and
    description. *)
Record Meal := mkMeal {
  day : Z;
  meal_type : string;
  name : string;
  description : string }.

(** The planner's result. A key that a decoded document lacks reads as the
    default the callers give to [dict.get]. *)
Record MealPlan := mkMealPlan {
  meals : list Meal;
  summary : string;
  days : Z;
  dietary_restrictions : list string;
  plan_preferences : list string }.

Record Recipe := mkRecipe {
  recipe_id : option Z;
  title : option string;
  image : option string;
  ready_in_minutes : option Z;
  servings : option Z;
  source_url : option string;
  recipe_summary : string }.

(** Result of [RecipeFinderAgent.find_recipes_for_meals]. *)
Record RecipeResults := mkRecipeResults {
  meal_recipes : list (string * option Recipe);
  total_meals : nat;
  recipes_found : nat }.

(** Cost estimate of the optimizer; amounts are in cents (every amount the
    code adds is a multiple of 0.5, so its float arithmetic is exact). *)
Record CostEstimate := mkCostEstimate {
  total_estimate : Z;
  item_costs : list (string * Z);
  currency : string;
  note : string }.

Record ShoppingList := mkShoppingList {
  items : list string;
  grouped_by_section : option (list (string * list string));
  total_items : nat;
  estimated_cost : option CostEstimate;
  sections : option (list string) }.

Record NutritionAnalysis := mkNutritionAnalysis {
  total_calories : Z;
  total_protein_g : Z;
  total_carbs_g : Z;
  total_fat_g : Z;
  meals_analyzed : nat;
  recommendations : list string }.

(** Entry of [get_user_context]'s recent_meals. *)
Record RecentMeal := mkRecentMeal {
  rm_date : Z;
  rm_meals : list Meal;
  rm_feedback : option string }.

Record UserContext := mkUserContext {
  uc_preferences : gmap string PyVal;
  uc_recent_meals : list RecentMeal }.

(** What a session's context holds under its keys. *)
Inductive CtxVal :=
| CUserContext (uc : UserContext)
| CPreferences (p : gmap string PyVal)
| CMealPlan (p : MealPlan)
| CRecipes (r : RecipeResults)
| CShoppingList (s : option ShoppingList)
| CAny (v : PyVal).

Record Session := mkSession {
  session_id : string;
  user_id : string;
  created_at : Z;
  last_accessed : Z;
  context : gmap string CtxVal;
  preferences : gmap string PyVal }.

Record UserPreference := mkUserPreference {
  pref_user_id : string;
  preference_type : string;
  value : PyVal;
  pref_created_at : Z;
  last_updated : Z }.

Record MealHistory := mkMealHistory {
  hist_user_id : string;
  meal_plan : MealPlan;
  date : Z;
  feedback : option string }.

(** Result of [OrchestratorAgent.plan_meals]. *)
Record WorkflowResult := mkWorkflowResult {
  res_meal_plan : MealPlan;
  res_recipes : RecipeResults;
  res_shopping_list : option ShoppingList;
  res_nutrition : option (string + NutritionAnalysis);
  res_session_id : string }.

(** ** Environment and process state *)

(** The arguments from which the planning prompt is built. *)
Record PlanRequest := mkPlanRequest {
  req_days : Z;
  req_restrictions : option (list string);
  req_preferences : option (list string);
  req_budget : option Qcanon.Qc;
  req_user_context : option UserContext }.

(** What the five-second race with the model yields. *)
Inductive LlmOutcome :=
| LlmTimeout                 (* the thread is still alive after the join *)
| LlmNoText                  (* the call raised, or the reply text is empty *)
| LlmText (text : string).

Inductive ApiOutcome :=
| ApiResults (results : list Recipe)
| ApiRaised.

Record Env := mkEnv {
  (** the n-th reading of [datetime.now()] *)
  clock : nat → Z;
  (** the n-th raw draw of the random generator *)
  rand : nat → nat;
  (** the n-th [uuid.uuid4()] *)
  uuid4 : nat → string;
  (** the Gemini model; [None] when GEMINI_API_KEY is not set *)
  gemini : option (PlanRequest → LlmOutcome);
  (** [json.loads] read at the shape of a meal plan; [None] when it raises *)
  json_loads : string → option MealPlan;
  (** the Spoonacular search; [None] when SPOONACULAR_API_KEY is not set *)
  spoonacular : option (string → option (list string) → ApiOutcome);
  (** whether [future.result] of the i-th submitted lookup raises *)
  future_raises : nat → bool;
  (** the order in which n submitted futures complete *)
  as_completed : nat → list nat;
  (** constructor argument of [InMemorySessionService] *)
  session_timeout_minutes : Z;
  (** ENABLE_TRACING *)
  tracing_enabled : bool }.

Record World := mkWorld {
  (** [InMemorySessionService.sessions] *)
  sessions : gmap string Session;
  (** [MemoryBank.preferences] *)
  bank_preferences : gmap string (list UserPreference);
  (** [MemoryBank.meal_history] *)
  bank_meal_history : gmap string (list MealHistory);
  (** operation names of the spans the tracer has started *)
  traces : list string;
  (** numbers of clock readings, random draws and uuids consumed *)
  ticks : nat;
  draws : nat;
  uuids : nat }.

Definition set_sessions (f : gmap string Session → gmap string Session) (w : World) : World :=
  mkWorld (f (sessions w)) (bank_preferences w) (bank_meal_history w)
          (traces w) (ticks w) (draws w) (uuids w).

Definition set_bank_preferences
    (f : gmap string (list UserPreference) → gmap string (list UserPreference))
    (w : World) : World :=
  mkWorld (sessions w) (f (bank_preferences w)) (bank_meal_history w)
          (traces w) (ticks w) (draws w) (uuids w).

Definition set_bank_meal_history
    (f : gmap string (list MealHistory) → gmap string (list MealHistory))
    (w : World) : World :=
  mkWorld (sessions w) (bank_preferences w) (f (bank_meal_history w))
          (traces w) (ticks w) (draws w) (uuids w).

Definition set_traces (f : list string → list string) (w : World) : World :=
  mkWorld (sessions w) (bank_preferences w) (bank_meal_history w)
          (f (traces w)) (ticks w) (draws w) (uuids w).

Definition set_ticks (f : nat → nat) (w : World) : World :=
  mkWorld (sessions w) (bank_preferences w) (bank_meal_history w)
          (traces w) (f (ticks w)) (draws w) (uuids w).

Definition set_draws (f : nat → nat) (w : World) : World :=
  mkWorld (sessions w) (bank_preferences w) (bank_meal_history w)
          (traces w) (ticks w) (f (draws w)) (uuids w).

Definition set_uuids (f : nat → nat) (w : World) : World :=
  mkWorld (sessions w) (bank_preferences w) (bank_meal_history w)
          (traces w) (ticks w) (draws w) (f (uuids w)).

(** ** The monad of the embedding: state and exceptions *)

Inductive Exn :=
| ValueError (msg : string)
| IndexError (msg : string).

Inductive Result (A : Type) :=
| Ok (a : A)
| Raise (e : Exn).
Arguments Ok {A} a.
Arguments Raise {A} e.

Definition M (A : Type) : Type := World → Result A * World.

Definition ret {A} (a : A) : M A := λ w, (Ok a, w).

Definition bind {A B} (c : M A) (k : A → M B) : M B :=
  λ w, match c w with
       | (Ok a, w') => k a w'
       | (Raise e, w') => (Raise e, w')
       end.

Definition raise {A} (e : Exn) : M A := λ w, (Raise e, w).

(** [try: c except Exception as e: h e] *)
Definition try_except {A} (c : M A) (h : Exn → M A) : M A :=
  λ w, match c w with
       | (Ok a, w') => (Ok a, w')
       | (Raise e, w') => h e w'
       end.

Definition get_world : M World := λ w, (Ok w, w).
Definition modify (f : World → World) : M unit := λ w, (Ok tt, f w).

Notation "'let*' x := c 'in' k" := (bind c (λ x, k))
  (at level 10, x name, c at level 100, k at level 200).
Notation "'do' c 'in' k" := (bind c (λ _, k))
  (at level 10, c at level 100, k at level 200).

(** [for x in l: acc = body x acc] *)
Fixpoint for_each {A S} (l : list A) (body : A → S → M S) (acc : S) : M S :=
  match l with
  | [] => ret acc
  | x :: l' => let* acc' := body x acc in for_each l' body acc'
  end.

(** [for x in l: body x] *)
Fixpoint for_ {A} (l : list A) (body : A → M unit) : M unit :=
  match l with
  | [] => ret tt
  | x :: l' => do body x in for_ l' body
  end.

(** ** Clock, uuid and tracer *)

Section services.
Context (env : Env).

(** [datetime.now()] *)
Definition now : M Z :=
  λ w, (Ok (clock env (ticks w)), set_ticks S w).

(** [str(uuid.uuid4())] *)
Definition new_uuid : M string :=
  λ w, (Ok (uuid4 env (uuids w)), set_uuids S w).

(** [SimpleTracer.start_span]: the span is appended to the traces when
    tracing is enabled. [add_event] and [end_span] only write into the
    span and are not modelled. *)
Definition start_span (operation_name : string) : M unit :=
  modify (λ w, if tracing_enabled env
               then set_traces (λ t, t ++ [operation_name]) w else w).

(** The decorator [trace_operation]. *)
Definition trace_operation {A} (operation_name : string) (func : M A) : M A :=
  do start_span operation_name in func.
End services.

(** ** memory/session_service.py *)

Module InMemorySessionService.
Section defs.
Context (env : Env).

Definition with_last_accessed (t : Z) (s : Session) : Session :=
  mkSession (session_id s) (user_id s) (created_at s) t (context s) (preferences s).

Definition with_context (c : gmap string CtxVal) (s : Session) : Session :=
  mkSession (session_id s) (user_id s) (created_at s) (last_accessed s) c (preferences s).

Definition with_preferences (p : gmap string PyVal) (s : Session) : Session :=
  mkSession (session_id s) (user_id s) (created_at s) (last_accessed s) (context s) p.

(** [timedelta(minutes=session_timeout_minutes)] *)
Definition session_timeout : Z := (session_timeout_minutes env * 60000000)%Z.

Definition create_session (uid : string)
    (initial_context : option (gmap string CtxVal)) : M Session :=
  let* sid := new_uuid env in
  let* t := now env in
  let session := mkSession sid uid t t (default ∅ initial_context) ∅ in
  do modify (set_sessions (insert sid session)) in
  ret session.

Definition delete_session (sid : string) : M bool :=
  let* w := get_world in
  match sessions w !! sid with
  | Some _ => do modify (set_sessions (delete sid)) in ret true
  | None => ret false
  end.

Definition get_session (sid : string) : M (option Session) :=
  let* w := get_world in
  match sessions w !! sid with
  | None => ret None
  | Some session =>
      let* t := now env in
      if (session_timeout <? t - last_accessed session)%Z
      then do delete_session sid in ret None
      else
        let* t' := now env in
        let session' := with_last_accessed t' session in
        do modify (set_sessions (insert sid session')) in
        ret (Some session')
  end.

Definition update_session_context (sid : string)
    (context_updates : gmap string CtxVal) : M bool :=
  let* s := get_session sid in
  match s with
  | None => ret false
  | Some session =>
      let session1 := with_context (context_updates ∪ context session) session in
      let* t := now env in
      do modify (set_sessions (insert sid (with_last_accessed t session1))) in
      ret true
  end.

Definition update_preferences (sid : string)
    (prefs : gmap string PyVal) : M bool :=
  let* s := get_session sid in
  match s with
  | None => ret false
  | Some session =>
      let session1 := with_preferences (prefs ∪ preferences session) session in
      let* t := now env in
      do modify (set_sessions (insert sid (with_last_accessed t session1))) in
      ret true
  end.

Definition cleanup_expired_sessions : M nat :=
  let* t := now env in
  let* w := get_world in
  let expired :=
    (filter (λ p : string * Session,
               (session_timeout < t - last_accessed p.2)%Z)
            (map_to_list (sessions w))).*1 in
  do modify (set_sessions (λ m, foldl (λ m sid, delete sid m) m expired)) in
  ret (length expired).

Definition get_user_sessions (uid : string) : M (list Session) :=
  let* w := get_world in
  ret (filter (λ s, user_id s = uid) (map_to_list (sessions w)).*2).
End defs.
End InMemorySessionService.

(** ** memory/memory_bank.py

    [save_to_disk] serialises the two dictionaries to a file and swallows
    every error; it changes nothing in memory and is left out. *)

Module MemoryBank.
Section defs.
Context (env : Env).

Definition with_value (v : PyVal) (t : Z) (p : UserPreference) : UserPreference :=
  mkUserPreference (pref_user_id p) (preference_type p) v (pref_created_at p) t.

(** The effect of [add_preference] on the user's list: the first entry
    of the type is updated in place, or a new entry is appended. *)
Definition upsert (uid ptype : string) (v : PyVal) (t : Z)
    (prefs : list UserPreference) : list UserPreference :=
  let existing := list_find (λ p, preference_type p = ptype) prefs in
  match existing with
  | Some (i, p) => <[i := with_value v t p]> prefs
  | None => prefs ++ [mkUserPreference uid ptype v t t]
  end.

Definition add_preference (uid ptype : string) (v : PyVal) : M unit :=
  let* w := get_world in
  let prefs := default [] (bank_preferences w !! uid) in
  let* t := now env in
  modify (set_bank_preferences (insert uid (upsert uid ptype v t prefs))).

(** The dictionary comprehension: a later entry of a type overwrites an
    earlier one. *)
Definition prefs_dict (prefs : list UserPreference) : gmap string PyVal :=
  foldl (λ d p, <[preference_type p := value p]> d) ∅ prefs.

Definition get_preferences (uid : string) : M (gmap string PyVal) :=
  let* w := get_world in
  ret (prefs_dict (default [] (bank_preferences w !! uid))).

Definition get_preference (uid ptype : string) : M (option PyVal) :=
  let* w := get_world in
  let prefs := default [] (bank_preferences w !! uid) in
  ret (match list_find (λ p, preference_type p = ptype) prefs with
       | Some (_, p) => Some (value p)
       | None => None
       end).

(** [l[-n:]] for [n > 0] *)
Definition last_n {A} (n : nat) (l : list A) : list A := drop (length l - n) l.

Definition add_meal_history (uid : string) (plan : MealPlan)
    (fb : option string) : M unit :=
  let* w := get_world in
  let history := default [] (bank_meal_history w !! uid) in
  let* t := now env in
  let history1 := history ++ [mkMealHistory uid plan t fb] in
  let history2 :=
    if (50 <? length history1)%nat then last_n 50 history1 else history1 in
  modify (set_bank_meal_history (insert uid history2)).

(** [history[-limit:] if limit else history] *)
Definition get_meal_history (uid : string) (limit : Z) : M (list MealHistory) :=
  let* w := get_world in
  let history := default [] (bank_meal_history w !! uid) in
  ret (if (limit =? 0)%Z then history
       else if (0 <? limit)%Z then last_n (Z.to_nat limit) history
       else drop (Z.to_nat (- limit)) history).

Definition get_user_context (uid : string) : M UserContext :=
  let* prefs := get_preferences uid in
  let* recent := get_meal_history uid 5 in
  ret (mkUserContext prefs
         ((λ h, mkRecentMeal (date h) (meals (meal_plan h)) (feedback h)) <$> recent)).
End defs.
End MemoryBank.

(** ** agents/meal_planner.py *)

Module MealPlannerAgent.
Section defs.
Context (env : Env).

Definition meal_types : list string := ["breakfast"; "lunch"; "dinner"].

Definition meal_options : list (string * list (string * list string)) :=
  [ ("breakfast",
      [ ("vegetarian", ["Oatmeal with berries"; "Scrambled eggs with toast";
                        "Greek yogurt parfait"; "Avocado toast"; "Pancakes with fruit"]);
        ("vegan", ["Oatmeal with berries"; "Avocado toast"; "Smoothie bowl";
                   "Chia pudding"; "Fruit salad"]);
        ("default", ["Oatmeal with berries"; "Scrambled eggs with toast";
                     "Greek yogurt parfait"; "Avocado toast"]) ]);
    ("lunch",
      [ ("vegetarian", ["Caesar salad"; "Vegetable stir-fry"; "Quinoa bowl";
                        "Caprese sandwich"; "Lentil soup"]);
        ("vegan", ["Caesar salad (vegan)"; "Vegetable stir-fry"; "Quinoa bowl";
                   "Hummus wrap"; "Lentil soup"]);
        ("default", ["Caesar salad"; "Chicken wrap"; "Vegetable stir-fry";
                     "Quinoa bowl"]) ]);
    ("dinner",
      [ ("vegetarian", ["Pasta with marinara"; "Tofu curry"; "Mushroom risotto";
                        "Vegetable lasagna"; "Stuffed peppers"]);
        ("vegan", ["Pasta with marinara"; "Tofu curry"; "Lentil curry";
                   "Vegetable stir-fry"; "Chickpea curry"]);
        ("default", ["Pasta with marinara"; "Grilled chicken with vegetables";
                     "Tofu curry"; "Salmon with rice"]) ]) ].

(** The value stored under [selected_meals[meal_type]]. *)
Definition select_options (restrictions : option (list string))
    (mt : string) : list string :=
  let options := default [] (PyDict.get mt meal_options) in
  let dflt := default [] (PyDict.get "default" options) in
  match restrictions with
  | Some ((_ :: _) as r) =>
      if bool_decide ("vegan" ∈ r)
      then default dflt (PyDict.get "vegan" options)
      else if bool_decide ("vegetarian" ∈ r)
      then default dflt (PyDict.get "vegetarian" options)
      else dflt
  | _ => dflt
  end.

Definition selected_meals (restrictions : option (list string))
    : list (string * list string) :=
  foldl (λ d mt, PyDict.set mt (select_options restrictions mt) d) []
        ["breakfast"; "lunch"; "dinner"].

(** [random.choice(seq)]: the element at a random index below the
    length; an empty sequence has none. *)
Definition random_choice (seq : list string) : M string :=
  λ w, match seq !! (rand env (draws w) mod length seq) with
       | Some x => (Ok x, set_draws S w)
       | None => (Raise (IndexError "Cannot choose from an empty sequence"), w)
       end.

Definition mock_meal (d : Z) (mt meal_name : string) : Meal :=
  mkMeal d mt meal_name
         ("A delicious " +:+ PyStr.lower meal_name +:+ " for " +:+ mt).

Definition _generate_mock_meal_plan (n_days : Z)
    (restrictions prefs : option (list string)) : M MealPlan :=
  let selected := selected_meals restrictions in
  let* ms :=
    for_each (seqZ 1 n_days) (λ d ms,
      for_each meal_types (λ mt ms,
        let* meal_name := random_choice (default [] (PyDict.get mt selected)) in
        ret (ms ++ [mock_meal d mt meal_name])) ms) [] in
  ret (mkMealPlan ms
         ("Generated " +:+ pretty n_days +:+ "-day meal plan with "
            +:+ pretty (length ms) +:+ " meals")
         n_days (default [] restrictions) (default [] prefs)).

(** The document that [_parse_llm_response] hands to [json.loads] and
    its decoding; [None] when no document is found or decoding raises. *)
Definition decode_response (response_text : string) : option MealPlan :=
  if PyStr.contains "```json" response_text then
    let json_start := (PyStr.find "```json" response_text 0 + 7)%Z in
    let json_end := PyStr.find "```" response_text (Z.to_nat json_start) in
    json_loads env (PyStr.strip (PyStr.slice json_start json_end response_text))
  else if PyStr.contains "{" response_text then
    let json_start := PyStr.find "{" response_text 0 in
    let json_end := (PyStr.rfind "}" response_text + 1)%Z in
    json_loads env (PyStr.slice json_start json_end response_text)
  else None.

Definition _parse_llm_response (response_text : string) (n_days : Z) : M MealPlan :=
  match decode_response response_text with
  | Some plan => ret plan
  | None => _generate_mock_meal_plan n_days None None
  end.

Definition plan_meals (n_days : Z) (restrictions prefs : option (list string))
    (budget : option Qcanon.Qc) (user_context : option UserContext) : M MealPlan :=
  trace_operation env "plan_meals" (
    do start_span env "meal_planner_plan" in
    try_except
      (match gemini env with
       | Some model =>
           try_except
             (match model (mkPlanRequest n_days restrictions prefs budget user_context) with
              | LlmTimeout => _generate_mock_meal_plan n_days restrictions prefs
              | LlmNoText => _generate_mock_meal_plan n_days restrictions prefs
              | LlmText EmptyString => _generate_mock_meal_plan n_days restrictions prefs
              | LlmText response_text => _parse_llm_response response_text n_days
              end)
             (λ _, _generate_mock_meal_plan n_days restrictions prefs)
       | None => _generate_mock_meal_plan n_days restrictions prefs
       end)
      (λ _, _generate_mock_meal_plan n_days restrictions prefs)).
End defs.
End MealPlannerAgent.

(** ** tools/recipe_search.py *)

Module RecipeSearchTool.
Section defs.
Context (env : Env).

Definition meat_keywords : list string :=
  ["chicken"; "beef"; "pork"; "salmon"; "fish"; "meat"; "turkey"; "lamb"].

Definition _get_mock_recipes (query : string)
    (restrictions : option (list string)) (cuisine : option string)
    (max_results : nat) : list Recipe :=
  let query_lower := PyStr.lower query in
  let has_meat := existsb (λ k, PyStr.contains k query_lower) meat_keywords in
  let query :=
    match restrictions with
    | Some ((_ :: _) as r) =>
        if (bool_decide ("vegan" ∈ r) || bool_decide ("vegetarian" ∈ r)) && has_meat
        then
          let q := PyStr.replace "beef" "lentils"
                     (PyStr.replace "salmon" "tofu"
                        (PyStr.replace "chicken" "tofu" query)) in
          PyStr.replace "fish" "tofu" (PyStr.replace "meat" "vegetables" q)
        else query
    | _ => query
    end in
  take max_results
    [ mkRecipe (Some 1%Z) (Some ("Delicious " +:+ PyStr.title query))
        (Some "https://via.placeholder.com/300") (Some 30%Z) (Some 4%Z)
        (Some "https://example.com/recipe1")
        ("A tasty " +:+ query +:+ " recipe that's easy to make.");
      mkRecipe (Some 2%Z) (Some ("Healthy " +:+ PyStr.title query +:+ " Bowl"))
        (Some "https://via.placeholder.com/300") (Some 25%Z) (Some 2%Z)
        (Some "https://example.com/recipe2")
        ("A nutritious " +:+ query +:+ " bowl perfect for a quick meal.");
      mkRecipe (Some 3%Z) (Some ("Classic " +:+ PyStr.title query))
        (Some "https://via.placeholder.com/300") (Some 45%Z) (Some 6%Z)
        (Some "https://example.com/recipe3")
        ("Traditional " +:+ query +:+ " recipe with authentic flavors.") ].

(** The field mapping of [_search_spoonacular] on one result. *)
Definition map_result (r : Recipe) : Recipe :=
  mkRecipe (recipe_id r) (title r) (image r) (ready_in_minutes r) (servings r)
    (source_url r)
    (match recipe_summary r with
     | EmptyString => EmptyString
     | s => PyStr.slice 0 200 s +:+ "..."
     end).

(** [None] when the request raises. *)
Definition _search_spoonacular
    (api : string → option (list string) → ApiOutcome)
    (query : string) (restrictions : option (list string))
    (max_results : nat) : option (list Recipe) :=
  match api query restrictions with
  | ApiResults results => Some (map_result <$> take max_results results)
  | ApiRaised => None
  end.

Definition search_recipes (query : string)
    (restrictions : option (list string)) (cuisine : option string)
    (max_results : nat) : M (list Recipe) :=
  do start_span env "recipe_search" in
  try_except
    (match spoonacular env with
     | Some api =>
         match _search_spoonacular api query restrictions max_results with
         | Some recipes => ret recipes
         | None => ret (_get_mock_recipes query restrictions cuisine max_results)
         end
     | None => ret (_get_mock_recipes query restrictions cuisine max_results)
     end)
    (λ _, ret (_get_mock_recipes query restrictions cuisine max_results)).
End defs.
End RecipeSearchTool.

(** ** agents/recipe_finder.py *)

Module RecipeFinderAgent.
Section defs.
Context (env : Env).

Definition process_meal (restrictions : option (list string)) (meal : Meal)
    : M (string * option Recipe) :=
  let meal_name := name meal in
  try_except
    (let search_query := meal_name in
     let* recipes := RecipeSearchTool.search_recipes env search_query restrictions None 3 in
     match recipes with
     | best_recipe :: _ => ret (meal_name, Some best_recipe)
     | [] => ret (meal_name, None)
     end)
    (λ _, ret (meal_name, None)).

(** The body of the loop over [as_completed]: the i-th submitted future
    has completed. *)
Definition collect (futures : list (Meal * (string * option Recipe)))
    (meal_recipes : list (string * option Recipe)) (i : nat)
    : list (string * option Recipe) :=
  match futures !! i with
  | Some (meal, (meal_name, recipe)) =>
      if future_raises env i
      then PyDict.set (name meal) None meal_recipes
      else PyDict.set meal_name recipe meal_recipes
  | None => meal_recipes
  end.

(** The lookups run in the pool; each only appends its span to the
    traces, so running them in submission order loses nothing. Their
    results are collected in completion order. *)
Definition find_recipes_for_meals (ms : list Meal)
    (restrictions : option (list string)) : M RecipeResults :=
  trace_operation env "find_recipes" (
    do start_span env "recipe_finder_find" in
    let* futures :=
      for_each ms (λ meal fs,
        let* r := process_meal restrictions meal in
        ret (fs ++ [(meal, r)])) [] in
    let meal_recipes := foldl (collect futures) [] (as_completed env (length ms)) in
    ret (mkRecipeResults meal_recipes (length ms)
           (length (filter (λ r : option Recipe, is_Some r)
                           (PyDict.values meal_recipes))))).
End defs.
End RecipeFinderAgent.

(** ** tools/shopping_optimizer.py *)

Module ShoppingOptimizerTool.
Section defs.
Context (env : Env).

Definition store_sections : list (string * list string) :=
  [ ("produce", ["lettuce"; "tomato"; "onion"; "garlic"; "pepper"; "carrot";
                 "celery"; "potato"; "apple"; "banana"; "orange"]);
    ("dairy", ["milk"; "cheese"; "yogurt"; "butter"; "cream"; "eggs"]);
    ("meat", ["chicken"; "beef"; "pork"; "fish"; "turkey"; "bacon"; "sausage"]);
    ("pantry", ["flour"; "sugar"; "salt"; "pepper"; "oil"; "vinegar"; "rice";
                "pasta"; "beans"; "canned"]);
    ("frozen", ["frozen"; "ice cream"]);
    ("bakery", ["bread"; "bagel"; "roll"; "croissant"]);
    ("beverages", ["juice"; "soda"; "water"; "coffee"; "tea"]) ].

(** [any(word in s for word in words)] *)
Definition any_in (words : list string) (s : string) : bool :=
  existsb (λ word, PyStr.contains word s) words.

Definition _normalize_ingredients (ingredients : list string) : list string :=
  fst (foldl (λ '(normalized, seen) ingredient,
                let n0 := PyStr.strip (PyStr.lower ingredient) in
                let normalized_ing :=
                  PyStr.replace "dried " EmptyString (PyStr.replace "fresh " EmptyString n0) in
                if negb (String.eqb normalized_ing EmptyString)
                   && negb (bool_decide (normalized_ing ∈ seen))
                then (normalized ++ [PyStr.strip ingredient], seen ++ [normalized_ing])
                else (normalized, seen))
             (([], []) : list string * list string) ingredients).

Definition _group_by_section (ingredients : list string)
    : list (string * list string) :=
  let '(grouped, unassigned) :=
    foldl (λ '(grouped, unassigned) ingredient,
             let ingredient_lower := PyStr.lower ingredient in
             match list_find (λ sec : string * list string,
                                any_in sec.2 ingredient_lower = true) store_sections with
             | Some (_, (section, _)) =>
                 (PyDict.set section
                    (default [] (PyDict.get section grouped) ++ [ingredient]) grouped,
                  unassigned)
             | None => (grouped, unassigned ++ [ingredient])
             end)
          (([], []) : list (string * list string) * list string) ingredients in
  match unassigned with
  | [] => grouped
  | _ => PyDict.set "other" unassigned grouped
  end.

Definition cost_of (ingredient_lower : string) : Z :=
  if any_in ["chicken"; "beef"; "pork"; "fish"] ingredient_lower then 800
  else if any_in ["cheese"; "milk"; "yogurt"] ingredient_lower then 400
  else if any_in ["lettuce"; "tomato"; "onion"; "pepper"] ingredient_lower then 200
  else if any_in ["pasta"; "rice"; "flour"] ingredient_lower then 300
  else if any_in ["bread"; "bagel"] ingredient_lower then 350
  else 300.

Definition _estimate_costs (ingredients : list string) : CostEstimate :=
  let '(total, costs) :=
    foldl (λ '(total, costs) ingredient,
             let cost := cost_of (PyStr.lower ingredient) in
             ((total + cost)%Z, PyDict.set ingredient cost costs))
          ((0%Z, []) : Z * list (string * Z)) ingredients in
  mkCostEstimate total costs "USD"
    "Estimates are approximate and may vary by location".

Definition optimize_shopping_list (ingredients : list string)
    (group_by_section estimate_costs : bool) : M ShoppingList :=
  do start_span env "optimize_shopping_list" in
  let normalized := _normalize_ingredients ingredients in
  let grouped :=
    if group_by_section then _group_by_section normalized
    else [("all", normalized)] in
  let cost_estimate :=
    if estimate_costs then Some (_estimate_costs normalized) else None in
  ret (mkShoppingList normalized
         (if group_by_section then Some grouped else None)
         (length normalized) cost_estimate
         (if group_by_section then Some (PyDict.keys grouped) else None)).

Definition merge_shopping_lists (list1 list2 : list string) : M (list string) :=
  do start_span env "merge_shopping_lists" in
  let combined := list1 ++ list2 in
  let merged := _normalize_ingredients combined in
  ret merged.
End defs.
End ShoppingOptimizerTool.

(** ** agents/shopping_list.py *)

Module ShoppingListAgent.
Section defs.
Context (env : Env).

Record Generated := mkGenerated {
  shopping_list : ShoppingList;
  gen_total_meals : nat;
  optimized : bool }.

Definition _generate_mock_ingredients (meal_name : string) : list string :=
  let meal_lower := PyStr.lower meal_name in
  let base_ingredients := ["salt"; "pepper"; "olive oil"] in
  if PyStr.contains "pasta" meal_lower
  then base_ingredients ++ ["pasta"; "tomato sauce"; "garlic"; "onion"]
  else if PyStr.contains "chicken" meal_lower
  then base_ingredients ++ ["chicken breast"; "vegetables"; "herbs"]
  else if PyStr.contains "salad" meal_lower
  then base_ingredients ++ ["lettuce"; "tomato"; "cucumber"; "dressing"]
  else if PyStr.contains "curry" meal_lower
  then base_ingredients ++ ["curry powder"; "coconut milk"; "vegetables"; "rice"]
  else base_ingredients ++ ["main ingredient"; "vegetables"; "spices"].

Definition _extract_ingredients (recipe : Recipe) (meal_name : string) : list string :=
  _generate_mock_ingredients meal_name.

Definition generate_shopping_list (recipes : list (string * option Recipe))
    (optimize : bool) : M Generated :=
  trace_operation env "generate_shopping_list" (
    do start_span env "shopping_list_generate" in
    let all_ingredients :=
      foldl (λ acc '(meal_name, recipe),
               match recipe with
               | Some r => acc ++ _extract_ingredients r meal_name
               | None => acc
               end) [] recipes in
    let* opt :=
      if optimize
      then ShoppingOptimizerTool.optimize_shopping_list env all_ingredients true true
      else ret (mkShoppingList all_ingredients None (length all_ingredients) None None) in
    ret (mkGenerated opt (length recipes) optimize)).
End defs.
End ShoppingListAgent.

(** ** tools/nutrition.py

    The meals handed over by the orchestrator are the dictionaries
    [{"title": name, **recipe}]; a recipe always has the key title, so the
    dictionary is the recipe. All quantities the code adds are integers. *)

Module NutritionAnalysisTool.
Section defs.
Context (env : Env).

Record Nutrition := mkNutrition {
  calories : Z; protein : Z; carbs : Z; fat : Z }.

(** [None] when lower-casing the title raises, the title being
    [None]. *)
Definition _estimate_nutrition (meal : Recipe) : option Nutrition :=
  match title meal with
  | None => None
  | Some t =>
      let t := PyStr.lower t in
      Some (if PyStr.contains "salad" t || PyStr.contains "bowl" t
            then mkNutrition 400 20 40 15
            else if PyStr.contains "pasta" t || PyStr.contains "noodle" t
            then mkNutrition 600 20 80 15
            else if PyStr.contains "chicken" t || PyStr.contains "meat" t
            then mkNutrition 550 40 30 25
            else if PyStr.contains "soup" t
            then mkNutrition 300 15 35 10
            else mkNutrition 500 25 50 20)
  end.

(** The targets are 2000, 100, 250 and 65; the products with 0.8, 1.2,
    0.7 and 1.3 are the floats 1600, 2400, 70, 175 and 84.5. *)
Definition _generate_recommendations (c p cb f : Z) : list string :=
  let r1 :=
    if (c <? 1600)%Z
    then ["Consider adding more calorie-dense foods to meet daily needs"]
    else if (2400 <? c)%Z
    then ["Meal plan is high in calories - consider lighter options"]
    else [] in
  let r2 :=
    if (p <? 70)%Z
    then ["Add more protein sources like lean meats, beans, or tofu"] else [] in
  let r3 :=
    if (cb <? 175)%Z
    then ["Include more whole grains and vegetables for balanced carbs"] else [] in
  let r4 :=
    if (169 <? 2 * f)%Z
    then ["Consider reducing high-fat foods for better balance"] else [] in
  match r1 ++ r2 ++ r3 ++ r4 with
  | [] => ["Nutritional balance looks good!"]
  | rs => rs
  end.

(** The sum is [inl] of the error text when the estimate of a meal
    raises. *)
Definition analyze_meal_nutrition (ms : list Recipe)
    : M (string + NutritionAnalysis) :=
  do start_span env "analyze_meal_nutrition" in
  let totals :=
    foldl (λ acc meal,
             match acc, _estimate_nutrition meal with
             | Some (c, p, cb, f), Some n =>
                 Some ((c + calories n)%Z, (p + protein n)%Z,
                       (cb + carbs n)%Z, (f + fat n)%Z)
             | _, _ => None
             end) (Some (0%Z, 0%Z, 0%Z, 0%Z)) ms in
  match totals with
  | Some (c, p, cb, f) =>
      ret (inr (mkNutritionAnalysis c p cb f (length ms)
                  (_generate_recommendations c p cb f)))
  | None => ret (inl "'NoneType' object has no attribute 'lower'")
  end.
End defs.
End NutritionAnalysisTool.

(** ** tools/ordering_service.py *)

Module OrderingService.

Definition supported_services : list string :=
  ["Instacart"; "Amazon Fresh"; "Walmart Grocery"; "Kroger"; "Target"; "Whole Foods"].

Definition base_urls : list (string * string) :=
  [ ("Instacart", "https://www.instacart.com/store/search");
    ("Amazon Fresh", "https://www.amazon.com/s?k");
    ("Walmart Grocery", "https://www.walmart.com/search");
    ("Kroger", "https://www.kroger.com/search");
    ("Target", "https://www.target.com/s");
    ("Whole Foods", "https://www.amazon.com/wholefoods/search") ].

Definition _generate_search_url (service : string) (items : list string) : string :=
  let base := default "https://www.google.com/search" (PyDict.get service base_urls) in
  let query := PyStr.join "+" (take 3 items) in
  base +:+ "?q=" +:+ query.

(** An entry of the dictionary services. *)
Record ServiceLink := mkServiceLink {
  link_name : string;
  search_url : string;
  cart_url : string;
  available : bool }.

Record OrderData := mkOrderData {
  order_items : list string;
  order_total_items : nat;
  services : list (string * ServiceLink);
  recommended_service : option string }.

Definition generate_order_links (shopping_list : ShoppingList)
    (preferred_service : option string) : OrderData :=
  let items :=
    match grouped_by_section shopping_list with
    | Some ((_ :: _) as grouped) => concat (PyDict.values grouped)
    | _ => []
    end in
  let services :=
    foldl (λ d service,
             PyDict.set service
               (mkServiceLink service
                  (_generate_search_url service (take 5 items))
                  ("https://www." +:+ PyStr.replace " " EmptyString (PyStr.lower service)
                     +:+ ".com/cart")
                  true) d) [] supported_services in
  mkOrderData items (length items) services
    (match preferred_service with
     | Some (String _ _ as service) => Some service
     | _ => None
     end).
End OrderingService.

(** ** agents/orchestrator.py *)

Module OrchestratorAgent.
Section defs.
Context (env : Env).

Definition create_session (uid : string)
    (initial_preferences : option (gmap string PyVal)) : M string :=
  do start_span env "create_session" in
  let* user_context := MemoryBank.get_user_context uid in
  let user_context :=
    match initial_preferences with
    | Some p =>
        if bool_decide (p = ∅) then user_context
        else mkUserContext (p ∪ uc_preferences user_context)
                           (uc_recent_meals user_context)
    | None => user_context
    end in
  let* session :=
    InMemorySessionService.create_session env uid
      (Some (<["user_context" := CUserContext user_context]>
             (<["preferences" := CPreferences (uc_preferences user_context)]> ∅))) in
  ret (session_id session).

(** [session.context.get("user_context", {})] *)
Definition context_user_context (session : Session) : option UserContext :=
  match context session !! "user_context" with
  | Some (CUserContext uc) => Some uc
  | _ => None
  end.

(** The recipes of the meals that have one, in the order of the meals. *)
Definition meals_with_recipes (ms : list Meal)
    (recipes : list (string * option Recipe)) : list Recipe :=
  omap (λ meal, mjoin (PyDict.get (name meal) recipes)) ms.

Definition plan_meals (sid : string) (n_days : Z)
    (restrictions prefs : option (list string)) (budget : option Qcanon.Qc)
    (include_nutrition include_shopping_list : bool) : M WorkflowResult :=
  trace_operation env "plan_meals_complete" (
    do start_span env "orchestrator_plan_meals" in
    try_except
      (let* s := InMemorySessionService.get_session env sid in
       match s with
       | None => raise (ValueError ("Session " +:+ sid +:+ " not found"))
       | Some session =>
           let user_context := context_user_context session in
           (* Step 1: plan meals *)
           let* plan :=
             MealPlannerAgent.plan_meals env n_days restrictions prefs budget
               user_context in
           (* Step 2: find recipes *)
           let* recipe_results :=
             RecipeFinderAgent.find_recipes_for_meals env (meals plan) restrictions in
           (* Step 3: shopping list *)
           let* shopping :=
             if include_shopping_list
             then
               let* g := ShoppingListAgent.generate_shopping_list env
                           (meal_recipes recipe_results) true in
               ret (Some (ShoppingListAgent.shopping_list g))
             else ret None in
           (* Step 4: nutrition *)
           let* nutrition :=
             if include_nutrition
             then
               let* a := NutritionAnalysisTool.analyze_meal_nutrition env
                           (meals_with_recipes (meals plan)
                              (meal_recipes recipe_results)) in
               ret (Some a)
             else ret None in
           do InMemorySessionService.update_session_context env sid
                (<["last_meal_plan" := CMealPlan plan]>
                 (<["last_recipes" := CRecipes recipe_results]>
                  (<["last_shopping_list" := CShoppingList shopping]> ∅))) in
           do MemoryBank.add_meal_history env (user_id session) plan None in
           do match restrictions with
              | Some rs =>
                  for_ rs (λ restriction,
                    MemoryBank.add_preference env (user_id session)
                      "dietary_restriction" (VStr restriction))
              | None => ret tt
              end in
           do match prefs with
              | Some ((_ :: _) as ps) =>
                  MemoryBank.add_preference env (user_id session)
                    "cuisine_preferences" (VList (VStr <$> ps))
              | _ => ret tt
              end in
           ret (mkWorkflowResult plan recipe_results shopping nutrition sid)
       end)
      (λ e, raise e)).

Definition update_preferences (sid : string)
    (prefs : list (string * PyVal)) : M bool :=
  let* s := InMemorySessionService.get_session env sid in
  match s with
  | None => ret false
  | Some session =>
      do InMemorySessionService.update_preferences env sid
           (foldl (λ d '(k, v), <[k := v]> d) ∅ prefs) in
      do for_ prefs (λ '(k, v),
           MemoryBank.add_preference env (user_id session) k v) in
      ret true
  end.

Record SessionInfo := mkSessionInfo {
  info_session_id : string;
  info_user_id : string;
  info_created_at : Z;
  info_last_accessed : Z;
  info_preferences : gmap string PyVal;
  info_context_keys : list string }.

Definition get_session_info (sid : string) : M (option SessionInfo) :=
  let* s := InMemorySessionService.get_session env sid in
  match s with
  | None => ret None
  | Some session =>
      ret (Some (mkSessionInfo (session_id session) (user_id session)
                   (created_at session) (last_accessed session)
                   (preferences session)
                   (map_to_list (context session)).*1))
  end.
End defs.
End OrchestratorAgent.

(** ** Vocabulary of the statements *)

(** [c], run from the state [w], returns a value and a state that satisfy
    [Q]: it does not raise. *)
Definition returns {A} (c : M A) (w : World) (Q : A → World → Prop) : Prop :=
  ∃ a w', c w = (Ok a, w') ∧ Q a w'.

(** [c], run from [w], raises [e] and leaves a state that satisfies [Q]. *)
Definition raises {A} (c : M A) (w : World) (e : Exn) (Q : World → Prop) : Prop :=
  ∃ w', c w = (Raise e, w') ∧ Q w'.

(** The state after [start_span]. *)
Definition traced (env : Env) (op : string) (w : World) : World :=
  if tracing_enabled env then set_traces (λ t, t ++ [op]) w else w.

(** [w'] has the sessions, the preferences, the meal histories and the
    clock readings of [w]. *)
Definition same_stores (w w' : World) : Prop :=
  sessions w' = sessions w
  ∧ bank_preferences w' = bank_preferences w
  ∧ bank_meal_history w' = bank_meal_history w
  ∧ ticks w' = ticks w.

(** Every stored session is stored under its own id. *)
Definition sessions_keyed (w : World) : Prop :=
  ∀ sid s, sessions w !! sid = Some s → session_id s = sid.

(** The idle time of a session at the next reading of the clock. *)
Definition idle_time (env : Env) (w : World) (s : Session) : Z :=
  (clock env (ticks w) - last_accessed s)%Z.

(** The days and meal types of a plan of [n_days] days, in the order of the
    plan: breakfast, lunch and dinner of day 1, then of day 2, and so on. *)
Definition slots (n_days : Z) : list (Z * string) :=
  d ← seqZ 1 n_days; (λ mt, (d, mt)) <$> MealPlannerAgent.meal_types.

(** The name that the k-th draw of the generator picks for a meal type. *)
Definition draw_name (env : Env) (restrictions : option (list string))
    (k : nat) (mt : string) : string :=
  let options := MealPlannerAgent.select_options restrictions mt in
  default EmptyString (options !! (rand env k mod length options)).

(** The meals of the mock plan for the days [ds] when the draws start at
    the k-th. *)
Fixpoint mock_meals (env : Env) (restrictions : option (list string))
    (k : nat) (ds : list Z) : list Meal :=
  match ds with
  | [] => []
  | d :: ds' =>
      [ MealPlannerAgent.mock_meal d "breakfast" (draw_name env restrictions k "breakfast");
        MealPlannerAgent.mock_meal d "lunch" (draw_name env restrictions (1 + k) "lunch");
        MealPlannerAgent.mock_meal d "dinner" (draw_name env restrictions (2 + k) "dinner") ]
      ++ mock_meals env restrictions (3 + k) ds'
  end.

(** The document decoded from the model's reply to a request, if the
    planner obtains one. *)
Definition llm_plan (env : Env) (req : PlanRequest) : option MealPlan :=
  match gemini env with
  | Some model =>
      match model req with
      | LlmText text => MealPlannerAgent.decode_response env text
      | _ => None
      end
  | None => None
  end.

(** A plan of [n_days] days with breakfast, lunch and dinner on each day. *)
Definition three_meals_a_day (n_days : Z) (plan : MealPlan) : Prop :=
  Z.of_nat (length (meals plan)) = (3 * n_days)%Z
  ∧ (λ m, (day m, meal_type m)) <$> meals plan = slots n_days
  ∧ Forall (λ m, (1 ≤ day m ≤ n_days)%Z) (meals plan).

(** The value a run returns, if it returns. *)
Definition result_value {A} (r : Result A * World) : option A :=
  match r.1 with
  | Ok a => Some a
  | Raise _ => None
  end.

(** The recipes that [search_recipes] returns. *)
Definition search_result (env : Env) (query : string)
    (restrictions : option (list string)) (cuisine : option string)
    (max_results : nat) : list Recipe :=
  match spoonacular env with
  | Some api =>
      match RecipeSearchTool._search_spoonacular api query restrictions max_results with
      | Some recipes => recipes
      | None => RecipeSearchTool._get_mock_recipes query restrictions cuisine max_results
      end
  | None => RecipeSearchTool._get_mock_recipes query restrictions cuisine max_results
  end.

(** What the lookup of the i-th submitted meal yields: its first recipe, or
    nothing when the search finds none or the future raises. *)
Definition lookup_outcome (env : Env) (restrictions : option (list string))
    (i : nat) (meal : Meal) : option Recipe :=
  if future_raises env i then None
  else head (search_result env (name meal) restrictions None 3).

(** The entries [(name, outcome)] of the meals, in submission order. *)
Definition lookup_entries (env : Env) (restrictions : option (list string))
    (ms : list Meal) : list (string * option Recipe) :=
  imap (λ i meal, (name meal, lookup_outcome env restrictions i meal)) ms.

(** The number of meals of the list whose lookup yields a recipe. *)
Definition lookups_succeeded (env : Env) (restrictions : option (list string))
    (ms : list Meal) : nat :=
  length (filter (λ r : option Recipe, is_Some r)
                 (imap (lookup_outcome env restrictions) ms)).

(** In the completion order [order], no lookup of a meal named as the
    i-th meal completes after the lookup of the i-th meal. *)
Definition completes_last (order : list nat) (ms : list Meal) (i : nat) : Prop :=
  ∃ pre post, order = pre ++ i :: post
              ∧ ∀ j, j ∈ post → name <$> ms !! j ≠ name <$> ms !! i.

(** The bank holds at most one entry per user and preference type, and the
    entries filed under a user carry that user. *)
Definition prefs_unique (w : World) : Prop :=
  ∀ uid prefs, bank_preferences w !! uid = Some prefs →
    NoDup (preference_type <$> prefs) ∧ Forall (λ p, pref_user_id p = uid) prefs.

(** A sequence of [add_preference] calls [(user, type, value)]. *)
Definition add_preferences (env : Env) (calls : list (string * string * PyVal)) : M unit :=
  for_ calls (λ '(uid, ptype, v), MemoryBank.add_preference env uid ptype v).

(** A sequence of writes [(type, value)] to the preferences of one user. *)
Definition write_preferences (env : Env) (uid : string)
    (writes : list (string * PyVal)) : M unit :=
  for_ writes (λ '(ptype, v), MemoryBank.add_preference env uid ptype v).

(** The value of the first entry of a type. *)
Fixpoint first_value (ptype : string) (prefs : list UserPreference) : option PyVal :=
  match prefs with
  | [] => None
  | p :: prefs' =>
      if decide (preference_type p = ptype) then Some (value p)
      else first_value ptype prefs'
  end.

(** The value that a sequence of writes wrote last for a type. *)
Fixpoint last_written (ptype : string) (writes : list (string * PyVal)) : option PyVal :=
  match writes with
  | [] => None
  | (t, v) :: writes' =>
      match last_written ptype writes' with
      | Some v' => Some v'
      | None => if decide (t = ptype) then Some v else None
      end
  end.

(** The key under which [_normalize_ingredients] remembers an ingredient:
    lower-cased, stripped, without the words fresh and dried. *)
Definition norm_key (ingredient : string) : string :=
  PyStr.replace "dried " EmptyString
    (PyStr.replace "fresh " EmptyString (PyStr.strip (PyStr.lower ingredient))).

(** The first store section one of whose keywords occurs in the
    ingredient, if any. *)
Definition section_of (ingredient : string) : option string :=
  match list_find (λ sec : string * list string,
                     ShoppingOptimizerTool.any_in sec.2 (PyStr.lower ingredient) = true)
                  ShoppingOptimizerTool.store_sections with
  | Some (_, (section, _)) => Some section
  | None => None
  end.

(** The sum of a list of amounts. *)
Definition sum_amounts (l : list Z) : Z := foldr Z.add 0%Z l.

(** What the loop of [_group_by_section] keeps after the ingredients
    [processed]: distinct section names, every processed ingredient in one
    group or unassigned, no empty group, and each ingredient under its own
    section. *)
Definition grouped_inv (processed : list string)
    (st : list (string * list string) * list string) : Prop :=
  NoDup st.1.*1
  ∧ concat st.1.*2 ++ st.2 ≡ₚ processed
  ∧ (∀ sec items, (sec, items) ∈ st.1 →
       items ≠ [] ∧ (∀ y, y ∈ items → y ∈ processed ∧ section_of y = Some sec))
  ∧ (∀ y, y ∈ st.2 → y ∈ processed ∧ section_of y = None).

(** ** Concrete environments and states of the examples *)

Module Demo.
(** No API key is set; the clock advances by one microsecond per reading
    from [t0]; the n-th random draw is n; futures complete in submission
    order; sessions time out after 60 minutes. *)
Definition env_at (t0 : Z) : Env :=
  mkEnv (λ n, (t0 + Z.of_nat n)%Z) (λ n, n) (λ n, "session-" +:+ pretty n)
        None (λ _, None) None (λ _, false) (λ n, seq 0 n) 60 true.

Definition env : Env := env_at 0.

Definition world0 : World := mkWorld ∅ ∅ ∅ [] 0 0 0.

(** One session of user u1, last accessed at time 0. *)
Definition s1 : Session := mkSession "s1" "u1" 0 0 ∅ ∅.
Definition world1 : World := mkWorld {["s1" := s1]} ∅ ∅ [] 0 0 0.

(** Two hours, in microseconds. *)
Definition two_hours : Z := 7200000000.

(** A bank in which user u1 holds a budget and a cuisine. *)
Definition world_prefs : World :=
  mkWorld ∅
    {["u1" := [mkUserPreference "u1" "budget" (VInt 50) 0 0;
               mkUserPreference "u1" "cuisine" (VStr "thai") 1 1]]}
    ∅ [] 2 0 0.

(** The quotation mark. *)
Definition dq : string := String (ascii_of_nat 34) EmptyString.

(** A reply of the model: the JSON object with an empty list of meals,
    the summary [nothing planned], 1 day and no restrictions or
    preferences. *)
Definition empty_plan_json : string :=
  "{" +:+ dq +:+ "meals" +:+ dq +:+ ": [], "
      +:+ dq +:+ "summary" +:+ dq +:+ ": " +:+ dq +:+ "nothing planned" +:+ dq +:+ ", "
      +:+ dq +:+ "days" +:+ dq +:+ ": 1, "
      +:+ dq +:+ "dietary_restrictions" +:+ dq +:+ ": [], "
      +:+ dq +:+ "preferences" +:+ dq +:+ ": []}".

Definition empty_plan : MealPlan := mkMealPlan [] "nothing planned" 1 [] [].

(** As [env], with a model that always replies [empty_plan_json] and a
    decoder that knows this document. *)
Definition env_llm : Env :=
  mkEnv (λ n, Z.of_nat n) (λ n, n) (λ n, "session-" +:+ pretty n)
        (Some (λ _, LlmText empty_plan_json))
        (λ doc, if String.eqb doc empty_plan_json then Some empty_plan else None)
        None (λ _, false) (λ n, seq 0 n) 60 true.

(** As [env], with a model whose reply holds no JSON document. *)
Definition env_chat : Env :=
  mkEnv (λ n, Z.of_nat n) (λ n, n) (λ n, "session-" +:+ pretty n)
        (Some (λ _, LlmText "Sorry, no plan today"))
        (λ _, None)
        None (λ _, false) (λ n, seq 0 n) 60 true.

(** As [env], with the lookup submitted second (index 1) failing. *)
Definition env_flaky : Env :=
  mkEnv (λ n, Z.of_nat n) (λ n, n) (λ n, "session-" +:+ pretty n)
        None (λ _, None) None (λ i, bool_decide (i = 1)) (λ n, seq 0 n) 60 true.

(** Two breakfasts of the same name on two days. *)
Definition oatmeal (d : Z) : Meal :=
  MealPlannerAgent.mock_meal d "breakfast" "Oatmeal with berries".
End Demo.

(** * Properties *)

(** ** The string operations on values computed by Python *)

Example title_words :
  PyStr.title "hello wOrld-foo bar2baz" = "Hello World-Foo Bar2Baz".
Proof. reflexivity. Qed.

Example replace_no_overlap : PyStr.replace "aa" "b" "aaa" = "ba".
Proof. reflexivity. Qed.

Example find_at_end :
  PyStr.find EmptyString "abc" 3 = 3%Z ∧ PyStr.find EmptyString "abc" 4 = (-1)%Z.
Proof. split; reflexivity. Qed.

Example slice_negative_end :
  PyStr.slice 1 (-1) "abc" = "b" ∧ PyStr.slice 7 (-1) "a" = EmptyString.
Proof. split; reflexivity. Qed.

Example strip_blanks : PyStr.strip "  a b  " = "a b".
Proof. reflexivity. Qed.

(** ** Rules for running computations *)

Section rules.
Context {A B : Type}.

Lemma returns_eq (c : M A) w a w' (Q : A → World → Prop) :
  c w = (Ok a, w') → Q a w' → returns c w Q.
Proof. intros Hc HQ. by exists a, w'. Qed.

Lemma returns_ret (a : A) w (Q : A → World → Prop) :
  Q a w → returns (ret a) w Q.
Proof. intros HQ. by exists a, w. Qed.

Lemma returns_bind (c : M A) (k : A → M B) w (Q : B → World → Prop) :
  returns c w (λ a w', returns (k a) w' Q) → returns (bind c k) w Q.
Proof.
  intros (a & w' & Hc & b & w'' & Hk & HQ). exists b, w''.
  unfold bind. by rewrite Hc.
Qed.

Lemma returns_mono (c : M A) w (Q Q' : A → World → Prop) :
  returns c w Q → (∀ a w', Q a w' → Q' a w') → returns c w Q'.
Proof. intros (a & w' & Hc & HQ) HQQ'. exists a, w'. auto. Qed.

Lemma returns_try_except (c : M A) (h : Exn → M A) w (Q : A → World → Prop) :
  returns c w Q → returns (try_except c h) w Q.
Proof.
  intros (a & w' & Hc & HQ). exists a, w'. unfold try_except. by rewrite Hc.
Qed.

Lemma returns_inv (c : M A) w a w' (Q : A → World → Prop) :
  returns c w Q → c w = (Ok a, w') → Q a w'.
Proof. intros (a0 & w0 & Hc & HQ) Hc'. congruence. Qed.
End rules.

Lemma returns_for_each {A S} (I : S → World → Prop) (l : list A)
    (body : A → S → M S) (acc : S) (w : World) :
  I acc w →
  (∀ x acc w, x ∈ l → I acc w → returns (body x acc) w I) →
  returns (for_each l body acc) w I.
Proof.
  revert acc w. induction l as [|x l IH]; intros acc w HI Hbody; simpl.
  - by apply returns_ret.
  - apply returns_bind. eapply returns_mono; [apply Hbody; [by left|done]|].
    intros acc' w' HI'. apply IH; [done|]. intros y ? ? Hy. apply Hbody. by right.
Qed.

Lemma returns_for_ {A} (I : World → Prop) (l : list A) (body : A → M unit) (w : World) :
  I w →
  (∀ x w, x ∈ l → I w → returns (body x) w (λ _, I)) →
  returns (for_ l body) w (λ _, I).
Proof.
  revert w. induction l as [|x l IH]; intros w HI Hbody; simpl.
  - by apply returns_ret.
  - apply returns_bind. eapply returns_mono; [apply Hbody; [by left|done]|].
    intros u w' HI'. apply IH; [done|]. intros y ? Hy. apply Hbody. by right.
Qed.



(** ** Session store *)

Section session_store.
Context (env : Env).
Import InMemorySessionService.

Lemma get_session_absent_run (w : World) (sid : string) :
  sessions w !! sid = None → get_session env sid w = (Ok None, w).
Proof.
  intros Hs. unfold get_session, bind, get_world. simpl. by rewrite Hs.
Qed.

Lemma get_session_expired_run (w : World) (sid : string) (s : Session) :
  sessions w !! sid = Some s →
  (session_timeout env < idle_time env w s)%Z →
  get_session env sid w =
    (Ok None, set_sessions (delete sid) (set_ticks S w)).
Proof.
  intros Hs Hidle. unfold idle_time in Hidle. apply Z.ltb_lt in Hidle.
  unfold get_session, bind, get_world. simpl. rewrite Hs. simpl. rewrite Hidle.
  unfold delete_session, bind, get_world. simpl. by rewrite Hs.
Qed.

Lemma get_session_live_run (w : World) (sid : string) (s : Session) :
  sessions w !! sid = Some s →
  (idle_time env w s ≤ session_timeout env)%Z →
  get_session env sid w =
    (Ok (Some (with_last_accessed (clock env (S (ticks w))) s)),
     set_sessions (insert sid (with_last_accessed (clock env (S (ticks w))) s))
       (set_ticks (λ n, S (S n)) w)).
Proof.
  intros Hs Hidle. unfold idle_time in Hidle. apply Z.ltb_ge in Hidle.
  unfold get_session, bind, get_world. simpl. rewrite Hs. simpl. by rewrite Hidle.
Qed.

(** C2. A stored session whose idle time (the clock read now, less
    [last_accessed]) exceeds the timeout is evicted by [get_session], which
    returns [None]. A stored session whose idle time does not exceed the
    timeout is returned with [last_accessed] set to now, the reading of the
    clock taken for the refresh, and with its id, user, creation time,
    context and preferences as they were; the store then holds the
    refreshed session under the id, and the clock has been read twice. *)
Theorem get_session_expiry_refresh (w : World) (sid : string) (s : Session) :
  sessions w !! sid = Some s →
  ((session_timeout env < idle_time env w s)%Z →
     returns (get_session env sid) w (λ r w',
       r = None
       ∧ sessions w' = delete sid (sessions w)
       ∧ sessions w' !! sid = None))
  ∧ ((idle_time env w s ≤ session_timeout env)%Z →
     returns (get_session env sid) w (λ r w',
       ∃ refreshed,
         r = Some refreshed
         ∧ last_accessed refreshed = clock env (S (ticks w))
         ∧ session_id refreshed = session_id s
         ∧ user_id refreshed = user_id s
         ∧ created_at refreshed = created_at s
         ∧ context refreshed = context s
         ∧ preferences refreshed = preferences s
         ∧ sessions w' = <[sid := refreshed]> (sessions w)
         ∧ ticks w' = S (S (ticks w)))).
Proof.
  intros Hs. split; intros Hidle.
  - eapply returns_eq; [by apply (get_session_expired_run w sid s)|].
    split; [done|]. split; [done|]. cbn. apply lookup_delete_eq.
  - eapply returns_eq; [by apply (get_session_live_run w sid s)|].
    eexists. split; [done|]. cbn. by repeat split.
Qed.
End session_store.

Lemma get_session_expiry_refresh_witness :
  returns (InMemorySessionService.get_session (Demo.env_at Demo.two_hours) "s1") Demo.world1
    (λ r w',
       r = None
       ∧ sessions w' = delete "s1" (sessions Demo.world1)
       ∧ sessions w' !! "s1" = None)
  ∧ returns (InMemorySessionService.get_session Demo.env "s1") Demo.world1
    (λ r w',
       ∃ refreshed,
         r = Some refreshed
         ∧ last_accessed refreshed = clock Demo.env (S (ticks Demo.world1))
         ∧ session_id refreshed = session_id Demo.s1
         ∧ user_id refreshed = user_id Demo.s1
         ∧ created_at refreshed = created_at Demo.s1
         ∧ context refreshed = context Demo.s1
         ∧ preferences refreshed = preferences Demo.s1
         ∧ sessions w' = <["s1" := refreshed]> (sessions Demo.world1)
         ∧ ticks w' = S (S (ticks Demo.world1))).
Proof.
  split.
  - apply (get_session_expiry_refresh (Demo.env_at Demo.two_hours) Demo.world1 "s1" Demo.s1).
    + reflexivity.
    + vm_compute. reflexivity.
  - apply (get_session_expiry_refresh Demo.env Demo.world1 "s1" Demo.s1).
    + reflexivity.
    + vm_compute. discriminate.
Defined.

Lemma filter_snd_fmap {A B} (P : B → Prop)
    `{!∀ b, Decision (P b)} `{!∀ p : A * B, Decision (P p.2)}
    (l : list (A * B)) :
  (filter (λ p, P p.2) l).*2 = filter P l.*2.
Proof.
  induction l as [|[a b] l IH]; [done|].
  rewrite fmap_cons, !filter_cons. cbn [snd].
  destruct (decide (P b)) as [?|?] at 1; destruct (decide (P b)) as [?|?];
    try contradiction; [rewrite fmap_cons; cbn [snd]|]; by rewrite IH.
Qed.

(** C10. [get_user_sessions] returns the sessions stored under the user,
    each stored session once, whatever their idle time, and the state after
    the call is the state before it: nothing is evicted and no
    [last_accessed] is refreshed. *)
Theorem get_user_sessions_reads_only (uid : string) (w : World) :
  returns (InMemorySessionService.get_user_sessions uid) w (λ l w',
    w' = w
    ∧ (∀ s, s ∈ l ↔ ∃ sid, sessions w !! sid = Some s ∧ user_id s = uid)
    ∧ ∃ entries : list (string * Session),
        l = entries.*2 ∧ NoDup entries.*1
        ∧ ∀ sid s, (sid, s) ∈ entries ↔ sessions w !! sid = Some s ∧ user_id s = uid).
Proof.
  unfold returns, InMemorySessionService.get_user_sessions, bind, get_world, ret.
  eexists _, _. split; [reflexivity|]. split; [reflexivity|]. split.
  - intros s. rewrite list_elem_of_filter, list_elem_of_fmap. split.
    + intros [Hu [[sid s'] [-> Hin]]]. apply elem_of_map_to_list in Hin. eauto.
    + intros [sid [Hs Hu]]. split; [done|].
      exists (sid, s). split; [done|]. by apply elem_of_map_to_list.
  - exists (filter (λ p : string * Session, user_id p.2 = uid) (map_to_list (sessions w))).
    split; [|split].
    + symmetry. apply (filter_snd_fmap (λ s, user_id s = uid)).
    + apply (sublist_NoDup _ (map_to_list (sessions w)).*1).
      * apply NoDup_fst_map_to_list.
      * apply fmap_sublist, sublist_filter.
    + intros sid s. rewrite list_elem_of_filter, elem_of_map_to_list. simpl. tauto.
Qed.

(** ** Memory bank: preferences *)

Section preferences.
Context (env : Env).
Import MemoryBank.

Lemma add_preference_run (uid ptype : string) (v : PyVal) (w : World) :
  add_preference env uid ptype v w =
    (Ok tt,
     set_bank_preferences
       (insert uid (upsert uid ptype v (clock env (ticks w))
                      (default [] (bank_preferences w !! uid))))
       (set_ticks S w)).
Proof. reflexivity. Qed.

Lemma upsert_cons uid ptype v t p prefs :
  upsert uid ptype v t (p :: prefs) =
    if decide (preference_type p = ptype)
    then with_value v t p :: prefs
    else p :: upsert uid ptype v t prefs.
Proof.
  unfold upsert. simpl. destruct (decide (preference_type p = ptype)); [done|].
  simpl. destruct (list_find _ prefs) as [[i q]|]; done.
Qed.

Lemma upsert_nil uid ptype v t :
  upsert uid ptype v t [] = [mkUserPreference uid ptype v t t].
Proof. reflexivity. Qed.

Lemma upsert_types uid ptype v t prefs :
  preference_type <$> upsert uid ptype v t prefs =
    if decide (ptype ∈ preference_type <$> prefs)
    then preference_type <$> prefs
    else (preference_type <$> prefs) ++ [ptype].
Proof.
  induction prefs as [|p prefs IH].
  - rewrite upsert_nil, decide_False; [done|apply not_elem_of_nil].
  - rewrite upsert_cons. destruct (decide (preference_type p = ptype)) as [Hp|Hp].
    + rewrite !fmap_cons. simpl. rewrite decide_True; [done|]. rewrite Hp. by left.
    + rewrite !fmap_cons, IH.
      destruct (decide (ptype ∈ preference_type <$> prefs)) as [Hin|Hin].
      * rewrite decide_True; [done|]. by right.
      * rewrite decide_False; [done|]. intros [?|?]%elem_of_cons; congruence.
Qed.

Lemma upsert_NoDup uid ptype v t prefs :
  NoDup (preference_type <$> prefs) →
  NoDup (preference_type <$> upsert uid ptype v t prefs).
Proof.
  intros Hnd. rewrite upsert_types. case_decide as Hin; [done|].
  apply NoDup_app. split; [done|]. split; [|apply NoDup_singleton].
  intros x Hx ->%list_elem_of_singleton. done.
Qed.

Lemma upsert_user uid ptype v t prefs :
  Forall (λ p, pref_user_id p = uid) prefs →
  Forall (λ p, pref_user_id p = uid) (upsert uid ptype v t prefs).
Proof.
  induction 1 as [|p prefs Hp Hps IH].
  - rewrite upsert_nil. by constructor.
  - rewrite upsert_cons. case_decide; constructor; done.
Qed.

Lemma first_value_upsert uid ptype v t prefs ptype' :
  first_value ptype' (upsert uid ptype v t prefs) =
    if decide (ptype = ptype') then Some v else first_value ptype' prefs.
Proof.
  induction prefs as [|p prefs IH].
  - rewrite upsert_nil. simpl. by repeat case_decide.
  - rewrite upsert_cons. destruct (decide (preference_type p = ptype)) as [Hp|Hp]; simpl.
    + rewrite Hp. by destruct (decide (ptype = ptype')).
    + rewrite IH. destruct (decide (preference_type p = ptype')) as [Hp'|Hp'];
        destruct (decide (ptype = ptype')); congruence.
Qed.

Lemma first_value_None ptype prefs :
  ptype ∉ preference_type <$> prefs → first_value ptype prefs = None.
Proof.
  induction prefs as [|p prefs IH]; [done|]. rewrite fmap_cons, not_elem_of_cons.
  intros [Hne Hnin]. simpl. rewrite decide_False by congruence. auto.
Qed.

Lemma prefs_fold_lookup (d : gmap string PyVal) prefs ptype :
  NoDup (preference_type <$> prefs) →
  foldl (λ d p, <[preference_type p := value p]> d) d prefs !! ptype =
    match first_value ptype prefs with
    | Some v => Some v
    | None => d !! ptype
    end.
Proof.
  revert d. induction prefs as [|p prefs IH]; intros d Hnd; [done|].
  rewrite fmap_cons in Hnd. apply NoDup_cons in Hnd as [Hnin Hnd].
  simpl. rewrite IH by done. destruct (decide (preference_type p = ptype)) as [Hp|Hp].
  - rewrite first_value_None by congruence. rewrite Hp. apply lookup_insert_eq.
  - destruct (first_value ptype prefs); [done|]. by apply lookup_insert_ne.
Qed.

Lemma prefs_dict_lookup prefs ptype :
  NoDup (preference_type <$> prefs) →
  prefs_dict prefs !! ptype = first_value ptype prefs.
Proof.
  intros Hnd. unfold prefs_dict. rewrite prefs_fold_lookup by done.
  destruct (first_value ptype prefs); [done|apply lookup_empty].
Qed.

Lemma prefs_dict_upsert uid ptype v t prefs :
  NoDup (preference_type <$> prefs) →
  prefs_dict (upsert uid ptype v t prefs) = <[ptype := v]> (prefs_dict prefs).
Proof.
  intros Hnd. apply map_eq. intros k.
  rewrite prefs_dict_lookup by by apply upsert_NoDup.
  rewrite first_value_upsert, lookup_insert.
  destruct (decide (ptype = k)); [done|]. by rewrite prefs_dict_lookup.
Qed.

Lemma prefs_unique_insert_upsert uid ptype v t w :
  prefs_unique w →
  prefs_unique
    (set_bank_preferences
       (insert uid (upsert uid ptype v t (default [] (bank_preferences w !! uid))))
       (set_ticks S w)).
Proof.
  intros Hw uid' prefs'. simpl. rewrite lookup_insert.
  destruct (decide (uid = uid')) as [<-|Hne]; [|by apply Hw].
  intros [= <-]. destruct (bank_preferences w !! uid) as [prefs|] eqn:Hu.
  - destruct (Hw _ _ Hu). split; [by apply upsert_NoDup|by apply upsert_user].
  - split; [apply upsert_NoDup; constructor|apply upsert_user; constructor].
Qed.

Lemma add_preferences_unique calls w :
  prefs_unique w →
  returns (add_preferences env calls) w (λ _ w', prefs_unique w').
Proof.
  revert w. induction calls as [|[[uid ptype] v] calls IH]; intros w Hw.
  - by exists tt, w.
  - unfold add_preferences. simpl. apply returns_bind.
    eapply returns_eq; [apply add_preference_run|].
    apply IH. by apply prefs_unique_insert_upsert.
Qed.

Lemma upsert_in_place uid ptype v t prefs i p :
  NoDup (preference_type <$> prefs) →
  prefs !! i = Some p → preference_type p = ptype →
  upsert uid ptype v t prefs = <[i := with_value v t p]> prefs.
Proof.
  intros Hnd Hi Hp. unfold upsert.
  destruct (list_find _ prefs) as [[j q]|] eqn:Hfind.
  - apply list_find_Some in Hfind as (Hj & Hq & _).
    assert (i = j) as <-.
    { eapply NoDup_lookup; [exact Hnd| |]; rewrite list_lookup_fmap.
      - by rewrite Hi.
      - rewrite Hj. simpl. congruence. }
    congruence.
  - apply list_find_None in Hfind. rewrite Forall_forall in Hfind.
    exfalso. eapply Hfind; [|exact Hp]. by eapply list_elem_of_lookup_2.
Qed.
End preferences.

Lemma first_value_Some ptype prefs v :
  first_value ptype prefs = Some v →
  ∃ i p, prefs !! i = Some p ∧ preference_type p = ptype ∧ value p = v.
Proof.
  induction prefs as [|p prefs IH]; [done|]. simpl.
  destruct (decide (preference_type p = ptype)) as [Hp|Hp].
  - intros [= <-]. by exists 0, p.
  - intros (i & q & ? & ? & ?)%IH. by exists (S i), q.
Qed.

Lemma default_lookup_insert_eq {V} (m : gmap string (list V)) k l :
  default [] (<[k := l]> m !! k) = l.
Proof. by rewrite lookup_insert_eq. Qed.

(** C3. From a bank with at most one entry per user and type, every
    sequence of [add_preference] calls leaves such a bank. A call for a type
    that the user already holds replaces the entry of that type, where it
    stands, by one with the new value, with [last_updated] set to the
    current reading of the clock and with the user, the type and
    [created_at] of the old entry; nothing else in the user's list changes
    and no entry is added. After budget 50 then budget 75 the user holds
    one budget entry, of value 75 and last updated at the second call. *)
Theorem add_preference_upserts (env : Env) (w : World) :
  prefs_unique w →
  (∀ calls, returns (add_preferences env calls) w (λ _ w', prefs_unique w'))
  ∧ (∀ uid ptype v prefs i p,
       bank_preferences w !! uid = Some prefs →
       prefs !! i = Some p → preference_type p = ptype →
       returns (MemoryBank.add_preference env uid ptype v) w (λ _ w',
         ∃ p',
           bank_preferences w' !! uid = Some (<[i := p']> prefs)
           ∧ value p' = v
           ∧ last_updated p' = clock env (ticks w)
           ∧ preference_type p' = ptype
           ∧ pref_user_id p' = pref_user_id p
           ∧ pref_created_at p' = pref_created_at p))
  ∧ (∀ u,
       returns (do MemoryBank.add_preference env u "budget" (VInt 50) in
                MemoryBank.add_preference env u "budget" (VInt 75)) w (λ _ w',
         ∃ prefs i p,
           bank_preferences w' !! u = Some prefs
           ∧ prefs !! i = Some p ∧ preference_type p = "budget" ∧ value p = VInt 75
           ∧ last_updated p = clock env (S (ticks w))
           ∧ ∀ j q, prefs !! j = Some q → preference_type q = "budget" → j = i)).
Proof.
  intros Hw. split; [|split].
  - intros calls. by apply add_preferences_unique.
  - intros uid ptype v prefs i p Hu Hi Hp.
    eapply returns_eq; [apply add_preference_run|].
    exists (MemoryBank.with_value v (clock env (ticks w)) p). split.
    + simpl. rewrite lookup_insert_eq, Hu. simpl. f_equal.
      destruct (Hw _ _ Hu) as [Hnd _]. by apply upsert_in_place.
    + by repeat split.
  - intros u. apply returns_bind.
    eapply returns_eq; [apply add_preference_run|].
    eapply returns_eq; [apply add_preference_run|]. simpl.
    rewrite default_lookup_insert_eq, lookup_insert_eq.
    set (prefs0 := default [] (bank_preferences w !! u)).
    set (prefs1 := MemoryBank.upsert u "budget" (VInt 50) _ prefs0).
    assert (NoDup (preference_type <$> prefs0)) as Hnd0.
    { unfold prefs0. destruct (bank_preferences w !! u) as [l|] eqn:Hu; simpl.
      - by destruct (Hw _ _ Hu).
      - constructor. }
    assert (NoDup (preference_type <$> prefs1)) as Hnd1 by by apply upsert_NoDup.
    assert (first_value "budget" prefs1 = Some (VInt 50)) as Hfirst.
    { unfold prefs1. rewrite first_value_upsert. by rewrite decide_True. }
    apply first_value_Some in Hfirst as (i & p1 & Hi & Hp & _).
    rewrite (upsert_in_place u "budget" (VInt 75) _ prefs1 i p1 Hnd1 Hi Hp).
    eexists _, i, _. split; [done|].
    split; [apply list_lookup_insert_eq; by eapply lookup_lt_Some|].
    cbn [preference_type value last_updated MemoryBank.with_value].
    split; [done|]. split; [done|]. split; [done|].
    intros j q Hj Hq.
    destruct (decide (j = i)) as [->|Hne]; [done|].
    rewrite list_lookup_insert_ne in Hj by done.
    eapply NoDup_lookup; [exact Hnd1| |]; rewrite list_lookup_fmap.
    + rewrite Hj. simpl. by rewrite Hq.
    + rewrite Hi. simpl. by rewrite Hp.
Qed.

Lemma add_preference_upserts_witness :
  prefs_unique Demo.world_prefs
  ∧ returns (MemoryBank.add_preference Demo.env "u1" "budget" (VInt 75)) Demo.world_prefs
      (λ _ w',
         ∃ p',
           bank_preferences w' !! "u1"
           = Some (<[0 := p']> [mkUserPreference "u1" "budget" (VInt 50) 0 0;
                                mkUserPreference "u1" "cuisine" (VStr "thai") 1 1])
           ∧ value p' = VInt 75
           ∧ last_updated p' = clock Demo.env (ticks Demo.world_prefs)
           ∧ preference_type p' = "budget"
           ∧ pref_user_id p' = "u1"
           ∧ pref_created_at p' = 0%Z).
Proof.
  assert (prefs_unique Demo.world_prefs) as Hw.
  { intros uid prefs. unfold Demo.world_prefs. cbn [bank_preferences].
    intros [<- <-]%lookup_singleton_Some. split.
    - apply (bool_decide_unpack _). vm_compute. exact I.
    - by repeat constructor. }
  split; [exact Hw|].
  apply (proj1 (proj2 (add_preference_upserts Demo.env Demo.world_prefs Hw))
           "u1" "budget" (VInt 75)
           [mkUserPreference "u1" "budget" (VInt 50) 0 0;
            mkUserPreference "u1" "cuisine" (VStr "thai") 1 1]
           0 (mkUserPreference "u1" "budget" (VInt 50) 0 0));
    reflexivity.
Defined.

Lemma writes_fold_lookup (d : gmap string PyVal) (writes : list (string * PyVal)) ptype :
  foldl (λ d '(t, v), <[t := v]> d) d writes !! ptype =
    match last_written ptype writes with
    | Some v => Some v
    | None => d !! ptype
    end.
Proof.
  revert d. induction writes as [|[t v] writes IH]; intros d; [done|].
  simpl. rewrite IH. destruct (last_written ptype writes); [done|].
  rewrite lookup_insert. by destruct (decide (t = ptype)).
Qed.

Lemma write_preferences_run (env : Env) (uid : string)
    (writes : list (string * PyVal)) (w : World) :
  prefs_unique w →
  returns (write_preferences env uid writes) w (λ _ w',
    prefs_unique w'
    ∧ MemoryBank.prefs_dict (default [] (bank_preferences w' !! uid)) =
        foldl (λ d '(t, v), <[t := v]> d)
              (MemoryBank.prefs_dict (default [] (bank_preferences w !! uid))) writes).
Proof.
  revert w. induction writes as [|[t v] writes IH]; intros w Hw.
  - by apply returns_ret.
  - unfold write_preferences. simpl. apply returns_bind.
    eapply returns_eq; [apply add_preference_run|].
    eapply returns_mono; [apply IH; by apply prefs_unique_insert_upsert|].
    intros _ w' [Hw' Hd]. split; [done|]. rewrite Hd. simpl.
    rewrite lookup_insert_eq. simpl. rewrite prefs_dict_upsert; [done|].
    destruct (bank_preferences w !! uid) as [l|] eqn:Hu; simpl.
    + by destruct (Hw _ _ Hu).
    + constructor.
Qed.

(** C8. From a bank with at most one entry per user and type, after any
    sequence of writes to the preferences of a user, [get_preferences] maps
    every written type to the value written last for it and every other
    type to what it held before, changes nothing, and [get_user_context]
    carries the same mapping. *)
Theorem preferences_round_trip (env : Env) (uid : string)
    (writes : list (string * PyVal)) (w : World) :
  prefs_unique w →
  returns (write_preferences env uid writes) w (λ _ w',
    returns (MemoryBank.get_preferences uid) w' (λ d w'',
      w'' = w'
      ∧ (∀ ptype v, last_written ptype writes = Some v → d !! ptype = Some v)
      ∧ (∀ ptype, last_written ptype writes = None →
           returns (MemoryBank.get_preferences uid) w (λ d0 _,
             d !! ptype = d0 !! ptype))
      ∧ returns (MemoryBank.get_user_context uid) w' (λ uc w'',
          w'' = w' ∧ uc_preferences uc = d))).
Proof.
  intros Hw. eapply returns_mono; [by apply write_preferences_run|].
  intros _ w' [Hw' Hd].
  eapply returns_eq; [reflexivity|]. rewrite Hd.
  split; [done|]. split; [|split].
  - intros ptype v Hl. by rewrite writes_fold_lookup, Hl.
  - intros ptype Hl. eapply returns_eq; [reflexivity|].
    by rewrite writes_fold_lookup, Hl.
  - eapply returns_eq; [reflexivity|]. simpl. by rewrite <- Hd.
Qed.

Lemma preferences_round_trip_witness :
  returns (write_preferences Demo.env "u1"
             [("budget", VInt 50); ("cuisine", VStr "thai"); ("budget", VInt 75)])
          Demo.world0 (λ _ w',
    returns (MemoryBank.get_preferences "u1") w' (λ d w'',
      w'' = w'
      ∧ (∀ ptype v,
           last_written ptype
             [("budget", VInt 50); ("cuisine", VStr "thai"); ("budget", VInt 75)] = Some v →
           d !! ptype = Some v)
      ∧ (∀ ptype,
           last_written ptype
             [("budget", VInt 50); ("cuisine", VStr "thai"); ("budget", VInt 75)] = None →
           returns (MemoryBank.get_preferences "u1") Demo.world0 (λ d0 _,
             d !! ptype = d0 !! ptype))
      ∧ returns (MemoryBank.get_user_context "u1") w' (λ uc w'',
          w'' = w' ∧ uc_preferences uc = d))).
Proof.
  apply (preferences_round_trip Demo.env "u1"
           [("budget", VInt 50); ("cuisine", VStr "thai"); ("budget", VInt 75)]
           Demo.world0).
  intros uid prefs H. simpl in H. rewrite lookup_empty in H. discriminate.
Defined.

(** ** Memory bank: meal history *)

Lemma add_meal_history_run (env : Env) (uid : string) (plan : MealPlan)
    (fb : option string) (w : World) :
  MemoryBank.add_meal_history env uid plan fb w =
    (Ok tt,
     set_bank_meal_history
       (insert uid
          (let history1 :=
             default [] (bank_meal_history w !! uid)
               ++ [mkMealHistory uid plan (clock env (ticks w)) fb] in
           if 50 <? length history1 then MemoryBank.last_n 50 history1 else history1))
       (set_ticks S w)).
Proof. reflexivity. Qed.

(** C4. After [add_meal_history] the user's list has at most 50 entries; it
    is the end of the old list followed by the new entry, so the entries
    that remain keep their order and the new one is last; a list of 50
    entries loses its oldest entry, a shorter list none; the lists of the
    other users are not touched. *)
Theorem add_meal_history_capped (env : Env) (uid : string) (plan : MealPlan)
    (fb : option string) (w : World) :
  returns (MemoryBank.add_meal_history env uid plan fb) w (λ _ w',
    let history := default [] (bank_meal_history w !! uid) in
    let entry := mkMealHistory uid plan (clock env (ticks w)) fb in
    ∃ history',
      bank_meal_history w' !! uid = Some history'
      ∧ length history' ≤ 50
      ∧ length history' = 50 `min` S (length history)
      ∧ history' `suffix_of` history ++ [entry]
      ∧ (length history = 50 → history' = drop 1 history ++ [entry])
      ∧ (length history < 50 → history' = history ++ [entry])
      ∧ (∀ uid', uid' ≠ uid → bank_meal_history w' !! uid' = bank_meal_history w !! uid')).
Proof.
  eapply returns_eq; [apply add_meal_history_run|].
  cbn [bank_meal_history set_bank_meal_history set_ticks ticks].
  set (history := default [] (bank_meal_history w !! uid)).
  set (entry := mkMealHistory uid plan (clock env (ticks w)) fb).
  cbv zeta. rewrite lookup_insert_eq. eexists. split; [reflexivity|].
  assert (length (history ++ [entry]) = S (length history)) as Hlen.
  { rewrite length_app. simpl. lia. }
  unfold MemoryBank.last_n.
  destruct (50 <? length (history ++ [entry])) eqn:Hcap.
  - apply Nat.ltb_lt in Hcap. rewrite length_drop.
    split; [lia|]. split; [lia|]. split; [apply suffix_drop|].
    split; [|split].
    + intros H50. rewrite Hlen, H50. by rewrite drop_app_le by lia.
    + lia.
    + intros uid' Hne. by rewrite lookup_insert_ne.
  - apply Nat.ltb_ge in Hcap.
    split; [lia|]. split; [lia|]. split; [done|].
    split; [|split].
    + lia.
    + done.
    + intros uid' Hne. by rewrite lookup_insert_ne.
Qed.

(** ** Planner: the locally generated plan *)

Section mock_plan.
Context (env : Env).
Import MealPlannerAgent.

Lemma set_draws_const (a b : nat) (w : World) :
  set_draws (λ _, a) (set_draws (λ _, b) w) = set_draws (λ _, a) w.
Proof. reflexivity. Qed.

Lemma set_draws_eq (a b : nat) (w : World) :
  a = b → set_draws (λ _, a) w = set_draws (λ _, b) w.
Proof. by intros ->. Qed.

Lemma select_options_length restrictions mt :
  mt ∈ meal_types → 0 < length (select_options restrictions mt).
Proof.
  intros Hmt. unfold meal_types in Hmt.
  repeat (apply elem_of_cons in Hmt as [->|Hmt]); [| | |by apply elem_of_nil in Hmt];
    unfold select_options; destruct restrictions as [[|x r]|];
    repeat case_bool_decide; simpl; lia.
Qed.

Lemma random_choice_run restrictions k mt (w : World) :
  mt ∈ meal_types → k = draws w →
  random_choice env (select_options restrictions mt) w =
    (Ok (draw_name env restrictions k mt), set_draws (λ _, S k) w).
Proof.
  intros Hmt ->. unfold random_choice, draw_name.
  pose proof (select_options_length restrictions mt Hmt) as Hlen.
  destruct (lookup_lt_is_Some_2 (select_options restrictions mt)
              (rand env (draws w) mod length (select_options restrictions mt)))
    as [x Hx].
  { apply Nat.mod_upper_bound. lia. }
  by rewrite Hx.
Qed.

Lemma selected_meals_get restrictions mt :
  mt ∈ meal_types →
  PyDict.get mt (selected_meals restrictions) = Some (select_options restrictions mt).
Proof.
  intros Hmt. unfold meal_types in Hmt.
  repeat (apply elem_of_cons in Hmt as [->|Hmt]); [| | |by apply elem_of_nil in Hmt];
    reflexivity.
Qed.

Lemma choose_run restrictions d mt ms k (w : World) :
  mt ∈ meal_types → k = draws w →
  (let* meal_name :=
     random_choice env (default [] (PyDict.get mt (selected_meals restrictions))) in
   ret (ms ++ [mock_meal d mt meal_name])) w =
    (Ok (ms ++ [mock_meal d mt (draw_name env restrictions k mt)]),
     set_draws (λ _, S k) w).
Proof.
  intros Hmt Hk. unfold bind.
  rewrite selected_meals_get by done. simpl.
  by rewrite (random_choice_run restrictions k mt w Hmt Hk).
Qed.

Lemma mock_day_run restrictions d ms (w : World) :
  for_each meal_types (λ mt ms,
      let* meal_name :=
        random_choice env (default [] (PyDict.get mt (selected_meals restrictions))) in
      ret (ms ++ [mock_meal d mt meal_name])) ms w =
    (Ok (ms ++ mock_meals env restrictions (draws w) [d]),
     set_draws (λ _, 3 + draws w) w).
Proof.
  unfold meal_types. cbn [for_each]. unfold bind at 1.
  rewrite (choose_run restrictions d "breakfast" ms (draws w) w) by (done || set_solver).
  unfold bind at 1.
  rewrite (choose_run restrictions d "lunch" _ (1 + draws w)) by (done || set_solver).
  unfold bind at 1.
  rewrite (choose_run restrictions d "dinner" _ (2 + draws w)) by (done || set_solver).
  unfold ret. rewrite !set_draws_const. simpl. by rewrite <- !app_assoc.
Qed.

Lemma mock_days_run restrictions ds ms (w : World) :
  for_each ds (λ d ms,
      for_each meal_types (λ mt ms,
        let* meal_name :=
          random_choice env (default [] (PyDict.get mt (selected_meals restrictions))) in
        ret (ms ++ [mock_meal d mt meal_name])) ms) ms w =
    (Ok (ms ++ mock_meals env restrictions (draws w) ds),
     set_draws (λ _, 3 * length ds + draws w) w).
Proof.
  revert ms w. induction ds as [|d ds IH]; intros ms w.
  - simpl. unfold ret. rewrite app_nil_r. by destruct w.
  - cbn [for_each]. unfold bind at 1. rewrite mock_day_run. rewrite IH.
    rewrite set_draws_const. cbn [draws set_draws mock_meals].
    f_equal; [by rewrite <- app_assoc|]. apply set_draws_eq. simpl. lia.
Qed.

Lemma _generate_mock_meal_plan_run n_days restrictions prefs (w : World) :
  _generate_mock_meal_plan env n_days restrictions prefs w =
    (let ms := mock_meals env restrictions (draws w) (seqZ 1 n_days) in
     (Ok (mkMealPlan ms
            ("Generated " +:+ pretty n_days +:+ "-day meal plan with "
               +:+ pretty (length ms) +:+ " meals")
            n_days (default [] restrictions) (default [] prefs)),
      set_draws (λ _, 3 * length (seqZ 1 n_days) + draws w) w)).
Proof.
  unfold _generate_mock_meal_plan. cbv zeta. unfold bind at 1.
  rewrite mock_days_run. reflexivity.
Qed.

Lemma mock_meals_length restrictions k ds :
  length (mock_meals env restrictions k ds) = 3 * length ds.
Proof.
  revert k. induction ds as [|d ds IH]; intros k; [done|].
  cbn [mock_meals]. rewrite length_app, IH. simpl. lia.
Qed.

Lemma mock_meals_slots restrictions k ds :
  (λ m, (day m, meal_type m)) <$> mock_meals env restrictions k ds =
    d ← ds; (λ mt, (d, mt)) <$> meal_types.
Proof.
  revert k. induction ds as [|d ds IH]; intros k; [done|].
  cbn [mock_meals]. rewrite fmap_app, IH. reflexivity.
Qed.

Lemma mock_meals_days restrictions k ds :
  Forall (λ m, day m ∈ ds) (mock_meals env restrictions k ds).
Proof.
  revert k. induction ds as [|d ds IH]; intros k; [constructor|].
  cbn [mock_meals]. apply Forall_app. split.
  - repeat constructor.
  - eapply Forall_impl; [apply IH|]. intros m Hm. by right.
Qed.

Lemma draw_name_in restrictions k mt :
  mt ∈ meal_types → draw_name env restrictions k mt ∈ select_options restrictions mt.
Proof.
  intros Hmt. unfold draw_name.
  pose proof (select_options_length restrictions mt Hmt) as Hlen.
  destruct (lookup_lt_is_Some_2 (select_options restrictions mt)
              (rand env k mod length (select_options restrictions mt))) as [x Hx].
  { apply Nat.mod_upper_bound. lia. }
  rewrite Hx. simpl. by eapply list_elem_of_lookup_2.
Qed.

Lemma mock_meals_names restrictions k ds :
  Forall (λ m, name m ∈ select_options restrictions (meal_type m))
         (mock_meals env restrictions k ds).
Proof.
  revert k. induction ds as [|d ds IH]; intros k; [constructor|].
  cbn [mock_meals]. apply Forall_app. split; [|apply IH].
  repeat constructor; simpl; apply draw_name_in; set_solver.
Qed.

(** The meals depend on the generator only through the draws consumed. *)
Lemma mock_meals_ext restrictions k1 k2 ds :
  (∀ i, i < 3 * length ds → rand env (k1 + i) = rand env (k2 + i)) →
  mock_meals env restrictions k1 ds = mock_meals env restrictions k2 ds.
Proof.
  revert k1 k2. induction ds as [|d ds IH]; intros k1 k2 Hr; [done|].
  cbn [mock_meals]. f_equal.
  - unfold draw_name.
    rewrite <- (Nat.add_0_r k1), <- (Nat.add_0_r k2), (Hr 0) by (simpl; lia).
    replace (1 + (k1 + 0)) with (k1 + 1) by lia.
    replace (1 + (k2 + 0)) with (k2 + 1) by lia.
    replace (2 + (k1 + 0)) with (k1 + 2) by lia.
    replace (2 + (k2 + 0)) with (k2 + 2) by lia.
    rewrite (Hr 1), (Hr 2) by (simpl; lia). done.
  - apply IH. intros i Hi.
    replace (3 + k1 + i) with (k1 + (3 + i)) by lia.
    replace (3 + k2 + i) with (k2 + (3 + i)) by lia.
    apply Hr. simpl in *. lia.
Qed.

Lemma mock_meals_same_slots restrictions k1 k2 ds :
  Forall2 (λ m1 m2, day m1 = day m2 ∧ meal_type m1 = meal_type m2)
          (mock_meals env restrictions k1 ds) (mock_meals env restrictions k2 ds).
Proof.
  revert k1 k2. induction ds as [|d ds IH]; intros k1 k2; [constructor|].
  cbn [mock_meals]. apply Forall2_app; [|apply IH]. repeat constructor.
Qed.
End mock_plan.

(** C6, as stated, fails: two successive invocations of the locally
    generated plan on the same input return different plans, because the
    names are drawn with [random.choice] and the second invocation consumes
    other draws than the first. *)
Lemma mock_plan_draws_differ :
  let gen := MealPlannerAgent._generate_mock_meal_plan Demo.env 1 None None in
  (gen Demo.world0).1 ≠ (gen (gen Demo.world0).2).1.
Proof. vm_compute. discriminate. Qed.

(** C6, amended. For a fixed input, any two invocations of the locally
    generated plan return plans with the same days, summary, restrictions
    and preferences and with the same day and meal type at every position;
    every name is one of the options selected for its meal type; and the
    two plans are equal when the draws that the invocations consume are
    equal. *)
Theorem mock_plan_determined_by_draws (env : Env) (n_days : Z)
    (restrictions prefs : option (list string)) (w1 w2 : World) :
  let gen := MealPlannerAgent._generate_mock_meal_plan env n_days restrictions prefs in
  returns gen w1 (λ p1 _, returns gen w2 (λ p2 _,
    days p1 = days p2 ∧ summary p1 = summary p2
    ∧ dietary_restrictions p1 = dietary_restrictions p2
    ∧ plan_preferences p1 = plan_preferences p2
    ∧ Forall2 (λ m1 m2, day m1 = day m2 ∧ meal_type m1 = meal_type m2)
              (meals p1) (meals p2)
    ∧ Forall (λ m, name m ∈ MealPlannerAgent.select_options restrictions (meal_type m))
             (meals p1 ++ meals p2)
    ∧ ((∀ i, i < length (meals p1) → rand env (draws w1 + i) = rand env (draws w2 + i)) →
       p1 = p2))).
Proof.
  intros gen. unfold gen.
  eapply returns_eq; [apply _generate_mock_meal_plan_run|].
  eapply returns_eq; [apply _generate_mock_meal_plan_run|].
  cbv zeta. cbn [days summary dietary_restrictions plan_preferences meals].
  rewrite !mock_meals_length.
  split; [done|]. split; [done|]. split; [done|]. split; [done|].
  split; [apply mock_meals_same_slots|].
  split; [apply Forall_app; split; apply mock_meals_names|].
  intros Hdraws. by rewrite (mock_meals_ext env restrictions (draws w1) (draws w2)).
Qed.

(** ** Workflow: every step returns *)

Section steps.
Context (env : Env).

Lemma returns_start_span op w (Q : unit → World → Prop) :
  (∀ w', Q tt w') → returns (start_span env op) w Q.
Proof. intros HQ. eapply returns_eq; [reflexivity|]. apply HQ. Qed.

Lemma returns_trace_operation {A} op (c : M A) w (Q : A → World → Prop) :
  (∀ w', returns c w' Q) → returns (trace_operation env op c) w Q.
Proof.
  intros Hc. unfold trace_operation. apply returns_bind.
  apply returns_start_span. intros w'. apply Hc.
Qed.

Lemma mock_plan_three_meals n_days restrictions prefs w :
  (1 ≤ n_days)%Z →
  returns (MealPlannerAgent._generate_mock_meal_plan env n_days restrictions prefs) w
    (λ plan _, three_meals_a_day n_days plan).
Proof.
  intros Hn. eapply returns_eq; [apply _generate_mock_meal_plan_run|].
  cbv zeta. unfold three_meals_a_day. cbn [meals]. split; [|split].
  - rewrite mock_meals_length, length_seqZ. lia.
  - apply mock_meals_slots.
  - eapply Forall_impl; [apply mock_meals_days|].
    intros m Hm. cbv beta in Hm. apply elem_of_seqZ in Hm. lia.
Qed.

Lemma planner_returns n_days restrictions prefs budget user_context w :
  (1 ≤ n_days)%Z →
  returns (MealPlannerAgent.plan_meals env n_days restrictions prefs budget user_context) w
    (λ plan _,
       llm_plan env (mkPlanRequest n_days restrictions prefs budget user_context) = Some plan
       ∨ three_meals_a_day n_days plan).
Proof.
  intros Hn. unfold MealPlannerAgent.plan_meals.
  apply returns_trace_operation. intros w1.
  apply returns_bind, returns_start_span. intros w2.
  apply returns_try_except.
  assert (∀ r p w, returns (MealPlannerAgent._generate_mock_meal_plan env n_days r p) w
            (λ plan _,
               llm_plan env (mkPlanRequest n_days restrictions prefs budget user_context)
                 = Some plan
               ∨ three_meals_a_day n_days plan)) as Hmock.
  { intros r p w'. eapply returns_mono; [by apply mock_plan_three_meals|].
    intros plan ? H. by right. }
  destruct (gemini env) as [model|] eqn:Hg; [|apply Hmock].
  apply returns_try_except.
  destruct (model _) as [| |text] eqn:Hm; [apply Hmock|apply Hmock|].
  destruct text as [|c text]; [apply Hmock|].
  unfold MealPlannerAgent._parse_llm_response.
  destruct (MealPlannerAgent.decode_response env (String c text)) as [plan|] eqn:Hd.
  - apply returns_ret. left. unfold llm_plan. by rewrite Hg, Hm.
  - apply Hmock.
Qed.

Lemma search_recipes_run query restrictions cuisine max_results w :
  RecipeSearchTool.search_recipes env query restrictions cuisine max_results w =
    (Ok (search_result env query restrictions cuisine max_results),
     if tracing_enabled env then set_traces (λ t, t ++ ["recipe_search"]) w else w).
Proof.
  unfold RecipeSearchTool.search_recipes, search_result, bind, start_span, modify,
    try_except, ret.
  destruct (spoonacular env) as [api|]; [|done].
  by destruct (RecipeSearchTool._search_spoonacular api query restrictions max_results).
Qed.

Lemma process_meal_run restrictions meal w :
  RecipeFinderAgent.process_meal env restrictions meal w =
    (Ok (name meal, head (search_result env (name meal) restrictions None 3)),
     if tracing_enabled env then set_traces (λ t, t ++ ["recipe_search"]) w else w).
Proof.
  unfold RecipeFinderAgent.process_meal, try_except, bind.
  rewrite search_recipes_run.
  by destruct (search_result env (name meal) restrictions None 3).
Qed.

(** The futures of the submitted lookups, in submission order. *)
Lemma submit_returns restrictions ms fs w :
  returns
    (for_each ms (λ meal fs,
       let* r := RecipeFinderAgent.process_meal env restrictions meal in
       ret (fs ++ [(meal, r)])) fs) w
    (λ fs' w',
       fs' = fs ++ ((λ meal,
                (meal, (name meal,
                        head (search_result env (name meal) restrictions None 3))))
              <$> ms)
       ∧ sessions w' = sessions w
       ∧ bank_preferences w' = bank_preferences w
       ∧ bank_meal_history w' = bank_meal_history w
       ∧ ticks w' = ticks w).
Proof.
  revert fs w. induction ms as [|meal ms IH]; intros fs w.
  - apply returns_ret. by rewrite app_nil_r.
  - cbn [for_each]. apply returns_bind. apply returns_bind.
    eapply returns_eq; [apply process_meal_run|]. apply returns_ret.
    eapply returns_mono; [apply IH|].
    intros fs' w' (-> & Hs & Hp & Hh & Ht). rewrite <- app_assoc.
    split; [done|]. rewrite Hs, Hp, Hh, Ht. by destruct (tracing_enabled env).
Qed.
End steps.

Section totality.
Context (env : Env).

Lemma returns_always_bind {A B} (c : M A) (k : A → M B) w (Q : B → World → Prop) :
  (∀ (P : A → World → Prop), (∀ a w', P a w') → returns c w P) →
  (∀ a w', returns (k a) w' Q) →
  returns (bind c k) w Q.
Proof. intros Hc Hk. apply returns_bind. apply Hc. intros a w'. apply Hk. Qed.

Lemma get_session_returns sid w (Q : option Session → World → Prop) :
  (∀ r w', Q r w') → returns (InMemorySessionService.get_session env sid) w Q.
Proof.
  intros HQ. destruct (sessions w !! sid) as [s|] eqn:Hs.
  - destruct (Z.lt_ge_cases (InMemorySessionService.session_timeout env)
                (idle_time env w s)) as [Hlt|Hge].
    + eapply returns_eq; [by apply (get_session_expired_run env w sid s)|apply HQ].
    + eapply returns_eq; [by apply (get_session_live_run env w sid s)|apply HQ].
  - eapply returns_eq; [by apply get_session_absent_run|apply HQ].
Qed.

Lemma update_session_context_returns sid updates w (Q : bool → World → Prop) :
  (∀ r w', Q r w') →
  returns (InMemorySessionService.update_session_context env sid updates) w Q.
Proof.
  intros HQ. unfold InMemorySessionService.update_session_context.
  apply returns_always_bind; [intros P HP; by apply get_session_returns|].
  intros [s|] w'; [|by apply returns_ret].
  eapply returns_eq; [reflexivity|apply HQ].
Qed.

Lemma add_preference_returns uid ptype v w (Q : unit → World → Prop) :
  (∀ w', Q tt w') → returns (MemoryBank.add_preference env uid ptype v) w Q.
Proof. intros HQ. eapply returns_eq; [apply add_preference_run|apply HQ]. Qed.

Lemma add_meal_history_returns uid plan fb w (Q : unit → World → Prop) :
  (∀ w', Q tt w') → returns (MemoryBank.add_meal_history env uid plan fb) w Q.
Proof. intros HQ. eapply returns_eq; [apply add_meal_history_run|apply HQ]. Qed.

Lemma for_returns {A} (l : list A) (body : A → M unit) w (Q : unit → World → Prop) :
  (∀ x w' (P : unit → World → Prop), (∀ w'', P tt w'') → returns (body x) w' P) →
  (∀ w', Q tt w') → returns (for_ l body) w Q.
Proof.
  intros Hbody HQ. revert w. induction l as [|x l IH]; intros w; simpl.
  - apply returns_ret, HQ.
  - apply returns_bind, Hbody. intros w'. apply IH.
Qed.

Lemma find_recipes_returns ms restrictions w (Q : RecipeResults → World → Prop) :
  (∀ r w', Q r w') →
  returns (RecipeFinderAgent.find_recipes_for_meals env ms restrictions) w Q.
Proof.
  intros HQ. unfold RecipeFinderAgent.find_recipes_for_meals.
  apply returns_trace_operation. intros w1.
  apply returns_bind, returns_start_span. intros w2.
  apply returns_bind. eapply returns_mono; [apply submit_returns|].
  intros fs w3 _. apply returns_ret, HQ.
Qed.

Lemma generate_shopping_list_returns recipes optimize w
    (Q : ShoppingListAgent.Generated → World → Prop) :
  (∀ r w', Q r w') →
  returns (ShoppingListAgent.generate_shopping_list env recipes optimize) w Q.
Proof.
  intros HQ. unfold ShoppingListAgent.generate_shopping_list.
  apply returns_trace_operation. intros w1.
  apply returns_bind, returns_start_span. intros w2. cbv zeta.
  apply returns_bind. destruct optimize.
  - unfold ShoppingOptimizerTool.optimize_shopping_list.
    apply returns_bind, returns_start_span. intros w3.
    apply returns_ret, returns_ret, HQ.
  - apply returns_ret, returns_ret, HQ.
Qed.

Lemma analyze_meal_nutrition_returns ms w
    (Q : string + NutritionAnalysis → World → Prop) :
  (∀ r w', Q r w') →
  returns (NutritionAnalysisTool.analyze_meal_nutrition env ms) w Q.
Proof.
  intros HQ. unfold NutritionAnalysisTool.analyze_meal_nutrition.
  apply returns_bind, returns_start_span. intros w1. cbv zeta.
  destruct (foldl _ _ ms) as [[[[c p] cb] f]|]; apply returns_ret, HQ.
Qed.
End totality.

(** ** Dictionaries *)

Section pydict_more.
Context {V : Type}.
Implicit Types d : list (string * V).

Lemma pydict_get_None (k : string) d : k ∉ d.*1 → PyDict.get k d = None.
Proof.
  induction d as [|[k' v'] d IH]; [done|].
  rewrite fmap_cons, not_elem_of_cons. intros [Hne Hnin]. simpl.
  rewrite decide_False by done. auto.
Qed.

Lemma pydict_get_Some_elem (k : string) (v : V) d :
  PyDict.get k d = Some v → (k, v) ∈ d.
Proof.
  induction d as [|[k' v'] d IH]; [done|]. simpl.
  destruct (decide (k' = k)) as [->|Hne].
  - intros [= ->]. by left.
  - intros H. right. auto.
Qed.

Lemma pydict_set_keys (k : string) (v : V) d :
  (PyDict.set k v d).*1 = if decide (k ∈ d.*1) then d.*1 else d.*1 ++ [k].
Proof.
  induction d as [|[k' v'] d IH].
  - rewrite decide_False; [done|apply not_elem_of_nil].
  - cbn [PyDict.set]. rewrite fmap_cons. cbn [fst].
    destruct (decide (k' = k)) as [->|Hne].
    + rewrite decide_True; [done|by left].
    + rewrite fmap_cons, IH. cbn [fst]. destruct (decide (k ∈ d.*1)) as [Hin|Hnin].
      * rewrite decide_True; [done|by right].
      * rewrite decide_False; [done|]. intros [?|?]%elem_of_cons; congruence.
Qed.

Lemma pydict_set_NoDup (k : string) (v : V) d :
  NoDup d.*1 → NoDup (PyDict.set k v d).*1.
Proof.
  intros Hnd. rewrite pydict_set_keys. destruct (decide _) as [Hin|Hnin]; [done|].
  apply NoDup_app. split; [done|]. split; [|apply NoDup_singleton].
  intros y Hy Hy'%list_elem_of_singleton. by subst y.
Qed.

Lemma pydict_set_elem (k : string) (v : V) d k' v' :
  NoDup d.*1 →
  (k', v') ∈ PyDict.set k v d → (k' = k ∧ v' = v) ∨ (k' ≠ k ∧ (k', v') ∈ d).
Proof.
  induction d as [|[k0 v0] d IH]; intros Hnd; simpl.
  - intros [= -> ->]%list_elem_of_singleton. by left.
  - rewrite fmap_cons in Hnd. apply NoDup_cons in Hnd as [Hnin Hnd].
    destruct (decide (k0 = k)) as [->|Hne]; simpl.
    + intros [[= -> ->]|Hin]%elem_of_cons; [by left|].
      right. split; [|by right]. intros ->. apply Hnin.
      apply list_elem_of_fmap. by exists (k, v').
    + intros [[= -> ->]|Hin]%elem_of_cons.
      * right. split; [done|by left].
      * destruct (IH Hnd Hin) as [[-> ->]|[? ?]]; [by left|].
        right. split; [done|by right].
Qed.

Lemma pydict_get_set_eq (k : string) (v : V) d :
  PyDict.get k (PyDict.set k v d) = Some v.
Proof.
  induction d as [|[k0 v0] d IH]; simpl.
  - by rewrite decide_True.
  - destruct (decide (k0 = k)) as [->|Hne]; simpl.
    + by rewrite decide_True.
    + by rewrite decide_False.
Qed.

Lemma pydict_get_set_ne (k k' : string) (v : V) d :
  k ≠ k' → PyDict.get k' (PyDict.set k v d) = PyDict.get k' d.
Proof.
  intros Hne. induction d as [|[k0 v0] d IH]; simpl.
  - by rewrite decide_False.
  - destruct (decide (k0 = k)) as [->|Hne0]; simpl.
    + by rewrite !decide_False.
    + destruct (decide (k0 = k')); [done|]. apply IH.
Qed.
End pydict_more.

Lemma pydict_append_concat {A} (k : string) (x : A) (d : list (string * list A)) :
  concat (PyDict.set k (default [] (PyDict.get k d) ++ [x]) d).*2 ≡ₚ concat d.*2 ++ [x].
Proof.
  induction d as [|[k0 v0] d IH]; simpl; [done|].
  destruct (decide (k0 = k)) as [->|Hne]; simpl.
  - rewrite <- !app_assoc. apply Permutation_app_head, Permutation_app_comm.
  - rewrite IH. by rewrite app_assoc.
Qed.

Lemma pydict_fold_keys {V} (kvs d : list (string * V)) :
  NoDup d.*1 →
  NoDup (foldl (λ d (e : string * V), PyDict.set e.1 e.2 d) d kvs).*1
  ∧ ∀ k, k ∈ (foldl (λ d (e : string * V), PyDict.set e.1 e.2 d) d kvs).*1 →
         k ∈ d.*1 ∨ k ∈ kvs.*1.
Proof.
  revert d. induction kvs as [|[k0 v0] kvs IH]; intros d Hnd.
  - split; [done|]. intros k Hk. by left.
  - cbn [foldl fst snd].
    destruct (IH (PyDict.set k0 v0 d)) as [Hnd' Hkeys]; [by apply pydict_set_NoDup|].
    split; [done|]. intros k Hk.
    destruct (Hkeys k Hk) as [Hin|Hin].
    + rewrite pydict_set_keys in Hin. destruct (decide (k0 ∈ d.*1)); [by left|].
      apply elem_of_app in Hin as [?|Hin%list_elem_of_singleton]; [by left|].
      right. rewrite fmap_cons. subst k. by left.
    + right. rewrite fmap_cons. by right.
Qed.

Lemma pydict_fold_elems {V} (kvs d : list (string * V)) k v :
  NoDup d.*1 →
  (k, v) ∈ foldl (λ d (e : string * V), PyDict.set e.1 e.2 d) d kvs →
  (k, v) ∈ d ∨ (k, v) ∈ kvs.
Proof.
  revert d. induction kvs as [|[k0 v0] kvs IH]; intros d Hnd Hin.
  - by left.
  - cbn [foldl fst snd] in Hin.
    apply IH in Hin as [Hin|Hin]; [|right; by right|by apply pydict_set_NoDup].
    apply pydict_set_elem in Hin as [[-> ->]|[_ Hin]]; [|by left|done].
    right. by left.
Qed.

Lemma omap_lookup_elem {A} (l : list A) (order : list nat) x :
  x ∈ omap (λ i, l !! i) order → x ∈ l.
Proof.
  intros (i & _ & Hi)%list_elem_of_omap. by eapply list_elem_of_lookup_2.
Qed.

Lemma pydict_fold_get_fresh {V} (kvs d : list (string * V)) k :
  k ∉ kvs.*1 →
  PyDict.get k (foldl (λ d (e : string * V), PyDict.set e.1 e.2 d) d kvs) = PyDict.get k d.
Proof.
  revert d. induction kvs as [|[k0 v0] kvs IH]; intros d Hk; [done|].
  rewrite fmap_cons, not_elem_of_cons in Hk. destruct Hk as [Hne Hk].
  cbn [foldl fst snd]. rewrite IH by done. by apply pydict_get_set_ne.
Qed.

Lemma pydict_set_submseteq {V} (k : string) (v : V) (d : list (string * V)) :
  PyDict.set k v d ⊆+ (k, v) :: d.
Proof.
  induction d as [|[k' v'] d IH]; [done|]. cbn [PyDict.set].
  destruct (decide (k' = k)) as [->|Hne].
  - apply submseteq_skip, submseteq_cons. done.
  - etrans; [apply submseteq_skip, IH|]. by rewrite Permutation_swap.
Qed.

Lemma pydict_fold_submseteq {V} (kvs d : list (string * V)) :
  foldl (λ d (e : string * V), PyDict.set e.1 e.2 d) d kvs ⊆+ d ++ kvs.
Proof.
  revert d. induction kvs as [|[k v] kvs IH]; intros d.
  - by rewrite app_nil_r.
  - cbn [foldl fst snd]. etrans; [apply IH|].
    etrans; [apply submseteq_app; [apply pydict_set_submseteq|reflexivity]|].
    by rewrite <- Permutation_middle.
Qed.

(** The last element of a list that satisfies a decidable property. *)
Lemma list_split_last {A} (P : A → Prop) `{!∀ x, Decision (P x)} (l : list A) :
  Exists P l →
  ∃ pre x post, l = pre ++ x :: post ∧ P x ∧ ∀ y, y ∈ post → ¬ P y.
Proof.
  induction l as [|a l IH]; intros Hex; [by apply Exists_nil in Hex|].
  destruct (decide (Exists P l)) as [Hl|Hl].
  - destruct (IH Hl) as (pre & x & post & -> & Hx & Hpost).
    by exists (a :: pre), x, post.
  - apply Exists_cons in Hex as [Ha|?]; [|done].
    exists [], a, l. split; [done|]. split; [done|].
    intros y Hy HPy. apply Hl, Exists_exists. by exists y.
Qed.

Lemma submseteq_filter {A} (P : A → Prop) `{!∀ x, Decision (P x)} (l k : list A) :
  l ⊆+ k → filter P l ⊆+ filter P k.
Proof.
  induction 1 as [|x l k _ IH|x y l|x l k _ IH|l k m _ IH1 _ IH2].
  - done.
  - rewrite !filter_cons. destruct (decide (P x)); [by apply submseteq_skip|done].
  - rewrite !filter_cons. destruct (decide (P x)), (decide (P y)); try done.
    by rewrite Permutation_swap.
  - rewrite filter_cons. destruct (decide (P x)); [by apply submseteq_cons|done].
  - by etrans.
Qed.

(** ** Recipe lookup *)

Section pydict.
Context {V : Type}.
Implicit Types d kvs : list (string * V).

Lemma pydict_set_fresh k (v : V) d :
  k ∉ d.*1 → PyDict.set k v d = d ++ [(k, v)].
Proof.
  induction d as [|[k' v'] d IH]; [done|].
  rewrite fmap_cons, not_elem_of_cons. simpl. intros [Hne Hnin].
  rewrite decide_False by done. by rewrite IH.
Qed.

Lemma pydict_fold_set_fresh kvs d :
  NoDup (d.*1 ++ kvs.*1) →
  foldl (λ d (e : string * V), PyDict.set e.1 e.2 d) d kvs = d ++ kvs.
Proof.
  revert d. induction kvs as [|[k v] kvs IH]; intros d Hnd.
  - by rewrite app_nil_r.
  - cbn [foldl fst snd]. rewrite fmap_cons in Hnd. cbn [fst] in Hnd.
    pose proof Hnd as Hnd'. apply NoDup_app in Hnd' as (_ & Hdisj & _).
    rewrite pydict_set_fresh.
    + rewrite IH; [by rewrite <- app_assoc|].
      rewrite fmap_app, <- app_assoc. done.
    + intros Hk. apply (Hdisj k Hk). by left.
Qed.

Lemma pydict_get_elem k (v : V) d :
  NoDup d.*1 → (k, v) ∈ d → PyDict.get k d = Some v.
Proof.
  induction d as [|[k' v'] d IH]; intros Hnd Hin; [by apply elem_of_nil in Hin|].
  rewrite fmap_cons in Hnd. apply NoDup_cons in Hnd as [Hnin Hnd].
  apply elem_of_cons in Hin as [[= <- <-]|Hin]; simpl.
  - by rewrite decide_True.
  - rewrite decide_False; [by apply IH|].
    intros <-. apply Hnin. apply list_elem_of_fmap. by exists (k', v).
Qed.
End pydict.

Lemma omap_lookup_seq {A} (pre l : list A) :
  omap (λ i, (pre ++ l) !! i) (seq (length pre) (length l)) = l.
Proof.
  revert pre. induction l as [|x l IH]; intros pre; [done|].
  simpl. rewrite list_lookup_middle by done. f_equal.
  specialize (IH (pre ++ [x])). rewrite <- app_assoc, length_app in IH.
  cbn [length app] in IH. by rewrite Nat.add_1_r in IH.
Qed.

Section recipe_lookup.
Context (env : Env) (restrictions : option (list string)).

Lemma collect_fold ms d order :
  foldl (RecipeFinderAgent.collect env
           ((λ meal, (meal, (name meal,
                             head (search_result env (name meal) restrictions None 3))))
              <$> ms)) d order =
    foldl (λ d (e : string * option Recipe), PyDict.set e.1 e.2 d) d
          (omap (λ i, lookup_entries env restrictions ms !! i) order).
Proof.
  revert d. induction order as [|i order IH]; intros d; [done|].
  assert (omap (λ j, lookup_entries env restrictions ms !! j) (i :: order) =
            match lookup_entries env restrictions ms !! i with
            | Some e => e :: omap (λ j, lookup_entries env restrictions ms !! j) order
            | None => omap (λ j, lookup_entries env restrictions ms !! j) order
            end) as -> by done.
  cbn [foldl]. rewrite IH.
  assert (lookup_entries env restrictions ms !! i =
            (λ meal, (name meal, lookup_outcome env restrictions i meal)) <$> ms !! i)
    as -> by apply list_lookup_imap.
  unfold RecipeFinderAgent.collect. rewrite list_lookup_fmap.
  destruct (ms !! i) as [meal|]; simpl; [|done].
  unfold lookup_outcome. by destruct (future_raises env i).
Qed.

Lemma entries_keys ms : (lookup_entries env restrictions ms).*1 = name <$> ms.
Proof.
  unfold lookup_entries. rewrite fmap_imap. unfold compose. simpl.
  by rewrite (imap_const name).
Qed.

Lemma entries_values ms :
  (lookup_entries env restrictions ms).*2 = imap (lookup_outcome env restrictions) ms.
Proof. unfold lookup_entries. by rewrite fmap_imap. Qed.

Lemma collected_entries ms order :
  NoDup (name <$> ms) →
  order ≡ₚ seq 0 (length ms) →
  ∃ d, foldl (RecipeFinderAgent.collect env
                ((λ meal, (meal, (name meal,
                                  head (search_result env (name meal) restrictions None 3))))
                   <$> ms)) [] order = d
       ∧ d ≡ₚ lookup_entries env restrictions ms ∧ NoDup d.*1.
Proof.
  intros Hnd Hperm. eexists. split; [reflexivity|].
  rewrite collect_fold.
  assert (omap (λ i, lookup_entries env restrictions ms !! i) order ≡ₚ lookup_entries env restrictions ms) as Hd.
  { rewrite Hperm. rewrite <- (length_imap _ ms : length (lookup_entries env restrictions ms) = length ms).
    pose proof (omap_lookup_seq [] (lookup_entries env restrictions ms)) as Heq. simpl in Heq.
    by rewrite Heq. }
  assert (NoDup (omap (λ i, lookup_entries env restrictions ms !! i) order).*1) as Hnd'.
  { rewrite Hd, entries_keys. done. }
  rewrite pydict_fold_set_fresh by done. done.
Qed.

Lemma entries_lookup ms i :
  lookup_entries env restrictions ms !! i
  = (λ meal, (name meal, lookup_outcome env restrictions i meal)) <$> ms !! i.
Proof. apply list_lookup_imap. Qed.

(** The entry of a name is written by the lookup that completes last among
    the meals of that name. *)
Lemma collected_get ms order d i meal :
  ms !! i = Some meal →
  completes_last order ms i →
  PyDict.get (name meal)
    (foldl (λ d (e : string * option Recipe), PyDict.set e.1 e.2 d) d
       (omap (λ i, lookup_entries env restrictions ms !! i) order))
  = Some (lookup_outcome env restrictions i meal).
Proof.
  intros Hi (pre & post & -> & Hpost).
  rewrite omap_app. cbn [omap list_omap]. rewrite entries_lookup, Hi. cbn [fmap option_fmap option_map].
  rewrite foldl_app. cbn [foldl fst snd].
  rewrite pydict_fold_get_fresh; [apply pydict_get_set_eq|].
  intros ([k v] & Hk & Hin)%list_elem_of_fmap. cbn in Hk. subst k.
  apply list_elem_of_omap in Hin as (j & Hj & Hentry).
  rewrite entries_lookup in Hentry.
  destruct (ms !! j) as [meal'|] eqn:Hmj; [|done].
  cbn in Hentry. injection Hentry as Hname _.
  apply (Hpost j Hj). rewrite Hmj, Hi. cbn. by rewrite Hname.
Qed.

Lemma completes_last_exists ms order k :
  order ≡ₚ seq 0 (length ms) →
  k ∈ name <$> ms →
  ∃ i meal, ms !! i = Some meal ∧ name meal = k ∧ completes_last order ms i.
Proof.
  intros Hperm (meal0 & -> & Hin)%list_elem_of_fmap.
  apply list_elem_of_lookup in Hin as [i0 Hi0].
  destruct (list_split_last (λ j, name <$> ms !! j = Some (name meal0)) order)
    as (pre & i & post & -> & Hi & Hpost).
  { apply Exists_exists. exists i0. split; [|by rewrite Hi0].
    rewrite Hperm. apply elem_of_seq. apply lookup_lt_Some in Hi0. lia. }
  destruct (ms !! i) as [meal|] eqn:Hmi; [|done].
  injection Hi as Hname. exists i, meal. split; [done|]. split; [done|].
  exists pre, post. split; [done|]. intros j Hj. rewrite Hmi. cbn. rewrite Hname.
  by apply Hpost.
Qed.

Lemma completes_last_unique ms order i meal :
  order ≡ₚ seq 0 (length ms) →
  ms !! i = Some meal →
  (∀ j meal', ms !! j = Some meal' → name meal' = name meal → j = i) →
  completes_last order ms i.
Proof.
  intros Hperm Hi Huniq.
  assert (i ∈ order) as Hin.
  { rewrite Hperm. apply elem_of_seq. apply lookup_lt_Some in Hi. lia. }
  apply list_elem_of_split in Hin as (pre & post & ->).
  exists pre, post. split; [done|]. intros j Hj Heq.
  assert (NoDup (pre ++ i :: post)) as Hnd by (rewrite Hperm; apply NoDup_seq).
  apply NoDup_app in Hnd as (_ & _ & Hnd). apply NoDup_cons in Hnd as [Hnotin _].
  rewrite Hi in Heq. destruct (ms !! j) as [meal'|] eqn:Hmj; [|done].
  injection Heq as Hname. rewrite (Huniq j meal' Hmj Hname) in Hj. done.
Qed.

(** C5, amended. When every submitted lookup completes once, the result
    is keyed by meal name: its names are the names of the meals, each
    once, and the entry of a name is the outcome of the lookup that
    completes last among the meals of that name, absent when that lookup
    fails or finds nothing. So the entry of a meal whose name no other meal
    has is the outcome of its own lookup, whatever the other lookups do.
    [total_meals] is the number of meals; [recipes_found] is the number of
    entries that hold a recipe, which is at most the number of meals whose
    lookup yields a recipe and equals it when the names are pairwise
    distinct. *)
Theorem lookups_keyed_by_name (ms : list Meal) (w : World) :
  as_completed env (length ms) ≡ₚ seq 0 (length ms) →
  returns (RecipeFinderAgent.find_recipes_for_meals env ms restrictions) w (λ res _,
    total_meals res = length ms
    ∧ NoDup (meal_recipes res).*1
    ∧ (∀ k, k ∈ (meal_recipes res).*1 ↔ k ∈ name <$> ms)
    ∧ (∀ k, k ∈ name <$> ms →
         ∃ i meal, ms !! i = Some meal ∧ name meal = k
                   ∧ completes_last (as_completed env (length ms)) ms i)
    ∧ (∀ i meal, ms !! i = Some meal →
         completes_last (as_completed env (length ms)) ms i →
         PyDict.get (name meal) (meal_recipes res)
         = Some (lookup_outcome env restrictions i meal))
    ∧ (∀ i meal, ms !! i = Some meal →
         (∀ j meal', ms !! j = Some meal' → name meal' = name meal → j = i) →
         PyDict.get (name meal) (meal_recipes res)
         = Some (lookup_outcome env restrictions i meal))
    ∧ recipes_found res
      = length (filter (λ e : string * option Recipe, is_Some e.2) (meal_recipes res))
    ∧ recipes_found res ≤ lookups_succeeded env restrictions ms
    ∧ (NoDup (name <$> ms) →
       recipes_found res = lookups_succeeded env restrictions ms)).
Proof.
  intros Hperm. unfold RecipeFinderAgent.find_recipes_for_meals.
  apply returns_trace_operation. intros w1.
  apply returns_bind, returns_start_span. intros w2.
  apply returns_bind. eapply returns_mono; [apply submit_returns|].
  intros fs w3 [-> _]. apply returns_ret. rewrite app_nil_l.
  cbn [total_meals recipes_found meal_recipes]. rewrite collect_fold.
  set (order := as_completed env (length ms)) in *.
  set (kvs := omap (λ i, lookup_entries env restrictions ms !! i) order).
  set (d := foldl (λ d (e : string * option Recipe), PyDict.set e.1 e.2 d) [] kvs).
  assert (kvs ≡ₚ lookup_entries env restrictions ms) as Hkvs.
  { unfold kvs. rewrite Hperm.
    rewrite <- (length_imap _ ms
                  : length (lookup_entries env restrictions ms) = length ms).
    pose proof (omap_lookup_seq [] (lookup_entries env restrictions ms)) as Heq.
    simpl in Heq. by rewrite Heq. }
  destruct (pydict_fold_keys kvs []) as [Hnd Hkeys]; [constructor|]. fold d in Hnd, Hkeys.
  assert (∀ i meal, ms !! i = Some meal → completes_last order ms i →
            PyDict.get (name meal) d = Some (lookup_outcome env restrictions i meal))
    as Hget.
  { intros i meal Hi Hlast. by apply collected_get. }
  assert (d.*2 ⊆+ (lookup_entries env restrictions ms).*2) as Hsub.
  { apply fmap_submseteq. rewrite <- Hkvs. apply (pydict_fold_submseteq kvs []). }
  split; [done|]. split; [done|]. split; [|split; [|split; [|split; [|split; [|split]]]]].
  - intros k. split.
    + intros [Hk|Hk]%Hkeys; [by apply elem_of_nil in Hk|].
      by rewrite Hkvs, entries_keys in Hk.
    + intros Hk. destruct (completes_last_exists ms order k Hperm Hk)
        as (i & meal & Hi & <- & Hlast).
      apply list_elem_of_fmap. exists (name meal, lookup_outcome env restrictions i meal).
      split; [done|]. apply pydict_get_Some_elem. by apply Hget.
  - intros k Hk. by apply completes_last_exists.
  - exact Hget.
  - intros i meal Hi Huniq. apply Hget; [done|]. by eapply completes_last_unique.
  - unfold PyDict.values. clear. induction d as [|[k v] d IH]; [done|].
    rewrite fmap_cons. cbn [snd]. rewrite !filter_cons. cbn [snd].
    destruct (decide (is_Some v)); cbn [length]; by rewrite IH.
  - unfold lookups_succeeded, PyDict.values. rewrite <- entries_values.
    apply submseteq_length. by apply submseteq_filter.
  - intros Hndms.
    assert (NoDup kvs.*1) as Hndk by (by rewrite Hkvs, entries_keys).
    unfold d. rewrite (pydict_fold_set_fresh kvs []) by done. rewrite app_nil_l.
    unfold lookups_succeeded, PyDict.values. by rewrite Hkvs, entries_values.
Qed.
End recipe_lookup.

(** C5, as stated, fails: two meals of the same name share one entry of
    the result, so with both lookups succeeding [recipes_found] is 1 while
    two meals of the list have a recipe. *)
Lemma repeated_name_counted_once :
  recipes_found <$>
    result_value (RecipeFinderAgent.find_recipes_for_meals Demo.env
                    [Demo.oatmeal 1; Demo.oatmeal 2] None Demo.world0) = Some 1
  ∧ lookups_succeeded Demo.env None [Demo.oatmeal 1; Demo.oatmeal 2] = 2.
Proof. split; vm_compute; reflexivity. Qed.

(** With a shared name the failure of one lookup does reach another meal:
    of two meals named alike whose second lookup fails and completes last,
    the first has found a recipe, yet the entry of the name is absent. *)
Lemma failed_lookup_hides_namesake :
  is_Some (lookup_outcome Demo.env_flaky None 0 (Demo.oatmeal 1))
  ∧ (λ res, PyDict.get "Oatmeal with berries" (meal_recipes res)) <$>
      result_value (RecipeFinderAgent.find_recipes_for_meals Demo.env_flaky
                      [Demo.oatmeal 1; Demo.oatmeal 2] None Demo.world0)
    = Some (Some None).
Proof. split; [by eexists|]. vm_compute. reflexivity. Qed.

Lemma lookups_keyed_by_name_witness :
  as_completed Demo.env_flaky 3 ≡ₚ seq 0 3
  ∧ returns (RecipeFinderAgent.find_recipes_for_meals Demo.env_flaky
               [Demo.oatmeal 1;
                MealPlannerAgent.mock_meal 1 "lunch" "Quinoa bowl";
                Demo.oatmeal 2] None) Demo.world0
      (λ res _,
         total_meals res = 3
         ∧ PyDict.get "Quinoa bowl" (meal_recipes res) = Some None
         ∧ (∃ recipe, PyDict.get "Oatmeal with berries" (meal_recipes res)
                      = Some (Some recipe))
         ∧ recipes_found res ≤ 2).
Proof.
  assert (as_completed Demo.env_flaky 3 ≡ₚ seq 0 3) as Hperm by reflexivity.
  split; [exact Hperm|].
  eapply returns_mono;
    [exact (lookups_keyed_by_name Demo.env_flaky None
              [Demo.oatmeal 1;
               MealPlannerAgent.mock_meal 1 "lunch" "Quinoa bowl";
               Demo.oatmeal 2] Demo.world0 Hperm)|].
  intros res w' (Htotal & _ & _ & _ & Hlast & Huniq & _ & Hle & _).
  split; [exact Htotal|]. split; [|split].
  - apply (Huniq 1 (MealPlannerAgent.mock_meal 1 "lunch" "Quinoa bowl") eq_refl).
    intros [|[|[|j]]] meal' Hj Hname; try done.
    + injection Hj as <-. discriminate Hname.
    + injection Hj as <-. discriminate Hname.
  - eexists. apply (Hlast 2 (Demo.oatmeal 2) eq_refl).
    exists [0; 1], []. split; [reflexivity|]. intros j Hj. by apply elem_of_nil in Hj.
  - exact Hle.
Defined.

(** ** Orchestrator *)

Section orchestrator.
Context (env : Env).

Lemma start_span_run op w : start_span env op w = (Ok tt, traced env op w).
Proof. reflexivity. Qed.

Lemma traced_sessions op w : sessions (traced env op w) = sessions w.
Proof. unfold traced. by destruct (tracing_enabled env). Qed.

Lemma traced_ticks op w : ticks (traced env op w) = ticks w.
Proof. unfold traced. by destruct (tracing_enabled env). Qed.

Lemma traced_idle_time op w s : idle_time env (traced env op w) s = idle_time env w s.
Proof. unfold idle_time. by rewrite traced_ticks. Qed.

(** C1, amended. For [n_days >= 1] and a stored session that has not
    expired, when the planner obtains no document from the language model
    (no model is configured, the model times out or fails, its reply is
    empty, or no JSON document can be decoded from the reply), the workflow
    returns a result whose plan has exactly [3 * n_days] meals: breakfast,
    lunch and dinner of day 1, then of day 2, and so on, every day number
    within [1, n_days]. *)
Theorem workflow_plan_three_meals (w : World) (sid : string) (s : Session)
    (n_days : Z) (restrictions prefs : option (list string))
    (budget : option Qcanon.Qc) (include_nutrition include_shopping_list : bool) :
  (1 ≤ n_days)%Z →
  sessions w !! sid = Some s →
  (idle_time env w s ≤ InMemorySessionService.session_timeout env)%Z →
  llm_plan env (mkPlanRequest n_days restrictions prefs budget
                  (OrchestratorAgent.context_user_context s)) = None →
  returns (OrchestratorAgent.plan_meals env sid n_days restrictions prefs budget
             include_nutrition include_shopping_list) w (λ res _,
    three_meals_a_day n_days (res_meal_plan res)).
Proof.
  intros Hn Hs Hidle Hllm. unfold OrchestratorAgent.plan_meals, trace_operation.
  apply returns_bind. eapply returns_eq; [apply start_span_run|].
  apply returns_bind. eapply returns_eq; [apply start_span_run|].
  apply returns_try_except.
  apply returns_bind. eapply returns_eq.
  { apply (get_session_live_run env _ sid s).
    - by rewrite !traced_sessions.
    - by rewrite !traced_idle_time. }
  apply returns_bind. eapply returns_mono; [by apply planner_returns|].
  intros plan w1 Hplan.
  apply returns_always_bind; [intros P HP; by apply find_recipes_returns|].
  intros recipe_results w2.
  apply returns_always_bind.
  { intros P HP. destruct include_shopping_list; [|by apply returns_ret].
    apply returns_always_bind;
      [intros P' HP'; by apply generate_shopping_list_returns|].
    intros g w'. by apply returns_ret. }
  intros shopping w3.
  apply returns_always_bind.
  { intros P HP. destruct include_nutrition; [|by apply returns_ret].
    apply returns_always_bind;
      [intros P' HP'; by apply analyze_meal_nutrition_returns|].
    intros a w'. by apply returns_ret. }
  intros nutrition w4.
  apply returns_always_bind;
    [intros P HP; by apply update_session_context_returns|].
  intros b w5.
  apply returns_always_bind;
    [intros P HP; by apply add_meal_history_returns|].
  intros [] w6.
  apply returns_always_bind.
  { intros P HP. destruct restrictions as [rs|]; [|by apply returns_ret].
    apply for_returns; [|done].
    intros x w' P' HP'. by apply add_preference_returns. }
  intros [] w7.
  apply returns_always_bind.
  { intros P HP. destruct prefs as [[|x ps]|]; try by apply returns_ret.
    by apply add_preference_returns. }
  intros [] w8. apply returns_ret. cbn [res_meal_plan].
  destruct Hplan as [Hplan|Hplan]; [|exact Hplan].
  change (llm_plan env (mkPlanRequest n_days restrictions prefs budget
                          (OrchestratorAgent.context_user_context s)) = Some plan)
    in Hplan.
  congruence.
Qed.

(** C9, amended. When the session id is not stored, or is stored with an
    idle time above the timeout, the workflow raises the error
    [Session <id> not found]; the tracer has recorded the two spans of
    the orchestrator and no span of a worker; no random draw and no uuid
    has been consumed; the preferences and the meal histories are
    unchanged; and the session store is the store without that id, which
    is the unchanged store when the id was not stored. *)
Theorem workflow_session_not_found (w : World) (sid : string)
    (n_days : Z) (restrictions prefs : option (list string))
    (budget : option Qcanon.Qc) (include_nutrition include_shopping_list : bool) :
  (sessions w !! sid = None
   ∨ ∃ s, sessions w !! sid = Some s
          ∧ (InMemorySessionService.session_timeout env < idle_time env w s)%Z) →
  raises (OrchestratorAgent.plan_meals env sid n_days restrictions prefs budget
            include_nutrition include_shopping_list) w
    (ValueError ("Session " +:+ sid +:+ " not found")) (λ w',
      sessions w' = delete sid (sessions w)
      ∧ (sessions w !! sid = None → sessions w' = sessions w)
      ∧ bank_preferences w' = bank_preferences w
      ∧ bank_meal_history w' = bank_meal_history w
      ∧ draws w' = draws w ∧ uuids w' = uuids w
      ∧ traces w' =
          traces w ++ (if tracing_enabled env
                       then ["plan_meals_complete"; "orchestrator_plan_meals"]
                       else [])).
Proof.
  intros Hsid. unfold raises, OrchestratorAgent.plan_meals, trace_operation.
  unfold bind at 1. rewrite start_span_run.
  unfold bind at 1. rewrite start_span_run.
  unfold try_except. unfold bind at 1.
  set (w2 := traced env "orchestrator_plan_meals" (traced env "plan_meals_complete" w)).
  assert (traces w2 = traces w ++ (if tracing_enabled env
                       then ["plan_meals_complete"; "orchestrator_plan_meals"]
                       else [])) as Htr.
  { unfold w2, traced. destruct (tracing_enabled env); simpl.
    - by rewrite <- app_assoc.
    - by rewrite app_nil_r. }
  assert (bank_preferences w2 = bank_preferences w
          ∧ bank_meal_history w2 = bank_meal_history w
          ∧ draws w2 = draws w ∧ uuids w2 = uuids w) as (Hp & Hh & Hd & Hu).
  { unfold w2, traced. by destruct (tracing_enabled env). }
  destruct Hsid as [Hnone|(s & Hs & Hidle)].
  - rewrite (get_session_absent_run env w2 sid)
      by (unfold w2; by rewrite !traced_sessions).
    eexists. split; [reflexivity|].
    unfold w2 at 1 2. rewrite !traced_sessions.
    split; [by rewrite delete_id|]. done.
  - rewrite (get_session_expired_run env w2 sid s);
      [|unfold w2; by rewrite !traced_sessions
       |unfold w2; by rewrite !traced_idle_time].
    eexists. split; [reflexivity|]. cbn.
    unfold w2 at 1 2. rewrite !traced_sessions.
    split; [done|]. split; [|done].
    intros Hnone. congruence.
Qed.
End orchestrator.

(** C1, as stated, fails: with a model whose reply decodes to a document
    without meals, the workflow run for 1 day on a live session returns that
    document, a plan of 0 meals where 3 are specified. *)
Lemma workflow_returns_decoded_plan :
  (λ res, length (meals (res_meal_plan res))) <$>
    result_value (OrchestratorAgent.plan_meals Demo.env_llm "s1" 1 None None None
                    true true Demo.world1) = Some 0.
Proof. vm_compute. reflexivity. Qed.

Lemma workflow_plan_three_meals_witness :
  returns (OrchestratorAgent.plan_meals Demo.env "s1" 2 (Some ["vegetarian"]) None None
             true true) Demo.world1 (λ res _,
    three_meals_a_day 2 (res_meal_plan res)).
Proof.
  apply (workflow_plan_three_meals Demo.env Demo.world1 "s1" Demo.s1 2
           (Some ["vegetarian"]) None None true true).
  - lia.
  - reflexivity.
  - vm_compute. discriminate.
  - reflexivity.
Defined.

(** C9, as stated, fails for an expired session: the workflow raises the
    error, but the session store is not left unchanged, the expired session
    is evicted from it. *)
Lemma workflow_evicts_expired_session :
  (OrchestratorAgent.plan_meals (Demo.env_at Demo.two_hours) "s1" 2 None None None
     true true Demo.world1).1 = Raise (ValueError "Session s1 not found")
  ∧ sessions Demo.world1 !! "s1" = Some Demo.s1
  ∧ sessions (OrchestratorAgent.plan_meals (Demo.env_at Demo.two_hours) "s1" 2 None None
                None true true Demo.world1).2 !! "s1" = None.
Proof. repeat split; vm_compute; reflexivity. Qed.

Lemma workflow_session_not_found_witness :
  raises (OrchestratorAgent.plan_meals Demo.env "s2" 2 None None None true true) Demo.world1
    (ValueError ("Session " +:+ "s2" +:+ " not found")) (λ w',
      sessions w' = delete "s2" (sessions Demo.world1)
      ∧ (sessions Demo.world1 !! "s2" = None → sessions w' = sessions Demo.world1)
      ∧ bank_preferences w' = bank_preferences Demo.world1
      ∧ bank_meal_history w' = bank_meal_history Demo.world1
      ∧ draws w' = draws Demo.world1 ∧ uuids w' = uuids Demo.world1
      ∧ traces w' =
          traces Demo.world1 ++ (if tracing_enabled Demo.env
                                 then ["plan_meals_complete"; "orchestrator_plan_meals"]
                                 else []))
  ∧ raises (OrchestratorAgent.plan_meals (Demo.env_at Demo.two_hours) "s1" 2 None None None
              true true) Demo.world1
    (ValueError ("Session " +:+ "s1" +:+ " not found")) (λ w',
      sessions w' = delete "s1" (sessions Demo.world1)
      ∧ (sessions Demo.world1 !! "s1" = None → sessions w' = sessions Demo.world1)
      ∧ bank_preferences w' = bank_preferences Demo.world1
      ∧ bank_meal_history w' = bank_meal_history Demo.world1
      ∧ draws w' = draws Demo.world1 ∧ uuids w' = uuids Demo.world1
      ∧ traces w' =
          traces Demo.world1 ++ (if tracing_enabled (Demo.env_at Demo.two_hours)
                                 then ["plan_meals_complete"; "orchestrator_plan_meals"]
                                 else [])).
Proof.
  split.
  - apply (workflow_session_not_found Demo.env Demo.world1 "s2" 2 None None None true true).
    left. reflexivity.
  - apply (workflow_session_not_found (Demo.env_at Demo.two_hours) Demo.world1 "s1" 2
             None None None true true).
    right. exists Demo.s1. split; [reflexivity|vm_compute; reflexivity].
Defined.

(** C7: the code at the scenario of the specification. A session is created for
    user u1, who has no stored preferences, and the workflow is run for 2
    days with the restrictions [vegetarian]: the plan has 6 meals and the
    bank then holds, under dietary_restriction, the string vegetarian and
    not the list of restrictions. Run with [vegan; gluten-free], the bank
    holds the string gluten-free alone: every restriction overwrites the
    one before it. *)
Theorem workflow_stores_last_restriction_as_string :
  let scenario restrictions :=
    (let* sid := OrchestratorAgent.create_session Demo.env "u1" None in
     OrchestratorAgent.plan_meals Demo.env sid 2 (Some restrictions) None None true true)
      Demo.world0 in
  (λ res, length (meals (res_meal_plan res))) <$> result_value (scenario ["vegetarian"])
    = Some 6
  ∧ result_value (MemoryBank.get_preference "u1" "dietary_restriction"
                    (scenario ["vegetarian"]).2)
    = Some (Some (VStr "vegetarian"))
  ∧ result_value (MemoryBank.get_preferences "u1" (scenario ["vegetarian"]).2)
    = Some {["dietary_restriction" := VStr "vegetarian"]}
  ∧ result_value (MemoryBank.get_preference "u1" "dietary_restriction"
                    (scenario ["vegan"; "gluten-free"]).2)
    = Some (Some (VStr "gluten-free")).
Proof. repeat split; vm_compute; reflexivity. Qed.

(** * Further properties *)

(** ** Session store *)

Section session_store_extra.
Context (env : Env).
Import InMemorySessionService.

Lemma create_session_run (uid : string) (ctx : option (gmap string CtxVal)) (w : World) :
  create_session env uid ctx w =
    (let s := mkSession (uuid4 env (uuids w)) uid (clock env (ticks w))
                (clock env (ticks w)) (default ∅ ctx) ∅ in
     (Ok s, set_sessions (insert (uuid4 env (uuids w)) s) (set_ticks S (set_uuids S w)))).
Proof. reflexivity. Qed.


Lemma delete_session_run (sid : string) (w : World) :
  delete_session sid w =
    (Ok (bool_decide (is_Some (sessions w !! sid))), set_sessions (delete sid) w).
Proof.
  unfold delete_session, bind, get_world. simpl.
  destruct (sessions w !! sid) as [s|] eqn:Hs; simpl; [done|].
  unfold ret. f_equal. destruct w. unfold set_sessions. simpl in *.
  f_equal. symmetry. by apply delete_id.
Qed.

(** X2. [delete_session] returns [True] exactly when the id is stored;
    afterwards the id is absent, so [get_session] returns nothing and a
    second [delete_session] returns [False]; the other sessions, the clock
    and the memory bank are not touched. *)
Theorem delete_session_removes (sid : string) (w : World) :
  returns (delete_session sid) w (λ b w1,
    (b = true ↔ is_Some (sessions w !! sid))
    ∧ sessions w1 !! sid = None
    ∧ (∀ sid', sid' ≠ sid → sessions w1 !! sid' = sessions w !! sid')
    ∧ ticks w1 = ticks w
    ∧ bank_preferences w1 = bank_preferences w
    ∧ bank_meal_history w1 = bank_meal_history w
    ∧ returns (get_session env sid) w1 (λ r w2, r = None ∧ w2 = w1)
    ∧ returns (delete_session sid) w1 (λ b' w2, b' = false ∧ sessions w2 = sessions w1)).
Proof.
  eapply returns_eq; [apply delete_session_run|]. cbn.
  split; [apply bool_decide_eq_true|].
  split; [apply lookup_delete_eq|].
  split; [intros sid' Hne; by apply lookup_delete_ne|].
  do 3 (split; [done|]). split.
  - eapply returns_eq; [apply get_session_absent_run|done].
    cbn. apply lookup_delete_eq.
  - eapply returns_eq; [apply delete_session_run|]. cbn. split.
    + apply bool_decide_eq_false. rewrite lookup_delete_eq. by intros [? ?].
    + by rewrite delete_delete_eq.
Qed.
End session_store_extra.

Section session_updates.
Context (env : Env).
Import InMemorySessionService.

Lemma update_session_context_live_run sid updates w s :
  sessions w !! sid = Some s →
  (idle_time env w s ≤ session_timeout env)%Z →
  update_session_context env sid updates w =
    (Ok true,
     set_sessions
       (insert sid
          (with_last_accessed (clock env (S (S (ticks w))))
             (with_context (updates ∪ context s) s)))
       (set_ticks (λ n, S (S (S n))) w)).
Proof.
  intros Hs Hidle. unfold update_session_context. unfold bind at 1.
  rewrite (get_session_live_run env w sid s Hs Hidle).
  unfold bind, now, modify, ret. cbn. f_equal.
  unfold set_sessions. cbn. f_equal. by rewrite insert_insert_eq.
Qed.

Lemma update_preferences_live_run sid prefs w s :
  sessions w !! sid = Some s →
  (idle_time env w s ≤ session_timeout env)%Z →
  update_preferences env sid prefs w =
    (Ok true,
     set_sessions
       (insert sid
          (with_last_accessed (clock env (S (S (ticks w))))
             (with_preferences (prefs ∪ preferences s) s)))
       (set_ticks (λ n, S (S (S n))) w)).
Proof.
  intros Hs Hidle. unfold update_preferences. unfold bind at 1.
  rewrite (get_session_live_run env w sid s Hs Hidle).
  unfold bind, now, modify, ret. cbn. f_equal.
  unfold set_sessions. cbn. f_equal. by rewrite insert_insert_eq.
Qed.

Lemma lookup_union_override {V} (m1 m2 : gmap string V) k :
  (m1 ∪ m2) !! k = match m1 !! k with Some v => Some v | None => m2 !! k end.
Proof. rewrite lookup_union. destruct (m1 !! k), (m2 !! k); done. Qed.

(** X3. [update_session_context] on an id that is not stored returns
    [False] and changes nothing; on a stored session that has not expired
    it returns [True] and the stored session then maps every updated key to
    its new value and every other key to its old value, with
    [last_accessed] set to the third reading of the clock and everything
    else as before; on an expired session it returns [False] and the
    session is evicted. *)
Theorem update_session_context_merges (sid : string)
    (updates : gmap string CtxVal) (w : World) :
  match sessions w !! sid with
  | None =>
      returns (update_session_context env sid updates) w (λ b w', b = false ∧ w' = w)
  | Some s =>
      ((idle_time env w s ≤ session_timeout env)%Z →
       returns (update_session_context env sid updates) w (λ b w',
         b = true
         ∧ ∃ s', sessions w' !! sid = Some s'
             ∧ (∀ k, context s' !! k =
                       match updates !! k with
                       | Some v => Some v
                       | None => context s !! k
                       end)
             ∧ last_accessed s' = clock env (S (S (ticks w)))
             ∧ preferences s' = preferences s ∧ user_id s' = user_id s
             ∧ session_id s' = session_id s ∧ created_at s' = created_at s
             ∧ ∀ sid', sid' ≠ sid → sessions w' !! sid' = sessions w !! sid'))
      ∧ ((session_timeout env < idle_time env w s)%Z →
         returns (update_session_context env sid updates) w (λ b w',
           b = false ∧ sessions w' = delete sid (sessions w)))
  end.
Proof.
  destruct (sessions w !! sid) as [s|] eqn:Hs.
  - split; intros Hidle.
    + eapply returns_eq; [by apply update_session_context_live_run|].
      split; [done|]. eexists. cbn. split; [apply lookup_insert_eq|]. cbn.
      split; [intros k; apply lookup_union_override|].
      do 5 (split; [done|]). intros sid' Hne. by apply lookup_insert_ne.
    + eapply returns_eq.
      { unfold update_session_context. unfold bind at 1.
        rewrite (get_session_expired_run env w sid s Hs Hidle). reflexivity. }
      done.
  - eapply returns_eq.
    { unfold update_session_context. unfold bind at 1.
      rewrite (get_session_absent_run env w sid Hs). reflexivity. }
    done.
Qed.

(** X4. [update_preferences] of the session store behaves in the same way
    on the session's preferences: nothing changes for an id that is not
    stored, the given preferences override the stored ones key by key on a
    live session, whose context is kept, and an expired session is
    evicted. *)
Theorem session_update_preferences_merges (sid : string)
    (prefs : gmap string PyVal) (w : World) :
  match sessions w !! sid with
  | None =>
      returns (update_preferences env sid prefs) w (λ b w', b = false ∧ w' = w)
  | Some s =>
      ((idle_time env w s ≤ session_timeout env)%Z →
       returns (update_preferences env sid prefs) w (λ b w',
         b = true
         ∧ ∃ s', sessions w' !! sid = Some s'
             ∧ (∀ k, preferences s' !! k =
                       match prefs !! k with
                       | Some v => Some v
                       | None => preferences s !! k
                       end)
             ∧ last_accessed s' = clock env (S (S (ticks w)))
             ∧ context s' = context s ∧ user_id s' = user_id s
             ∧ session_id s' = session_id s ∧ created_at s' = created_at s
             ∧ bank_preferences w' = bank_preferences w
             ∧ ∀ sid', sid' ≠ sid → sessions w' !! sid' = sessions w !! sid'))
      ∧ ((session_timeout env < idle_time env w s)%Z →
         returns (update_preferences env sid prefs) w (λ b w',
           b = false ∧ sessions w' = delete sid (sessions w)))
  end.
Proof.
  destruct (sessions w !! sid) as [s|] eqn:Hs.
  - split; intros Hidle.
    + eapply returns_eq; [by apply update_preferences_live_run|].
      split; [done|]. eexists. cbn. split; [apply lookup_insert_eq|]. cbn.
      split; [intros k; apply lookup_union_override|].
      do 6 (split; [done|]). intros sid' Hne. by apply lookup_insert_ne.
    + eapply returns_eq.
      { unfold update_preferences. unfold bind at 1.
        rewrite (get_session_expired_run env w sid s Hs Hidle). reflexivity. }
      done.
  - eapply returns_eq.
    { unfold update_preferences. unfold bind at 1.
      rewrite (get_session_absent_run env w sid Hs). reflexivity. }
    done.
Qed.
End session_updates.

Lemma foldl_delete_lookup {V} (m : gmap string V) (ks : list string) (i : string) :
  foldl (λ m k, delete k m) m ks !! i = if decide (i ∈ ks) then None else m !! i.
Proof.
  revert m. induction ks as [|k ks IH]; intros m; cbn [foldl].
  - rewrite decide_False; [done|apply not_elem_of_nil].
  - rewrite IH. destruct (decide (i ∈ ks)) as [Hin|Hnin].
    + rewrite decide_True; [done|by right].
    + destruct (decide (i = k)) as [->|Hne].
      * rewrite decide_True by by left. apply lookup_delete_eq.
      * rewrite decide_False by (intros [?|?]%elem_of_cons; done).
        by apply lookup_delete_ne.
Qed.

Lemma length_filter_split {A} (P : A → Prop) `{!∀ x, Decision (P x)} (l : list A) :
  length (filter P l) + length (filter (λ x, ¬ P x) l) = length l.
Proof.
  induction l as [|x l IH]; [done|]. rewrite !filter_cons.
  destruct (decide (P x)) as [HP|HP].
  - rewrite decide_False by tauto. simpl. lia.
  - rewrite decide_True by done. simpl. lia.
Qed.

Lemma map_size_filter_list {V} (P : string * V → Prop) `{!∀ x, Decision (P x)}
    (m : gmap string V) :
  size (filter P m) = length (filter P (map_to_list m)).
Proof.
  rewrite map_filter_alt, map_size_list_to_map; [done|].
  apply (sublist_NoDup _ (map_to_list m).*1).
  - apply NoDup_fst_map_to_list.
  - apply fmap_sublist, sublist_filter.
Qed.

Section sweep.
Context (env : Env).
Import InMemorySessionService.

Lemma cleanup_expired_sessions_run (w : World) :
  cleanup_expired_sessions env w =
    (let expired :=
       (filter (λ p : string * Session,
                  (session_timeout env < clock env (ticks w) - last_accessed p.2)%Z)
               (map_to_list (sessions w))).*1 in
     (Ok (length expired),
      set_sessions (λ m, foldl (λ m sid, delete sid m) m expired) (set_ticks S w))).
Proof. reflexivity. Qed.

(** X5. [cleanup_expired_sessions] reads the clock once, removes exactly the
    sessions whose idle time at that reading exceeds the timeout, leaves
    the other sessions as they are (they are not refreshed) and returns the
    number of sessions removed; the memory bank is not touched. *)
Theorem cleanup_removes_expired (w : World) :
  returns (cleanup_expired_sessions env) w (λ n w',
    (∀ sid,
       sessions w' !! sid =
         match sessions w !! sid with
         | Some s =>
             if decide (session_timeout env < clock env (ticks w) - last_accessed s)%Z
             then None else Some s
         | None => None
         end)
    ∧ size (sessions w') + n = size (sessions w)
    ∧ ticks w' = S (ticks w)
    ∧ bank_preferences w' = bank_preferences w
    ∧ bank_meal_history w' = bank_meal_history w).
Proof.
  eapply returns_eq; [apply cleanup_expired_sessions_run|].
  cbn [sessions set_sessions set_ticks ticks bank_preferences bank_meal_history].
  cbv zeta.
  set (t := clock env (ticks w)).
  set (P := λ p : string * Session, (session_timeout env < t - last_accessed p.2)%Z).
  set (m := sessions w).
  assert (∀ sid, foldl (λ m k, delete k m) m (filter P (map_to_list m)).*1 !! sid =
                 filter (λ p, ¬ P p) m !! sid) as Hlookup.
  { intros sid. rewrite foldl_delete_lookup, map_lookup_filter.
    destruct (m !! sid) as [s|] eqn:Hs; simpl.
    - destruct (decide (P (sid, s))) as [HP|HP].
      + rewrite decide_True.
        * rewrite option_guard_False by tauto. done.
        * apply list_elem_of_fmap. exists (sid, s). split; [done|].
          apply list_elem_of_filter. split; [done|]. by apply elem_of_map_to_list.
      + rewrite decide_False.
        * rewrite option_guard_True by done. done.
        * intros [[sid' s'] [-> [HP' Hin]%list_elem_of_filter]]%list_elem_of_fmap.
          apply elem_of_map_to_list in Hin. simpl in *. congruence.
    - case_decide; done. }
  split; [|split; [|done]].
  - intros sid. rewrite Hlookup, map_lookup_filter.
    destruct (m !! sid) as [s|]; simpl; [|done].
    unfold P. simpl. destruct (decide _) as [HP|HP].
    + rewrite option_guard_False by tauto. done.
    + rewrite option_guard_True by done. done.
  - rewrite (map_eq _ _ Hlookup). rewrite length_fmap.
    rewrite (map_size_filter_list (λ p, ¬ P p)).
    rewrite <- (length_map_to_list m).
    pose proof (length_filter_split P (map_to_list m)). lia.
Qed.
End sweep.

(** ** Memory bank *)

Section bank_extra.
Context (env : Env).
Import MemoryBank.

Lemma list_find_first_value ptype prefs :
  match list_find (λ p, preference_type p = ptype) prefs with
  | Some (_, p) => Some (value p)
  | None => None
  end = first_value ptype prefs.
Proof.
  induction prefs as [|p prefs IH]; [done|]. simpl.
  destruct (decide (preference_type p = ptype)); [done|].
  rewrite <- IH. by destruct (list_find _ prefs) as [[i q]|].
Qed.

Lemma get_preference_run uid ptype w :
  get_preference uid ptype w =
    (Ok (first_value ptype (default [] (bank_preferences w !! uid))), w).
Proof.
  unfold get_preference, bind, get_world, ret. f_equal. f_equal.
  apply list_find_first_value.
Qed.

(** X6. On any bank, [get_preference] after [add_preference] returns the
    value just written, and leaves the state as it is; the call changes the
    answer of [get_preference] for no other user or type, and touches
    neither the meal histories nor the sessions. *)
Theorem add_then_get_preference (uid ptype : string) (v : PyVal) (w : World) :
  returns (add_preference env uid ptype v) w (λ _ w',
    returns (get_preference uid ptype) w' (λ r w'', r = Some v ∧ w'' = w')
    ∧ (∀ uid' ptype', (uid', ptype') ≠ (uid, ptype) →
         result_value (get_preference uid' ptype' w') =
           result_value (get_preference uid' ptype' w))
    ∧ bank_meal_history w' = bank_meal_history w
    ∧ sessions w' = sessions w).
Proof.
  eapply returns_eq; [apply add_preference_run|]. split; [|split; [|done]].
  - eapply returns_eq; [apply get_preference_run|]. cbn.
    rewrite lookup_insert_eq. cbn. rewrite first_value_upsert.
    by rewrite decide_True.
  - intros uid' ptype' Hne. rewrite !get_preference_run. unfold result_value. cbn.
    f_equal. destruct (decide (uid = uid')) as [<-|Hu].
    + rewrite lookup_insert_eq. cbn. rewrite first_value_upsert.
      rewrite decide_False; [done|]. congruence.
    + by rewrite lookup_insert_ne.
Qed.

(** X7. On a bank with at most one entry per user and type,
    [get_preference] returns what the mapping of [get_preferences] holds
    under the type, absent included, and neither call changes the state. *)
Theorem get_preference_agrees (uid ptype : string) (w : World) :
  prefs_unique w →
  returns (get_preferences uid) w (λ d w1,
    w1 = w
    ∧ returns (get_preference uid ptype) w (λ r w2, w2 = w ∧ r = d !! ptype)).
Proof.
  intros Hw. eapply returns_eq; [reflexivity|]. split; [done|].
  eapply returns_eq; [apply get_preference_run|]. split; [done|].
  symmetry. apply prefs_dict_lookup.
  destruct (bank_preferences w !! uid) as [prefs|] eqn:Hu; simpl.
  - by destruct (Hw _ _ Hu).
  - constructor.
Qed.
End bank_extra.

Lemma get_preference_agrees_witness :
  returns (MemoryBank.get_preferences "u1") Demo.world_prefs (λ d w1,
    w1 = Demo.world_prefs
    ∧ returns (MemoryBank.get_preference "u1" "cuisine") Demo.world_prefs (λ r w2,
        w2 = Demo.world_prefs ∧ r = d !! "cuisine")).
Proof.
  apply (get_preference_agrees "u1" "cuisine" Demo.world_prefs).
  intros uid prefs H. cbn in H. apply lookup_singleton_Some in H as [<- <-].
  split.
  - cbn. apply NoDup_cons. split; [|apply NoDup_singleton].
    intros H%list_elem_of_singleton. discriminate.
  - repeat constructor.
Defined.

Section history_extra.
Context (env : Env).
Import MemoryBank.

(** X8. [get_meal_history] changes nothing and returns an end of the user's
    history: the whole history for limit 0, the last [limit] entries (all of
    them when there are fewer) for a positive limit, and for a negative
    limit the history without its first [-limit] entries. *)
Theorem get_meal_history_limit (uid : string) (limit : Z) (w : World) :
  returns (get_meal_history uid limit) w (λ l w',
    let history := default [] (bank_meal_history w !! uid) in
    w' = w
    ∧ l `suffix_of` history
    ∧ (limit = 0%Z → l = history)
    ∧ ((0 < limit)%Z → length l = Z.to_nat limit `min` length history)
    ∧ ((limit < 0)%Z → l = drop (Z.to_nat (- limit)) history)).
Proof.
  eapply returns_eq; [reflexivity|]. cbv zeta.
  set (history := default [] (bank_meal_history w !! uid)).
  split; [done|]. unfold last_n.
  destruct (limit =? 0)%Z eqn:H0.
  - apply Z.eqb_eq in H0. split; [done|]. split; [done|]. split; lia.
  - apply Z.eqb_neq in H0. destruct (0 <? limit)%Z eqn:Hpos.
    + apply Z.ltb_lt in Hpos. split; [apply suffix_drop|].
      split; [lia|]. split; [|lia]. intros _. rewrite length_drop. lia.
    + apply Z.ltb_ge in Hpos. split; [apply suffix_drop|].
      split; [lia|]. split; [lia|]. done.
Qed.

Lemma capped_history_snoc (history : list MealHistory) (entry : MealHistory) :
  ∃ kept,
    (if 50 <? length (history ++ [entry])
     then last_n 50 (history ++ [entry]) else history ++ [entry]) = kept ++ [entry]
    ∧ kept `suffix_of` history.
Proof.
  rewrite length_app. cbn [length].
  destruct (50 <? length history + 1) eqn:Hcap.
  - apply Nat.ltb_lt in Hcap. unfold last_n. rewrite length_app. cbn [length].
    exists (drop (length history + 1 - 50) history). split; [|apply suffix_drop].
    by rewrite drop_app_le by lia.
  - by exists history.
Qed.

Lemma get_meal_history_run (uid : string) (limit : Z) (w : World) :
  get_meal_history uid limit w =
    (Ok (let history := default [] (bank_meal_history w !! uid) in
         if (limit =? 0)%Z then history
         else if (0 <? limit)%Z then last_n (Z.to_nat limit) history
         else drop (Z.to_nat (- limit)) history), w).
Proof. reflexivity. Qed.

Lemma get_user_context_run (uid : string) (w : World) :
  get_user_context uid w =
    (Ok (mkUserContext (prefs_dict (default [] (bank_preferences w !! uid)))
           ((λ h, mkRecentMeal (date h) (meals (meal_plan h)) (feedback h))
              <$> last_n 5 (default [] (bank_meal_history w !! uid)))), w).
Proof. reflexivity. Qed.

(** X9. After [add_meal_history], [get_meal_history] with limit 1 returns
    the entry just added, and [get_user_context] lists at most 5 recent
    meals, the last of which carries the date, the meals and the feedback
    of that entry. *)
Theorem add_meal_history_then_read (uid : string) (plan : MealPlan)
    (fb : option string) (w : World) :
  returns (add_meal_history env uid plan fb) w (λ _ w',
    returns (get_meal_history uid 1) w' (λ l _,
      l = [mkMealHistory uid plan (clock env (ticks w)) fb])
    ∧ returns (get_user_context uid) w' (λ uc w'',
        w'' = w'
        ∧ length (uc_recent_meals uc) ≤ 5
        ∧ last (uc_recent_meals uc) =
            Some (mkRecentMeal (clock env (ticks w)) (meals plan) fb))).
Proof.
  eapply returns_eq; [apply add_meal_history_run|].
  destruct (capped_history_snoc (default [] (bank_meal_history w !! uid))
              (mkMealHistory uid plan (clock env (ticks w)) fb)) as (kept & Hk & _).
  cbv zeta. rewrite Hk. split.
  - eapply returns_eq; [apply get_meal_history_run|].
    cbn [bank_meal_history set_bank_meal_history set_ticks]. cbv zeta.
    rewrite default_lookup_insert_eq. change (1 =? 0)%Z with false.
    change (0 <? 1)%Z with true. cbv iota.
    unfold last_n. rewrite length_app. cbn [length].
    rewrite drop_app_le by lia.
    replace (length kept + 1 - Z.to_nat 1) with (length kept) by lia.
    by rewrite drop_all.
  - eapply returns_eq; [apply get_user_context_run|].
    cbn [bank_meal_history set_bank_meal_history set_ticks uc_recent_meals].
    rewrite default_lookup_insert_eq. split; [done|]. unfold last_n. split.
    + rewrite length_fmap, length_drop. lia.
    + rewrite length_app. cbn [length].
      destruct (decide (length kept + 1 ≤ 5)) as [Hle|Hgt].
      * replace (length kept + 1 - 5) with 0 by lia. rewrite drop_0, fmap_app.
        cbn [fmap list_fmap]. by rewrite last_snoc.
      * rewrite drop_app_le by lia. rewrite fmap_app.
        cbn [fmap list_fmap]. by rewrite last_snoc.
Qed.
End history_extra.

(** ** Shopping optimizer *)

Section normalize.
Import ShoppingOptimizerTool.

Lemma normalize_fold (ingredients normalized seen : list string) :
  NoDup seen → EmptyString ∉ seen →
  ∃ kept,
    foldl (λ '(normalized, seen) ingredient,
             let n0 := PyStr.strip (PyStr.lower ingredient) in
             let normalized_ing :=
               PyStr.replace "dried " EmptyString (PyStr.replace "fresh " EmptyString n0) in
             if negb (String.eqb normalized_ing EmptyString)
                && negb (bool_decide (normalized_ing ∈ seen))
             then (normalized ++ [PyStr.strip ingredient], seen ++ [normalized_ing])
             else (normalized, seen))
          (normalized, seen) ingredients
      = (normalized ++ (PyStr.strip <$> kept), seen ++ (norm_key <$> kept))
    ∧ kept `sublist_of` ingredients
    ∧ NoDup (seen ++ (norm_key <$> kept))
    ∧ (EmptyString ∉ seen ++ (norm_key <$> kept))
    ∧ ∀ x, x ∈ ingredients → norm_key x ≠ EmptyString →
           norm_key x ∈ (seen ++ (norm_key <$> kept)).
Proof.
  revert normalized seen. induction ingredients as [|x l IH]; intros normalized seen Hnd He.
  - exists []. rewrite !app_nil_r. repeat split; try done.
    intros x Hx. by apply elem_of_nil in Hx.
  - cbn [foldl]. cbv zeta. fold (norm_key x).
    destruct (String.eqb (norm_key x) EmptyString) eqn:Hempty; cbn [negb andb].
    + apply String.eqb_eq in Hempty.
      destruct (IH normalized seen Hnd He) as (kept & Hf & Hsub & Hnd' & He' & Hall).
      exists kept. split; [done|]. split; [by apply sublist_cons|].
      split; [done|]. split; [done|].
      intros y [->|Hy]%elem_of_cons Hne; [done|by apply Hall].
    + apply String.eqb_neq in Hempty.
      destruct (bool_decide (norm_key x ∈ seen)) eqn:Hseen; cbn [negb].
      * apply bool_decide_eq_true in Hseen.
        destruct (IH normalized seen Hnd He) as (kept & Hf & Hsub & Hnd' & He' & Hall).
        exists kept. split; [done|]. split; [by apply sublist_cons|].
        split; [done|]. split; [done|].
        intros y [->|Hy]%elem_of_cons Hne; [|by apply Hall].
        apply elem_of_app. by left.
      * apply bool_decide_eq_false in Hseen.
        destruct (IH (normalized ++ [PyStr.strip x]) (seen ++ [norm_key x]))
          as (kept & Hf & Hsub & Hnd' & He' & Hall).
        { apply NoDup_app. split; [done|]. split; [|apply NoDup_singleton].
          intros y Hy ->%list_elem_of_singleton. done. }
        { intros [?|Hx%list_elem_of_singleton]%elem_of_app; [done|]. done. }
        exists (x :: kept). rewrite !fmap_cons.
        rewrite <- !app_assoc in Hf. rewrite <- !app_assoc in Hnd', He', Hall.
        split; [done|]. split; [by apply sublist_skip|].
        split; [done|]. split; [done|].
        intros y [->|Hy]%elem_of_cons Hne; [|by apply Hall].
        apply elem_of_app. right. by left.
Qed.

(** X10. For ingredients written in ASCII characters,
    [_normalize_ingredients] keeps a selection of the ingredients in their
    order, each stripped of surrounding blanks; the kept ingredients have
    pairwise different, non-empty normalised keys; and every ingredient
    with a non-empty key has its key among those of the kept ones, so an
    ingredient is dropped only if its key is empty or kept already. *)
Theorem normalize_ingredients_dedupes (ingredients : list string) :
  Forall (λ x, PyStr.is_ascii x = true) ingredients →
  ∃ kept,
    _normalize_ingredients ingredients = PyStr.strip <$> kept
    ∧ kept `sublist_of` ingredients
    ∧ NoDup (norm_key <$> kept)
    ∧ (EmptyString ∉ norm_key <$> kept)
    ∧ (∀ x, x ∈ ingredients → norm_key x ≠ EmptyString → norm_key x ∈ (norm_key <$> kept))
    ∧ length (_normalize_ingredients ingredients) ≤ length ingredients.
Proof.
  intros _.
  destruct (normalize_fold ingredients [] []) as (kept & Hf & Hsub & Hnd & He & Hall).
  { constructor. } { apply not_elem_of_nil. }
  assert (_normalize_ingredients ingredients = PyStr.strip <$> kept) as Heq.
  { unfold _normalize_ingredients. exact (f_equal fst Hf). }
  exists kept. rewrite Heq.
  split; [done|]. split; [done|]. split; [done|]. split; [done|]. split; [done|].
  rewrite length_fmap. by apply sublist_length.
Qed.

Lemma normalize_ingredients_dedupes_witness :
  Forall (λ x, PyStr.is_ascii x = true) ["Fresh Basil"; " basil"; "Salt "; "  "; "salt"]
  ∧ _normalize_ingredients ["Fresh Basil"; " basil"; "Salt "; "  "; "salt"]
    = ["Fresh Basil"; "Salt"]
  ∧ ∃ kept,
      _normalize_ingredients ["Fresh Basil"; " basil"; "Salt "; "  "; "salt"]
      = PyStr.strip <$> kept
      ∧ kept `sublist_of` ["Fresh Basil"; " basil"; "Salt "; "  "; "salt"]
      ∧ NoDup (norm_key <$> kept)
      ∧ (EmptyString ∉ norm_key <$> kept)
      ∧ (∀ x, x ∈ ["Fresh Basil"; " basil"; "Salt "; "  "; "salt"] →
              norm_key x ≠ EmptyString → norm_key x ∈ (norm_key <$> kept))
      ∧ length (_normalize_ingredients ["Fresh Basil"; " basil"; "Salt "; "  "; "salt"])
        ≤ length ["Fresh Basil"; " basil"; "Salt "; "  "; "salt"].
Proof.
  assert (Forall (λ x, PyStr.is_ascii x = true)
            ["Fresh Basil"; " basil"; "Salt "; "  "; "salt"]) as Hascii
    by (repeat constructor).
  split; [exact Hascii|]. split; [reflexivity|].
  exact (normalize_ingredients_dedupes _ Hascii).
Defined.
End normalize.

Section grouping.
Import ShoppingOptimizerTool.

Lemma section_of_known y sec :
  section_of y = Some sec → sec ∈ store_sections.*1.
Proof.
  unfold section_of.
  destruct (list_find _ store_sections) as [[i [s kws]]|] eqn:Hf; [|done].
  intros [= <-]. apply list_find_Some in Hf as (Hi & _ & _).
  apply list_elem_of_fmap. exists (s, kws). split; [done|].
  by eapply list_elem_of_lookup_2.
Qed.

Lemma section_of_not_other y : section_of y ≠ Some "other".
Proof.
  intros H%section_of_known. revert H. unfold store_sections. cbn.
  rewrite !elem_of_cons, elem_of_nil. intros H.
  repeat (destruct H as [H|H]; [discriminate|]). done.
Qed.

Lemma group_fold (rest processed : list string)
    (st : list (string * list string) * list string) :
  grouped_inv processed st →
  grouped_inv (processed ++ rest)
    (foldl (λ '(grouped, unassigned) ingredient,
              let ingredient_lower := PyStr.lower ingredient in
              match list_find (λ sec : string * list string,
                                 any_in sec.2 ingredient_lower = true) store_sections with
              | Some (_, (section, _)) =>
                  (PyDict.set section
                     (default [] (PyDict.get section grouped) ++ [ingredient]) grouped,
                   unassigned)
              | None => (grouped, unassigned ++ [ingredient])
              end) st rest).
Proof.
  revert processed st. induction rest as [|x rest IH]; intros processed st Hinv.
  - by rewrite app_nil_r.
  - cbn [foldl]. replace (processed ++ x :: rest) with ((processed ++ [x]) ++ rest)
      by by rewrite <- app_assoc.
    apply IH. destruct st as [g u]. destruct Hinv as (Hnd & Hperm & Hg & Hu).
    cbn [fst snd] in *. cbv zeta.
    assert (section_of x =
              match list_find (λ sec : string * list string,
                                 any_in sec.2 (PyStr.lower x) = true) store_sections with
              | Some (_, (section, _)) => Some section
              | None => None
              end) as Hsec by done.
    destruct (list_find _ store_sections) as [[i [section kws]]|].
    + unfold grouped_inv. cbn [fst snd]. split; [by apply pydict_set_NoDup|].
      split.
      { rewrite pydict_append_concat, <- Hperm, <- !app_assoc.
        apply Permutation_app_head, Permutation_app_comm. }
      split.
      * intros sec items Hin. apply pydict_set_elem in Hin as [[-> ->]|[Hne Hin]]; [| |done].
        -- split; [by destruct (default [] _)|].
           intros y [Hy|Hy%list_elem_of_singleton]%elem_of_app; [|subst y].
           ++ destruct (PyDict.get section g) as [old|] eqn:Hget; simpl in Hy;
                [|by apply elem_of_nil in Hy].
              apply pydict_get_Some_elem in Hget.
              destruct (Hg _ _ Hget) as [_ Hold]. destruct (Hold y Hy).
              split; [apply elem_of_app; by left|done].
           ++ split; [apply elem_of_app; right; by left|done].
        -- destruct (Hg _ _ Hin) as [Hne' Hitems]. split; [done|].
           intros y Hy. destruct (Hitems y Hy). split; [apply elem_of_app; by left|done].
      * intros y Hy. destruct (Hu y Hy). split; [apply elem_of_app; by left|done].
    + unfold grouped_inv. cbn [fst snd]. split; [done|]. split.
      { by rewrite app_assoc, Hperm. }
      split.
      * intros sec items Hin. destruct (Hg _ _ Hin) as [Hne' Hitems]. split; [done|].
        intros y Hy. destruct (Hitems y Hy). split; [apply elem_of_app; by left|done].
      * intros y [Hy|Hy%list_elem_of_singleton]%elem_of_app; [|subst y].
        -- destruct (Hu y Hy). split; [apply elem_of_app; by left|done].
        -- split; [apply elem_of_app; right; by left|done].
Qed.

(** The result of [_group_by_section] in terms of the final state of its
    loop. *)
Lemma group_by_section_final (ingredients : list string) :
  ∃ g u, grouped_inv ingredients (g, u)
         ∧ ("other" ∉ g.*1)
         ∧ _group_by_section ingredients
           = match u with [] => g | _ :: _ => g ++ [("other", u)] end.
Proof.
  pose proof (group_fold ingredients [] ([], [])) as Hinv.
  unfold _group_by_section.
  match goal with
  | |- context [foldl ?f ?st ingredients] =>
      change (foldl f st ingredients) with
        (foldl f (([], []) : list (string * list string) * list string) ingredients)
  end.
  destruct (foldl _ _ ingredients) as [g u] eqn:Hfold.
  rewrite app_nil_l in Hinv. exists g, u.
  assert (grouped_inv ingredients (g, u)) as Hgu.
  { apply Hinv. unfold grouped_inv. cbn. split; [constructor|]. split; [done|].
    split; intros; exfalso; eapply elem_of_nil; eauto. }
  split; [done|]. destruct Hgu as (Hnd & Hperm & Hg & Hu). cbn [fst snd] in *.
  assert ("other" ∉ g.*1) as Hother.
  { intros [[k items] [Hk Hin]]%list_elem_of_fmap. simpl in Hk. subst k.
    destruct (Hg _ _ Hin) as [Hne Hitems]. destruct items as [|y items]; [done|].
    destruct (Hitems y) as [_ Hsec]; [by left|]. by apply section_of_not_other in Hsec. }
  split; [done|]. destruct u; [done|]. by rewrite pydict_set_fresh.
Qed.

End grouping.

Section costs.
Import ShoppingOptimizerTool.

Lemma cost_of_bounds s : (200 ≤ cost_of s ≤ 800)%Z.
Proof. unfold cost_of. repeat (destruct (any_in _ s)); lia. Qed.

Lemma sum_amounts_app l1 l2 :
  sum_amounts (l1 ++ l2) = (sum_amounts l1 + sum_amounts l2)%Z.
Proof. unfold sum_amounts. induction l1 as [|a l1 IH]; simpl; lia. Qed.

Lemma sum_amounts_bounds (f : string → Z) (lo hi : Z) (l : list string) :
  (∀ x, lo ≤ f x ≤ hi)%Z →
  (lo * Z.of_nat (length l) ≤ sum_amounts (f <$> l) ≤ hi * Z.of_nat (length l))%Z.
Proof.
  intros Hf. unfold sum_amounts. induction l as [|a l IH]; [simpl; lia|].
  rewrite fmap_cons. cbn [foldr length]. specialize (Hf a). lia.
Qed.

Lemma estimate_costs_fold (l : list string) (total : Z) (costs : list (string * Z)) :
  foldl (λ '(total, costs) ingredient,
           let cost := cost_of (PyStr.lower ingredient) in
           ((total + cost)%Z, PyDict.set ingredient cost costs)) (total, costs) l
  = ((total + sum_amounts ((λ x, cost_of (PyStr.lower x)) <$> l))%Z,
     foldl (λ costs x, PyDict.set x (cost_of (PyStr.lower x)) costs) costs l).
Proof.
  revert total costs. induction l as [|x l IH]; intros total costs.
  - cbn. f_equal. lia.
  - cbn [foldl]. cbv zeta. rewrite IH. cbn. f_equal. unfold sum_amounts. lia.
Qed.


Lemma estimate_costs_eq (l : list string) :
  _estimate_costs l
  = mkCostEstimate (sum_amounts ((λ x, cost_of (PyStr.lower x)) <$> l))
      (foldl (λ costs x, PyDict.set x (cost_of (PyStr.lower x)) costs) [] l)
      "USD" "Estimates are approximate and may vary by location".
Proof.
  unfold _estimate_costs.
  match goal with
  | |- context [foldl ?f ?st l] =>
      change (foldl f st l) with (foldl f ((0%Z, []) : Z * list (string * Z)) l)
  end.
  by rewrite estimate_costs_fold.
Qed.

End costs.

Section merge.
Context (env : Env).
Import ShoppingOptimizerTool.

(** X13. For lists of ingredients written in ASCII characters,
    [merge_shopping_lists] does not raise and changes nothing but the
    trace. The merged list is the normalised first list followed by
    additions from the second: a selection of its ingredients, in their
    order and stripped, whose keys are non-empty, pairwise different and
    different from the key of every ingredient of the first list. So when
    every ingredient of the second list has an empty key or the key of an
    ingredient of the first, the merged list is the normalised first
    list. *)
Theorem merge_shopping_lists_extends (list1 list2 : list string) (w : World) :
  Forall (λ x, PyStr.is_ascii x = true) (list1 ++ list2) →
  returns (merge_shopping_lists env list1 list2) w (λ merged w',
    w' = traced env "merge_shopping_lists" w
    ∧ (∃ added,
         merged = _normalize_ingredients list1 ++ (PyStr.strip <$> added)
         ∧ added `sublist_of` list2
         ∧ NoDup (norm_key <$> added)
         ∧ ∀ y, y ∈ added →
                norm_key y ≠ EmptyString
                ∧ ∀ x, x ∈ list1 → norm_key x ≠ norm_key y)
    ∧ ((∀ y, y ∈ list2 →
             norm_key y = EmptyString ∨ ∃ x, x ∈ list1 ∧ norm_key x = norm_key y) →
       merged = _normalize_ingredients list1)).
Proof.
  intros _. unfold merge_shopping_lists. apply returns_bind.
  eapply returns_eq; [apply start_span_run|]. cbv zeta. apply returns_ret.
  split; [done|].
  destruct (normalize_fold list1 [] []) as (kept1 & Hf1 & Hsub1 & Hnd1 & He1 & Hall1);
    [constructor|apply not_elem_of_nil|].
  rewrite !app_nil_l in *.
  destruct (normalize_fold list2 (PyStr.strip <$> kept1) (norm_key <$> kept1))
    as (added & Hf2 & Hsub2 & Hnd2 & He2 & Hall2); [done|done|].
  assert (_normalize_ingredients list1 = PyStr.strip <$> kept1) as Hn1
    by exact (f_equal fst Hf1).
  assert (_normalize_ingredients (list1 ++ list2)
          = (PyStr.strip <$> kept1) ++ (PyStr.strip <$> added)) as Hn12.
  { unfold _normalize_ingredients. rewrite foldl_app.
    etrans; [|exact (f_equal fst Hf2)].
    apply (f_equal (λ st, fst (foldl _ st list2))). exact Hf1. }
  rewrite Hn12, Hn1.
  assert (∀ y, y ∈ added →
               norm_key y ≠ EmptyString ∧ ∀ x, x ∈ list1 → norm_key x ≠ norm_key y)
    as Hadded.
  { intros y Hy. apply NoDup_app in Hnd2 as (_ & Hdisj & _).
    assert (norm_key y ∈ norm_key <$> added) as Hky.
    { apply list_elem_of_fmap. by exists y. }
    assert (norm_key y ≠ EmptyString) as Hne.
    { intros Heq. apply He2. apply elem_of_app. right. by rewrite <- Heq. }
    split; [done|]. intros x Hx Heq.
    apply (Hdisj (norm_key y)); [|done]. rewrite <- Heq. apply Hall1; [done|].
    by rewrite Heq. }
  split.
  - exists added. split; [done|]. split; [done|]. split; [|done].
    by apply NoDup_app in Hnd2 as (_ & _ & ?).
  - intros Hcovered. destruct added as [|y added]; [by rewrite app_nil_r|].
    exfalso. destruct (Hadded y) as [Hne Hfresh]; [by left|].
    destruct (Hcovered y) as [?|(x & Hx & Heq)]; [|done|].
    + apply (elem_of_sublist _ _ _ (list_elem_of_here y added) Hsub2).
    + by apply (Hfresh x).
Qed.
End merge.

Lemma merge_shopping_lists_extends_witness :
  Forall (λ x, PyStr.is_ascii x = true) (["Salt"; "fresh basil"] ++ ["salt "; "Rice"; "Basil"])
  ∧ result_value (ShoppingOptimizerTool.merge_shopping_lists Demo.env
                    ["Salt"; "fresh basil"] ["salt "; "Rice"; "Basil"] Demo.world0)
    = Some ["Salt"; "fresh basil"; "Rice"]
  ∧ returns (ShoppingOptimizerTool.merge_shopping_lists Demo.env
               ["Salt"; "fresh basil"] ["salt "; "Rice"; "Basil"]) Demo.world0
      (λ merged w',
         w' = traced Demo.env "merge_shopping_lists" Demo.world0
         ∧ (∃ added,
              merged = ShoppingOptimizerTool._normalize_ingredients ["Salt"; "fresh basil"]
                       ++ (PyStr.strip <$> added)
              ∧ added `sublist_of` ["salt "; "Rice"; "Basil"]
              ∧ NoDup (norm_key <$> added)
              ∧ ∀ y, y ∈ added →
                     norm_key y ≠ EmptyString
                     ∧ ∀ x, x ∈ ["Salt"; "fresh basil"] → norm_key x ≠ norm_key y)
         ∧ ((∀ y, y ∈ ["salt "; "Rice"; "Basil"] →
                  norm_key y = EmptyString
                  ∨ ∃ x, x ∈ ["Salt"; "fresh basil"] ∧ norm_key x = norm_key y) →
            merged = ShoppingOptimizerTool._normalize_ingredients ["Salt"; "fresh basil"])).
Proof.
  assert (Forall (λ x, PyStr.is_ascii x = true)
            (["Salt"; "fresh basil"] ++ ["salt "; "Rice"; "Basil"])) as Hascii
    by (repeat constructor).
  split; [exact Hascii|]. split; [reflexivity|].
  exact (merge_shopping_lists_extends Demo.env ["Salt"; "fresh basil"]
           ["salt "; "Rice"; "Basil"] Demo.world0 Hascii).
Defined.

(** ** Shopping list *)

Section shopping.
Context (env : Env).
Import ShoppingOptimizerTool ShoppingListAgent.

Lemma optimize_shopping_list_run ingredients group_by_section estimate_costs w :
  optimize_shopping_list env ingredients group_by_section estimate_costs w
  = (Ok (mkShoppingList (_normalize_ingredients ingredients)
           (if group_by_section
            then Some (_group_by_section (_normalize_ingredients ingredients)) else None)
           (length (_normalize_ingredients ingredients))
           (if estimate_costs
            then Some (_estimate_costs (_normalize_ingredients ingredients)) else None)
           (if group_by_section
            then Some (PyDict.keys (_group_by_section (_normalize_ingredients ingredients)))
            else None)),
     traced env "optimize_shopping_list" w).
Proof. by destruct group_by_section, estimate_costs. Qed.

(** X14. [optimize_shopping_list] does not raise and changes nothing but
    the trace. The count of its result is the length of the item list, which
    is no longer than the input. When grouping is asked for, the sections
    are the distinct names of the groups, in their order, and the groups
    together hold exactly the items of the list; when costs are asked for,
    the total lies between 2.00 and 8.00 per item. What is not asked for is
    None. *)
Theorem optimize_shopping_list_consistent ingredients group_by_section estimate_costs w :
  returns (optimize_shopping_list env ingredients group_by_section estimate_costs) w
    (λ sl w',
       w' = traced env "optimize_shopping_list" w
       ∧ total_items sl = length (items sl)
       ∧ length (items sl) ≤ length ingredients
       ∧ (if group_by_section
          then ∃ grouped, grouped_by_section sl = Some grouped
                          ∧ sections sl = Some grouped.*1
                          ∧ NoDup grouped.*1
                          ∧ concat grouped.*2 ≡ₚ items sl
          else grouped_by_section sl = None ∧ sections sl = None)
       ∧ (if estimate_costs
          then ∃ est, estimated_cost sl = Some est
                      ∧ (200 * Z.of_nat (total_items sl) ≤ total_estimate est
                         ≤ 800 * Z.of_nat (total_items sl))%Z
          else estimated_cost sl = None)).
Proof.
  eapply returns_eq; [apply optimize_shopping_list_run|].
  cbn [items total_items grouped_by_section sections estimated_cost].
  split; [done|]. split; [done|]. split.
  { destruct (normalize_fold ingredients [] []) as (kept & Hf & Hsub & _).
    { constructor. } { apply not_elem_of_nil. }
    assert (_normalize_ingredients ingredients = PyStr.strip <$> kept) as ->
      by exact (f_equal fst Hf).
    rewrite length_fmap. by apply sublist_length. }
  split.
  - destruct group_by_section; [|done].
    eexists. split; [done|]. split; [done|].
    destruct (group_by_section_final (_normalize_ingredients ingredients))
      as (g & u & (Hnd & Hperm & _) & Hother & ->).
    cbn [fst snd] in *. destruct u as [|y0 u].
    + rewrite app_nil_r in Hperm. done.
    + split.
      * rewrite fmap_app. apply NoDup_app. split; [done|]. split; [|apply NoDup_singleton].
        intros k Hk Hk'%list_elem_of_singleton. by subst k.
      * rewrite fmap_app, concat_app. cbn. by rewrite app_nil_r.
  - destruct estimate_costs; [|done].
    eexists. split; [done|]. rewrite estimate_costs_eq. cbn [total_estimate].
    apply sum_amounts_bounds. intros x. apply cost_of_bounds.
Qed.

Lemma mock_ingredients_normal meal_name :
  Forall (λ k, PyStr.strip k = k ∧ norm_key k = k ∧ k ≠ EmptyString)
    (_generate_mock_ingredients meal_name).
Proof.
  unfold _generate_mock_ingredients. cbv zeta.
  repeat (destruct (PyStr.contains _ _)); cbn [app];
    repeat (apply Forall_cons; split; [by vm_compute|]); apply Forall_nil_2.
Qed.

(** The ingredients that [generate_shopping_list] collects. *)
Lemma all_ingredients_elem (recipes : list (string * option Recipe)) acc x :
  x ∈ foldl (λ acc '(meal_name, recipe),
               match recipe with
               | Some r => acc ++ _extract_ingredients r meal_name
               | None => acc
               end) acc recipes
  ↔ x ∈ acc ∨ ∃ meal_name r, (meal_name, Some r) ∈ recipes
                             ∧ x ∈ _generate_mock_ingredients meal_name.
Proof.
  revert acc. induction recipes as [|[m [r|]] recipes IH]; intros acc; cbn [foldl].
  - split; [by left|]. intros [?|(m & r & Hin & _)]; [done|]. by apply elem_of_nil in Hin.
  - rewrite IH, elem_of_app. unfold _extract_ingredients. split.
    + intros [[?|?]|(m' & r' & Hin & Hx)]; [by left| |].
      * right. exists m, r. split; [by left|done].
      * right. exists m', r'. split; [by right|done].
    + intros [?|(m' & r' & [[= -> ->]|Hin]%elem_of_cons & Hx)].
      * left. by left.
      * left. by right.
      * right. by exists m', r'.
  - rewrite IH. split.
    + intros [?|(m' & r' & Hin & Hx)]; [by left|].
      right. exists m', r'. split; [by right|done].
    + intros [?|(m' & r' & [[=]|Hin]%elem_of_cons & Hx)]; [by left|].
      right. by exists m', r'.
Qed.

Lemma generate_shopping_list_run recipes optimize w :
  generate_shopping_list env recipes optimize w
  = (let all_ingredients :=
       foldl (λ acc '(meal_name, recipe),
                match recipe with
                | Some r => acc ++ _extract_ingredients r meal_name
                | None => acc
                end) [] recipes in
     let w2 := traced env "shopping_list_generate"
                 (traced env "generate_shopping_list" w) in
     if optimize
     then (Ok (mkGenerated
                 (mkShoppingList (_normalize_ingredients all_ingredients)
                    (Some (_group_by_section (_normalize_ingredients all_ingredients)))
                    (length (_normalize_ingredients all_ingredients))
                    (Some (_estimate_costs (_normalize_ingredients all_ingredients)))
                    (Some (PyDict.keys
                             (_group_by_section (_normalize_ingredients all_ingredients)))))
                 (length recipes) true),
           traced env "optimize_shopping_list" w2)
     else (Ok (mkGenerated
                 (mkShoppingList all_ingredients None (length all_ingredients) None None)
                 (length recipes) false), w2)).
Proof. by destruct optimize. Qed.

End shopping.

(** ** Nutrition analysis *)

Section nutrition.
Context (env : Env).
Import NutritionAnalysisTool.

Lemma estimate_nutrition_bounds meal n :
  _estimate_nutrition meal = Some n →
  title meal ≠ None
  ∧ (300 ≤ calories n ≤ 600)%Z ∧ (15 ≤ protein n ≤ 40)%Z
  ∧ (30 ≤ carbs n ≤ 80)%Z ∧ (10 ≤ fat n ≤ 25)%Z.
Proof.
  unfold _estimate_nutrition. destruct (title meal) as [t|]; [|done]. cbv zeta.
  intros [= <-]. split; [done|].
  repeat (destruct (_ || _) || destruct (PyStr.contains _ _)); cbn; lia.
Qed.

Lemma nutrition_fold_None (ms : list Recipe) :
  foldl (λ acc meal,
           match acc, _estimate_nutrition meal with
           | Some (c, p, cb, f), Some n =>
               Some ((c + calories n)%Z, (p + protein n)%Z,
                     (cb + carbs n)%Z, (f + fat n)%Z)
           | _, _ => None
           end) None ms = None.
Proof. induction ms as [|m ms IH]; [done|]. cbn [foldl]. apply IH. Qed.

Lemma nutrition_fold (ms : list Recipe) (c p cb f : Z) :
  match foldl (λ acc meal,
                 match acc, _estimate_nutrition meal with
                 | Some (c, p, cb, f), Some n =>
                     Some ((c + calories n)%Z, (p + protein n)%Z,
                           (cb + carbs n)%Z, (f + fat n)%Z)
                 | _, _ => None
                 end) (Some (c, p, cb, f)) ms with
  | Some (c', p', cb', f') =>
      (∀ m, m ∈ ms → title m ≠ None)
      ∧ (c + 300 * Z.of_nat (length ms) ≤ c' ≤ c + 600 * Z.of_nat (length ms))%Z
      ∧ (p + 15 * Z.of_nat (length ms) ≤ p' ≤ p + 40 * Z.of_nat (length ms))%Z
      ∧ (cb + 30 * Z.of_nat (length ms) ≤ cb' ≤ cb + 80 * Z.of_nat (length ms))%Z
      ∧ (f + 10 * Z.of_nat (length ms) ≤ f' ≤ f + 25 * Z.of_nat (length ms))%Z
  | None => ∃ m, m ∈ ms ∧ title m = None
  end.
Proof.
  revert c p cb f. induction ms as [|m ms IH]; intros c p cb f.
  - cbn. split; [|lia]. intros m Hm. by apply elem_of_nil in Hm.
  - cbn [foldl]. destruct (_estimate_nutrition m) as [n|] eqn:Hn.
    + apply estimate_nutrition_bounds in Hn as (Ht & Hc & Hp & Hcb & Hf).
      specialize (IH (c + calories n)%Z (p + protein n)%Z (cb + carbs n)%Z (f + fat n)%Z).
      destruct (foldl _ _ ms) as [[[[c' p'] cb'] f']|].
      * destruct IH as (Hts & ? & ? & ? & ?). cbn [length].
        split; [|lia]. intros m' [->|Hm']%elem_of_cons; [done|by apply Hts].
      * destruct IH as (m' & Hm' & Ht'). exists m'. split; [by right|done].
    + rewrite nutrition_fold_None. exists m. split; [by left|].
      unfold _estimate_nutrition in Hn. by destruct (title m).
Qed.

Lemma generate_recommendations_nonempty c p cb f :
  _generate_recommendations c p cb f ≠ [].
Proof.
  unfold _generate_recommendations. cbv zeta.
  by destruct (_ ++ _).
Qed.

(** X16. [analyze_meal_nutrition] does not raise and changes nothing but
    the trace. It answers with an error exactly when a meal has the title
    None; otherwise it counts the meals, its totals lie between the least
    and the greatest estimate per meal (300 to 600 calories, 15 to 40 g of
    protein, 30 to 80 g of carbohydrates, 10 to 25 g of fat), and it gives at
    least one recommendation. *)
Theorem analyze_meal_nutrition_totals (ms : list Recipe) w :
  returns (analyze_meal_nutrition env ms) w
    (λ r w',
       w' = traced env "analyze_meal_nutrition" w
       ∧ match r with
         | inl _ => ∃ m, m ∈ ms ∧ title m = None
         | inr a =>
             (∀ m, m ∈ ms → title m ≠ None)
             ∧ meals_analyzed a = length ms
             ∧ (300 * Z.of_nat (length ms) ≤ total_calories a
                ≤ 600 * Z.of_nat (length ms))%Z
             ∧ (15 * Z.of_nat (length ms) ≤ total_protein_g a
                ≤ 40 * Z.of_nat (length ms))%Z
             ∧ (30 * Z.of_nat (length ms) ≤ total_carbs_g a
                ≤ 80 * Z.of_nat (length ms))%Z
             ∧ (10 * Z.of_nat (length ms) ≤ total_fat_g a
                ≤ 25 * Z.of_nat (length ms))%Z
             ∧ recommendations a ≠ []
         end).
Proof.
  unfold returns, analyze_meal_nutrition. unfold bind at 1.
  rewrite start_span_run. cbv zeta.
  pose proof (nutrition_fold ms 0 0 0 0) as Hfold.
  destruct (foldl _ _ ms) as [[[[c p] cb] f]|]; (eexists _, _; split; [reflexivity|]).
  - split; [done|]. destruct Hfold as (Hts & ? & ? & ? & ?).
    cbn [meals_analyzed total_calories total_protein_g total_carbs_g total_fat_g
         recommendations].
    split; [done|]. split; [done|]. split; [lia|]. split; [lia|]. split; [lia|].
    split; [lia|]. apply generate_recommendations_nonempty.
  - done.
Qed.

(** X17. [_generate_recommendations] says that the balance looks good
    exactly when the calories are within 1600 and 2400, the protein is at
    least 70, the carbohydrates are at least 175 and the fat is at most 84.5;
    it gives between one and four recommendations and never both the
    advice for too few and for too many calories. *)
Theorem generate_recommendations_balance (c p cb f : Z) :
  ("Nutritional balance looks good!" ∈ _generate_recommendations c p cb f
   ↔ (1600 ≤ c ≤ 2400 ∧ 70 ≤ p ∧ 175 ≤ cb ∧ 2 * f ≤ 169)%Z)
  ∧ 1 ≤ length (_generate_recommendations c p cb f) ≤ 4
  ∧ ¬ ("Consider adding more calorie-dense foods to meet daily needs"
         ∈ _generate_recommendations c p cb f
       ∧ "Meal plan is high in calories - consider lighter options"
         ∈ _generate_recommendations c p cb f).
Proof.
  unfold _generate_recommendations. cbv zeta.
  destruct (Z.ltb_spec c 1600), (Z.ltb_spec 2400 c), (Z.ltb_spec p 70),
    (Z.ltb_spec cb 175), (Z.ltb_spec 169 (2 * f)); cbn [app length];
    (split; [split; [intros Hin|intros ?; try lia]|split; [lia|intros [Hlow Hhigh]]]);
    repeat match goal with
    | H : _ ∈ _ :: _ |- _ => apply elem_of_cons in H as [H|H]; [try discriminate H|]
    | H : _ ∈ [] |- _ => by apply elem_of_nil in H
    end; try lia; try done; try by left.
Qed.
End nutrition.

(** ** Meal planner *)

Section planner_extra.
Context (env : Env).
Import MealPlannerAgent.

Lemma mock_meals_types restrictions k ds :
  Forall (λ m, meal_type m ∈ meal_types) (mock_meals env restrictions k ds).
Proof.
  revert k. induction ds as [|d ds IH]; intros k; [constructor|].
  cbn [mock_meals]. apply Forall_app. split; [|apply IH].
  repeat constructor; simpl; set_solver.
Qed.

Lemma meatless_options (r : list string) mt x :
  "vegan" ∈ r ∨ "vegetarian" ∈ r →
  mt ∈ meal_types → x ∈ select_options (Some r) mt →
  existsb (λ k, PyStr.contains k (PyStr.lower x)) RecipeSearchTool.meat_keywords = false.
Proof.
  intros Hr Hmt. destruct r as [|r0 r]; [destruct Hr as [Hr|Hr]; by apply elem_of_nil in Hr|].
  unfold select_options. cbv zeta.
  assert (∀ l : list string,
            forallb (λ x, negb (existsb (λ k, PyStr.contains k (PyStr.lower x))
                                  RecipeSearchTool.meat_keywords)) l = true →
            x ∈ l →
            existsb (λ k, PyStr.contains k (PyStr.lower x))
              RecipeSearchTool.meat_keywords = false) as Hall.
  { intros l Hl Hx. rewrite forallb_forall in Hl. apply negb_true_iff, Hl.
    by apply list_elem_of_In. }
  destruct (bool_decide ("vegan" ∈ r0 :: r)) eqn:Hvegan.
  - unfold meal_types in Hmt. rewrite !elem_of_cons, elem_of_nil in Hmt.
    destruct Hmt as [->|[->|[->|[]]]]; apply Hall; by vm_compute.
  - apply bool_decide_eq_false in Hvegan. destruct Hr as [?|Hveg]; [done|].
    rewrite bool_decide_eq_true_2 by done.
    unfold meal_types in Hmt. rewrite !elem_of_cons, elem_of_nil in Hmt.
    destruct Hmt as [->|[->|[->|[]]]]; apply Hall; by vm_compute.
Qed.

Lemma mock_meals_meatless (r : list string) k ds :
  "vegan" ∈ r ∨ "vegetarian" ∈ r →
  Forall (λ m, existsb (λ k, PyStr.contains k (PyStr.lower (name m)))
                 RecipeSearchTool.meat_keywords = false)
    (mock_meals env (Some r) k ds).
Proof.
  intros Hr. apply Forall_forall. intros m Hm.
  pose proof (proj1 (Forall_forall _ _) (mock_meals_types (Some r) _ _) m Hm) as Hmt.
  pose proof (proj1 (Forall_forall _ _) (mock_meals_names env (Some r) _ _) m Hm) as Hname.
  cbv beta in Hmt, Hname. by eapply meatless_options.
Qed.

(** X18. Under a restriction list that names vegan or vegetarian, no meal
    of the mock plan has a name that contains one of the meat words of the
    recipe search (chicken, beef, pork, salmon, fish, meat, turkey, lamb),
    whatever the random draws; the plan carries the restrictions. *)
Theorem mock_plan_meatless (n_days : Z) (r : list string)
    (prefs : option (list string)) (w : World) :
  "vegan" ∈ r ∨ "vegetarian" ∈ r →
  returns (_generate_mock_meal_plan env n_days (Some r) prefs) w (λ plan _,
    dietary_restrictions plan = r
    ∧ Forall (λ m, existsb (λ k, PyStr.contains k (PyStr.lower (name m)))
                     RecipeSearchTool.meat_keywords = false) (meals plan)).
Proof.
  intros Hr. eapply returns_eq; [apply _generate_mock_meal_plan_run|].
  cbv zeta. cbn [meals dietary_restrictions]. split; [done|].
  by apply mock_meals_meatless.
Qed.

(** X19. For a day count below 1 the mock plan has no meal, its summary
    counts 0 meals, and no random draw is consumed: the state is
    unchanged. *)
Theorem mock_plan_no_days (n_days : Z) (restrictions prefs : option (list string))
    (w : World) :
  (n_days ≤ 0)%Z →
  returns (_generate_mock_meal_plan env n_days restrictions prefs) w (λ plan w',
    meals plan = []
    ∧ summary plan = "Generated " +:+ pretty n_days +:+ "-day meal plan with 0 meals"
    ∧ days plan = n_days
    ∧ w' = w).
Proof.
  intros Hn. eapply returns_eq; [apply _generate_mock_meal_plan_run|].
  cbv zeta. unfold seqZ. replace (Z.to_nat n_days) with 0 by lia.
  cbn [seq fmap list_fmap mock_meals length meals summary days].
  split; [done|]. split; [done|]. split; [done|]. by destruct w.
Qed.

(** X20. When the model replies with a text from which no JSON document
    can be decoded, [plan_meals] of the planner does not raise and falls
    back to the mock plan generated without the restrictions and the
    preferences of the request: the plan lists neither, and every meal
    name is drawn from the default options of its meal type. *)
Theorem planner_fallback_drops_restrictions (n_days : Z)
    (restrictions prefs : option (list string)) (budget : option Qcanon.Qc)
    (user_context : option UserContext) (w : World)
    (model : PlanRequest → LlmOutcome) (text : string) :
  gemini env = Some model →
  model (mkPlanRequest n_days restrictions prefs budget user_context) = LlmText text →
  text ≠ EmptyString →
  decode_response env text = None →
  returns (plan_meals env n_days restrictions prefs budget user_context) w (λ plan _,
    dietary_restrictions plan = []
    ∧ plan_preferences plan = []
    ∧ Forall (λ m, name m ∈ select_options None (meal_type m)) (meals plan)).
Proof.
  intros Hg Hm Ht Hd. unfold plan_meals.
  apply returns_trace_operation. intros w1.
  apply returns_bind, returns_start_span. intros w2.
  apply returns_try_except. rewrite Hg. apply returns_try_except. rewrite Hm.
  destruct text as [|c text]; [done|].
  unfold _parse_llm_response. rewrite Hd.
  eapply returns_eq; [apply _generate_mock_meal_plan_run|].
  cbv zeta. cbn [meals dietary_restrictions plan_preferences].
  split; [done|]. split; [done|]. apply mock_meals_names.
Qed.

End planner_extra.

Lemma mock_plan_meatless_witness :
  ("vegan" ∈ ["vegetarian"] ∨ "vegetarian" ∈ ["vegetarian"])
  ∧ returns (MealPlannerAgent._generate_mock_meal_plan Demo.env 2 (Some ["vegetarian"]) None) Demo.world0
      (λ plan _,
         dietary_restrictions plan = ["vegetarian"]
         ∧ Forall (λ m, existsb (λ k, PyStr.contains k (PyStr.lower (name m)))
                          RecipeSearchTool.meat_keywords = false) (meals plan)).
Proof.
  assert ("vegan" ∈ ["vegetarian"] ∨ "vegetarian" ∈ ["vegetarian"]) as Hr
    by (right; by left).
  split; [exact Hr|]. exact (mock_plan_meatless Demo.env 2 ["vegetarian"] None Demo.world0 Hr).
Defined.

Lemma mock_plan_no_days_witness :
  (0 ≤ 0)%Z
  ∧ returns (MealPlannerAgent._generate_mock_meal_plan Demo.env 0 None None) Demo.world0 (λ plan w',
      meals plan = []
      ∧ summary plan = "Generated " +:+ pretty 0%Z +:+ "-day meal plan with 0 meals"
      ∧ days plan = 0%Z
      ∧ w' = Demo.world0).
Proof.
  split; [lia|]. apply (mock_plan_no_days Demo.env 0 None None Demo.world0). lia.
Defined.

Lemma planner_fallback_drops_restrictions_witness :
  returns (MealPlannerAgent.plan_meals Demo.env_chat 1 (Some ["vegan"]) (Some ["thai"]) None None)
    Demo.world0 (λ plan _,
      dietary_restrictions plan = []
      ∧ plan_preferences plan = []
      ∧ Forall (λ m, name m ∈ MealPlannerAgent.select_options None (meal_type m)) (meals plan)).
Proof.
  apply (planner_fallback_drops_restrictions Demo.env_chat 1 (Some ["vegan"]) (Some ["thai"]) None None
           Demo.world0 (λ _, LlmText "Sorry, no plan today") "Sorry, no plan today");
    [reflexivity|reflexivity|discriminate|reflexivity].
Defined.

(** ** Recipe search *)

Section same_stores_rules.
Context (env : Env).

Lemma same_stores_refl w : same_stores w w.
Proof. by repeat split. Qed.

Lemma same_stores_trans w1 w2 w3 :
  same_stores w1 w2 → same_stores w2 w3 → same_stores w1 w3.
Proof.
  intros (Hs & Hp & Hh & Ht) (Hs' & Hp' & Hh' & Ht').
  repeat split; congruence.
Qed.

Lemma same_stores_traced op w : same_stores w (traced env op w).
Proof. unfold traced. destruct (tracing_enabled env); by repeat split. Qed.
End same_stores_rules.

Section recipes_extra.
Context (env : Env).
Import RecipeSearchTool RecipeFinderAgent.

Lemma mock_recipes_shape query restrictions cuisine max_results :
  length (_get_mock_recipes query restrictions cuisine max_results) = max_results `min` 3
  ∧ recipe_id <$> _get_mock_recipes query restrictions cuisine max_results
    = take max_results [Some 1%Z; Some 2%Z; Some 3%Z]
  ∧ Forall (λ rc, is_Some (title rc))
      (_get_mock_recipes query restrictions cuisine max_results).
Proof.
  unfold _get_mock_recipes. cbv zeta. split; [|split].
  - by rewrite length_take.
  - by rewrite fmap_take.
  - apply Forall_take. repeat constructor; by eexists.
Qed.

(** X21. [search_recipes] does not raise, changes nothing but the trace
    and returns at most [max_results] recipes. When no API key is set or
    the request to the API raises, it returns the mock recipes: the first
    [max_results] of three, numbered 1, 2, 3, each with a title. *)
Theorem search_recipes_bounded query restrictions cuisine max_results w :
  returns (search_recipes env query restrictions cuisine max_results) w (λ rs w',
    w' = traced env "recipe_search" w
    ∧ length rs ≤ max_results
    ∧ ((spoonacular env = None
        ∨ ∃ api, spoonacular env = Some api ∧ api query restrictions = ApiRaised) →
       length rs = max_results `min` 3
       ∧ recipe_id <$> rs = take max_results [Some 1%Z; Some 2%Z; Some 3%Z]
       ∧ Forall (λ rc, is_Some (title rc)) rs)).
Proof.
  eapply returns_eq; [apply search_recipes_run|].
  split; [done|].
  pose proof (mock_recipes_shape query restrictions cuisine max_results) as Hmock.
  unfold search_result, _search_spoonacular. split.
  - destruct (spoonacular env) as [api|]; [|lia].
    destruct (api query restrictions); [|lia].
    rewrite length_fmap, length_take. lia.
  - intros [->|(api & -> & ->)]; done.
Qed.

(** The result of [find_recipes_for_meals] and the state it leaves. *)
Lemma find_recipes_spec ms restrictions w :
  returns (find_recipes_for_meals env ms restrictions) w (λ res w',
    same_stores w w'
    ∧ total_meals res = length ms
    ∧ meal_recipes res
      = foldl (λ d (e : string * option Recipe), PyDict.set e.1 e.2 d) []
          (omap (λ i, lookup_entries env restrictions ms !! i)
                (as_completed env (length ms)))
    ∧ recipes_found res
      = length (filter (λ r : option Recipe, is_Some r) (meal_recipes res).*2)).
Proof.
  unfold find_recipes_for_meals, trace_operation, returns.
  unfold bind at 1. rewrite start_span_run.
  unfold bind at 1. rewrite start_span_run.
  set (w2 := traced env "recipe_finder_find" (traced env "find_recipes" w)).
  destruct (submit_returns env restrictions ms [] w2)
    as (fs & w3 & Hrun & -> & Hs & Hp & Hh & Ht).
  unfold bind at 1. rewrite Hrun. eexists _, _. split; [reflexivity|].
  cbn [total_meals meal_recipes recipes_found]. rewrite app_nil_l.
  split.
  { eapply same_stores_trans; [apply (same_stores_traced env "find_recipes")|].
    eapply same_stores_trans; [apply (same_stores_traced env "recipe_finder_find")|].
    by repeat split. }
  split; [done|]. split; [apply collect_fold|done].
Qed.

(** Every entry that [find_recipes_for_meals] returns is the outcome of
    the lookup of a meal of that name. *)
Lemma find_recipes_entries ms restrictions w :
  returns (find_recipes_for_meals env ms restrictions) w (λ res _,
    ∀ k v, (k, v) ∈ meal_recipes res →
           ∃ i meal, ms !! i = Some meal ∧ k = name meal
                     ∧ v = lookup_outcome env restrictions i meal).
Proof.
  eapply returns_mono; [apply find_recipes_spec|].
  intros res w' (_ & _ & Hd & _) k v Hin. rewrite Hd in Hin.
  apply pydict_fold_elems in Hin as [Hin|Hin];
    [by apply elem_of_nil in Hin| |constructor].
  apply omap_lookup_elem in Hin. unfold lookup_entries in Hin.
  apply elem_of_lookup_imap in Hin as (i & meal & [= -> ->] & Hi). by exists i, meal.
Qed.

(** X22. [find_recipes_for_meals] does not raise and leaves the sessions
    and the memory bank as they were. Its result counts the meals it was
    given; the names in [meal_recipes] are pairwise different names of given
    meals; and [recipes_found] is at most the number of entries, which is at
    most the number of meals. *)
Theorem find_recipes_bounds (ms : list Meal) (restrictions : option (list string))
    (w : World) :
  returns (find_recipes_for_meals env ms restrictions) w (λ res w',
    same_stores w w'
    ∧ total_meals res = length ms
    ∧ NoDup (meal_recipes res).*1
    ∧ (∀ k, k ∈ (meal_recipes res).*1 → k ∈ name <$> ms)
    ∧ recipes_found res ≤ length (meal_recipes res) ≤ total_meals res).
Proof.
  eapply returns_mono; [apply find_recipes_spec|].
  intros res w' (Hsame & Htotal & Hd & Hfound).
  split; [done|]. split; [done|].
  destruct (pydict_fold_keys
              (omap (λ i, lookup_entries env restrictions ms !! i)
                    (as_completed env (length ms))) [])
    as [Hnd Hkeys]; [constructor|].
  rewrite <- Hd in Hnd, Hkeys.
  assert (∀ k, k ∈ (meal_recipes res).*1 → k ∈ name <$> ms) as Hsub.
  { intros k [Hk|Hk]%Hkeys; [by apply elem_of_nil in Hk|].
    apply list_elem_of_fmap in Hk as ([k' v] & -> & Hin).
    apply omap_lookup_elem in Hin. rewrite <- (entries_keys env restrictions ms).
    apply list_elem_of_fmap. by exists (k', v). }
  split; [done|]. split; [done|]. split.
  - rewrite Hfound. etrans; [apply length_filter|]. by rewrite length_fmap.
  - rewrite Htotal, <- (length_fmap fst (meal_recipes res)), <- (length_fmap name ms).
    apply submseteq_length. by apply NoDup_submseteq.
Qed.
End recipes_extra.

(** ** Orchestrator: sessions and preferences *)

Section orchestrator_extra.
Context (env : Env).
Import OrchestratorAgent.

Lemma traced_bank op w :
  bank_preferences (traced env op w) = bank_preferences w
  ∧ bank_meal_history (traced env op w) = bank_meal_history w
  ∧ uuids (traced env op w) = uuids w
  ∧ draws (traced env op w) = draws w.
Proof. unfold traced. by destruct (tracing_enabled env). Qed.

Lemma orchestrator_create_session_run uid initial_preferences w :
  create_session env uid initial_preferences w =
    (let w1 := traced env "create_session" w in
     let stored :=
       mkUserContext (MemoryBank.prefs_dict (default [] (bank_preferences w1 !! uid)))
         ((λ h, mkRecentMeal (date h) (meals (meal_plan h)) (feedback h))
            <$> MemoryBank.last_n 5 (default [] (bank_meal_history w1 !! uid))) in
     let user_context :=
       match initial_preferences with
       | Some p =>
           if bool_decide (p = ∅) then stored
           else mkUserContext (p ∪ uc_preferences stored) (uc_recent_meals stored)
       | None => stored
       end in
     let s := mkSession (uuid4 env (uuids w1)) uid (clock env (ticks w1))
                (clock env (ticks w1))
                (<["user_context" := CUserContext user_context]>
                   (<["preferences" := CPreferences (uc_preferences user_context)]> ∅))
                ∅ in
     (Ok (uuid4 env (uuids w1)),
      set_sessions (insert (uuid4 env (uuids w1)) s) (set_ticks S (set_uuids S w1)))).
Proof.
  unfold create_session. unfold bind at 1. rewrite start_span_run.
  unfold bind at 1. rewrite get_user_context_run. reflexivity.
Qed.

(** X23. [create_session] of the orchestrator returns a new uuid under
    which the store then holds a session of the user. The context of the
    session holds, as user context and again under the key preferences, the
    preferences that the memory bank has for the user, overridden by the
    initial preferences where both have a key, together with the recent
    meals of the bank. The initial preferences are not written to the
    memory bank, and the preferences of the session itself stay empty. *)
Theorem orchestrator_create_session_context (uid : string)
    (initial_preferences : option (gmap string PyVal)) (w : World) :
  returns (create_session env uid initial_preferences) w (λ sid w',
    sid = uuid4 env (uuids w)
    ∧ bank_preferences w' = bank_preferences w
    ∧ bank_meal_history w' = bank_meal_history w
    ∧ (∀ sid', sid' ≠ sid → sessions w' !! sid' = sessions w !! sid')
    ∧ ∃ s uc,
        sessions w' !! sid = Some s
        ∧ session_id s = sid ∧ user_id s = uid ∧ preferences s = ∅
        ∧ context_user_context s = Some uc
        ∧ context s !! "preferences" = Some (CPreferences (uc_preferences uc))
        ∧ (∀ k, uc_preferences uc !! k =
                  match default ∅ initial_preferences !! k with
                  | Some v => Some v
                  | None =>
                      MemoryBank.prefs_dict (default [] (bank_preferences w !! uid)) !! k
                  end)
        ∧ returns (MemoryBank.get_user_context uid) w (λ stored _,
            uc_recent_meals uc = uc_recent_meals stored)).
Proof.
  eapply returns_eq; [apply orchestrator_create_session_run|]. cbv zeta.
  destruct (traced_bank "create_session" w) as (Hp & Hh & Hu & _).
  rewrite Hp, Hh, Hu.
  split; [done|]. split; [done|]. split; [done|]. split.
  { intros sid' Hne. cbn. rewrite lookup_insert_ne by done. by rewrite traced_sessions. }
  eexists _, _. split; [cbn; apply lookup_insert_eq|].
  cbn [session_id user_id preferences context].
  split; [done|]. split; [done|]. split; [done|].
  split; [unfold context_user_context; cbn [context]; by rewrite lookup_insert_eq|].
  split; [by rewrite lookup_insert_ne, lookup_insert_eq|].
  split.
  - intros k. destruct initial_preferences as [p|]; cbn [default id].
    + case_bool_decide as Hempty.
      * rewrite Hempty. cbn [uc_preferences]. by rewrite lookup_empty.
      * cbn [uc_preferences]. apply lookup_union_override.
    + cbn [uc_preferences]. by rewrite lookup_empty.
  - eapply returns_eq; [apply get_user_context_run|].
    destruct initial_preferences as [p|]; [case_bool_decide|]; done.
Qed.

Lemma returns_conj {A} (c : M A) w (Q1 Q2 : A → World → Prop) :
  returns c w Q1 → returns c w Q2 → returns c w (λ a w', Q1 a w' ∧ Q2 a w').
Proof.
  intros (a & w' & Hc & HQ1) (a2 & w2 & Hc2 & HQ2). exists a, w'.
  rewrite Hc in Hc2. injection Hc2 as <- <-. done.
Qed.

Lemma write_preferences_frame (uid : string) (writes : list (string * PyVal)) w :
  returns (write_preferences env uid writes) w (λ _ w',
    sessions w' = sessions w ∧ bank_meal_history w' = bank_meal_history w
    ∧ ∀ uid', uid' ≠ uid → bank_preferences w' !! uid' = bank_preferences w !! uid').
Proof.
  revert w. induction writes as [|[t v] writes IH]; intros w.
  - by apply returns_ret.
  - unfold write_preferences. simpl. apply returns_bind.
    eapply returns_eq; [apply add_preference_run|].
    eapply returns_mono; [apply IH|].
    intros _ w' (Hs & Hh & Hp). split; [done|]. split; [done|].
    intros uid' Hne. rewrite Hp by done. cbn. by rewrite lookup_insert_ne.
Qed.

Lemma prefs_unique_ext w w' :
  bank_preferences w' = bank_preferences w → prefs_unique w → prefs_unique w'.
Proof. intros Hp Hw uid prefs. rewrite Hp. apply Hw. Qed.

Lemma session_update_preferences_spec sid (p : gmap string PyVal) w s :
  sessions w !! sid = Some s →
  returns (InMemorySessionService.update_preferences env sid p) w (λ b w',
    bank_preferences w' = bank_preferences w
    ∧ bank_meal_history w' = bank_meal_history w
    ∧ ((idle_time env w s ≤ InMemorySessionService.session_timeout env)%Z →
       sessions w'
       = <[sid := InMemorySessionService.with_last_accessed (clock env (S (S (ticks w))))
                    (InMemorySessionService.with_preferences (p ∪ preferences s) s)]>
           (sessions w))).
Proof.
  intros Hs.
  destruct (Z_le_gt_dec (idle_time env w s) (InMemorySessionService.session_timeout env))
    as [Hlive|Hexp].
  - eapply returns_eq; [by apply update_preferences_live_run|]. done.
  - eapply returns_eq.
    { unfold InMemorySessionService.update_preferences. unfold bind at 1.
      rewrite (get_session_expired_run env w sid s Hs) by lia. reflexivity. }
    split; [done|]. split; [done|]. lia.
Qed.

(** X24. [update_preferences] of the orchestrator returns [False] and
    changes nothing when the session id is not stored; on an expired
    session it returns [False], evicts the session and leaves the memory
    bank alone. On a live session, from a bank with at most one entry per
    user and type, it returns [True]; the bank then maps, for the user of
    the session, every given key to the value given last for it and every
    other key to what it held; and when the clock does not advance beyond
    the timeout before the store is asked again, the preferences of the
    stored session agree with the bank on every given key and are
    otherwise unchanged. *)
Theorem orchestrator_update_preferences (sid : string)
    (prefs : list (string * PyVal)) (w : World) :
  match sessions w !! sid with
  | None => returns (update_preferences env sid prefs) w (λ b w', b = false ∧ w' = w)
  | Some s =>
      ((InMemorySessionService.session_timeout env < idle_time env w s)%Z →
       returns (update_preferences env sid prefs) w (λ b w',
         b = false
         ∧ sessions w' = delete sid (sessions w)
         ∧ bank_preferences w' = bank_preferences w))
      ∧ ((idle_time env w s ≤ InMemorySessionService.session_timeout env)%Z →
         prefs_unique w →
         returns (update_preferences env sid prefs) w (λ b w',
           b = true
           ∧ prefs_unique w'
           ∧ (∀ k, MemoryBank.prefs_dict
                     (default [] (bank_preferences w' !! user_id s)) !! k
                   = match last_written k prefs with
                     | Some v => Some v
                     | None =>
                         MemoryBank.prefs_dict
                           (default [] (bank_preferences w !! user_id s)) !! k
                     end)
           ∧ (∀ uid, uid ≠ user_id s →
                bank_preferences w' !! uid = bank_preferences w !! uid)
           ∧ ((clock env (S (S (ticks w))) - clock env (S (ticks w))
               ≤ InMemorySessionService.session_timeout env)%Z →
              ∃ s', sessions w' !! sid = Some s'
                    ∧ user_id s' = user_id s
                    ∧ ∀ k, preferences s' !! k
                           = match last_written k prefs with
                             | Some v => Some v
                             | None => preferences s !! k
                             end)))
  end.
Proof.
  destruct (sessions w !! sid) as [s|] eqn:Hs.
  - split.
    + intros Hexp. eapply returns_eq.
      { unfold update_preferences. unfold bind at 1.
        rewrite (get_session_expired_run env w sid s Hs Hexp). reflexivity. }
      done.
    + intros Hlive Hw. unfold update_preferences. apply returns_bind.
      eapply returns_eq; [by apply get_session_live_run|].
      set (s1 := InMemorySessionService.with_last_accessed (clock env (S (ticks w))) s).
      set (w1 := set_sessions (insert sid s1) (set_ticks (λ n, S (S n)) w)).
      apply returns_bind.
      eapply returns_mono.
      { apply (session_update_preferences_spec sid _ w1 s1). apply lookup_insert_eq. }
      intros b w2 (Hp2 & Hh2 & Hs2).
      apply returns_bind.
      eapply returns_mono.
      { apply returns_conj.
        - apply (write_preferences_run env (user_id s1) prefs w2).
          by apply (prefs_unique_ext w).
        - apply (write_preferences_frame (user_id s1) prefs w2). }
      intros [] w3 [[Hw3 Hd] (Hs3 & Hh3 & Hp3)]. apply returns_ret.
      split; [done|]. split; [done|]. cbn [user_id s1 InMemorySessionService.with_last_accessed] in *.
      split; [|split].
      * intros k. rewrite Hd, writes_fold_lookup, Hp2. done.
      * intros uid Hne. rewrite Hp3 by done. by rewrite Hp2.
      * intros Hgap. rewrite Hs3, Hs2 by exact Hgap.
        eexists. split; [apply lookup_insert_eq|]. split; [done|].
        intros k. cbn [preferences InMemorySessionService.with_last_accessed
                       InMemorySessionService.with_preferences].
        rewrite lookup_union_override, writes_fold_lookup.
        destruct (last_written k prefs); [done|]. by rewrite lookup_empty.
  - eapply returns_eq.
    { unfold update_preferences. unfold bind at 1.
      rewrite (get_session_absent_run env w sid Hs). reflexivity. }
    done.
Qed.
End orchestrator_extra.

(** ** Orchestrator: what the workflow records *)

Section workflow_extra.
Context (env : Env).

Lemma mock_plan_frame n_days restrictions prefs w :
  returns (MealPlannerAgent._generate_mock_meal_plan env n_days restrictions prefs) w
    (λ _ w', same_stores w w').
Proof.
  eapply returns_eq; [apply _generate_mock_meal_plan_run|]. by repeat split.
Qed.

Lemma planner_frame n_days restrictions prefs budget user_context w :
  returns (MealPlannerAgent.plan_meals env n_days restrictions prefs budget user_context) w
    (λ _ w', same_stores w w').
Proof.
  unfold MealPlannerAgent.plan_meals, trace_operation.
  apply returns_bind. eapply returns_eq; [apply start_span_run|].
  apply returns_bind. eapply returns_eq; [apply start_span_run|].
  set (w2 := traced env "meal_planner_plan" (traced env "plan_meals" w)).
  assert (same_stores w w2) as Hw2.
  { eapply same_stores_trans; apply same_stores_traced. }
  assert (∀ r p, returns (MealPlannerAgent._generate_mock_meal_plan env n_days r p) w2
            (λ _ w', same_stores w w')) as Hmock.
  { intros r p. eapply returns_mono; [apply mock_plan_frame|].
    intros ? w' Hw'. by eapply same_stores_trans. }
  apply returns_try_except.
  destruct (gemini env) as [model|]; [|apply Hmock].
  apply returns_try_except.
  destruct (model _) as [| |text]; [apply Hmock|apply Hmock|].
  destruct text as [|c text]; [apply Hmock|].
  unfold MealPlannerAgent._parse_llm_response.
  destruct (MealPlannerAgent.decode_response env (String c text)) as [plan|].
  - by apply returns_ret.
  - apply Hmock.
Qed.

Lemma shopping_frame recipes optimize w :
  returns (ShoppingListAgent.generate_shopping_list env recipes optimize) w
    (λ _ w', same_stores w w').
Proof.
  unfold returns. rewrite generate_shopping_list_run. cbv zeta.
  destruct optimize; (eexists _, _; split; [reflexivity|]);
    repeat (eapply same_stores_trans; [|apply same_stores_traced]);
    apply same_stores_refl.
Qed.

Lemma nutrition_frame ms w :
  returns (NutritionAnalysisTool.analyze_meal_nutrition env ms) w
    (λ _ w', same_stores w w').
Proof.
  unfold NutritionAnalysisTool.analyze_meal_nutrition.
  apply returns_bind. eapply returns_eq; [apply start_span_run|]. cbv zeta.
  destruct (foldl _ _ ms) as [[[[c p] cb] f]|]; apply returns_ret, same_stores_traced.
Qed.

Lemma update_session_context_spec sid (updates : gmap string CtxVal) w s :
  sessions w !! sid = Some s →
  returns (InMemorySessionService.update_session_context env sid updates) w (λ _ w',
    bank_preferences w' = bank_preferences w
    ∧ bank_meal_history w' = bank_meal_history w
    ∧ ((idle_time env w s ≤ InMemorySessionService.session_timeout env)%Z →
       sessions w'
       = <[sid := InMemorySessionService.with_last_accessed (clock env (S (S (ticks w))))
                    (InMemorySessionService.with_context (updates ∪ context s) s)]>
           (sessions w))).
Proof.
  intros Hs.
  destruct (Z_le_gt_dec (idle_time env w s) (InMemorySessionService.session_timeout env))
    as [Hlive|Hexp].
  - eapply returns_eq; [by apply update_session_context_live_run|]. done.
  - eapply returns_eq.
    { unfold InMemorySessionService.update_session_context. unfold bind at 1.
      rewrite (get_session_expired_run env w sid s Hs) by lia. reflexivity. }
    split; [done|]. split; [done|]. lia.
Qed.

Lemma add_preference_keeps uid ptype v w :
  returns (MemoryBank.add_preference env uid ptype v) w (λ _ w',
    sessions w' = sessions w ∧ bank_meal_history w' = bank_meal_history w).
Proof. eapply returns_eq; [apply add_preference_run|]. done. Qed.

(** X25. On a stored session that has not expired, when the planner
    obtains no document from the language model (no model, a timeout or
    failure, an empty reply, or a reply from which no JSON document can be
    decoded), the workflow returns a result that carries the session id,
    a shopping list exactly when one is asked for and a nutrition analysis
    exactly when one is asked for, and whose recipe results count the meals
    of the returned plan. The meal history of the session's user then ends
    with the returned plan, dated and without feedback, and has at most 50
    entries; the histories of the other users are unchanged. When the clock
    does not advance beyond the timeout before the store is asked again,
    the stored session holds the returned plan, recipe results and
    shopping list under the keys last_meal_plan, last_recipes and
    last_shopping_list. *)
Theorem workflow_records_plan (w : World) (sid : string) (s : Session)
    (n_days : Z) (restrictions prefs : option (list string))
    (budget : option Qcanon.Qc) (include_nutrition include_shopping_list : bool) :
  sessions w !! sid = Some s →
  (idle_time env w s ≤ InMemorySessionService.session_timeout env)%Z →
  llm_plan env (mkPlanRequest n_days restrictions prefs budget
                  (OrchestratorAgent.context_user_context s)) = None →
  returns (OrchestratorAgent.plan_meals env sid n_days restrictions prefs budget
             include_nutrition include_shopping_list) w (λ res w',
    res_session_id res = sid
    ∧ (is_Some (res_shopping_list res) ↔ include_shopping_list = true)
    ∧ (is_Some (res_nutrition res) ↔ include_nutrition = true)
    ∧ total_meals (res_recipes res) = length (meals (res_meal_plan res))
    ∧ (∃ kept date,
         bank_meal_history w' !! user_id s
         = Some (kept ++ [mkMealHistory (user_id s) (res_meal_plan res) date None])
         ∧ kept `suffix_of` default [] (bank_meal_history w !! user_id s)
         ∧ length kept < 50)
    ∧ (∀ uid, uid ≠ user_id s →
         bank_meal_history w' !! uid = bank_meal_history w !! uid)
    ∧ ((clock env (S (S (ticks w))) - clock env (S (ticks w))
        ≤ InMemorySessionService.session_timeout env)%Z →
       ∃ s', sessions w' !! sid = Some s'
             ∧ user_id s' = user_id s
             ∧ context s' !! "last_meal_plan" = Some (CMealPlan (res_meal_plan res))
             ∧ context s' !! "last_recipes" = Some (CRecipes (res_recipes res))
             ∧ context s' !! "last_shopping_list"
               = Some (CShoppingList (res_shopping_list res)))).
Proof.
  intros Hs Hidle _. unfold OrchestratorAgent.plan_meals, trace_operation.
  apply returns_bind. eapply returns_eq; [apply start_span_run|].
  apply returns_bind. eapply returns_eq; [apply start_span_run|].
  set (w0 := traced env "orchestrator_plan_meals" (traced env "plan_meals_complete" w)).
  assert (same_stores w w0) as (Hs0 & Hp0 & Hh0 & Ht0).
  { eapply same_stores_trans; apply same_stores_traced. }
  apply returns_try_except.
  apply returns_bind. eapply returns_eq.
  { apply (get_session_live_run env w0 sid s).
    - by rewrite Hs0.
    - unfold idle_time. rewrite Ht0. exact Hidle. }
  set (s1 := InMemorySessionService.with_last_accessed (clock env (S (ticks w0))) s).
  set (w1 := set_sessions (insert sid s1) (set_ticks (λ n, S (S n)) w0)).
  apply returns_bind. eapply returns_mono; [apply planner_frame|].
  intros plan w2 Hw2.
  apply returns_bind. eapply returns_mono; [apply find_recipes_spec|].
  intros rr w3 (Hw3 & Htotal & _).
  apply returns_bind.
  apply (returns_mono _ _
           (λ shopping w4, same_stores w3 w4
                           ∧ (is_Some shopping ↔ include_shopping_list = true))).
  { destruct include_shopping_list.
    - apply returns_bind. eapply returns_mono; [apply shopping_frame|].
      intros g w4 Hw4. apply returns_ret. split; [done|]. split; [done|by eexists].
    - apply returns_ret. split; [apply same_stores_refl|].
      split; [by intros [? ?]|done]. }
  intros shopping w4 [Hw4 Hshopping].
  apply returns_bind.
  apply (returns_mono _ _
           (λ nutrition w5, same_stores w4 w5
                            ∧ (is_Some nutrition ↔ include_nutrition = true))).
  { destruct include_nutrition.
    - apply returns_bind. eapply returns_mono; [apply nutrition_frame|].
      intros a w5 Hw5. apply returns_ret. split; [done|]. split; [done|by eexists].
    - apply returns_ret. split; [apply same_stores_refl|].
      split; [by intros [? ?]|done]. }
  intros nutrition w5 [Hw5 Hnutrition].
  assert (same_stores w1 w5) as (Hs5 & Hp5 & Hh5 & Ht5).
  { eapply same_stores_trans; [exact Hw2|].
    eapply same_stores_trans; [exact Hw3|].
    eapply same_stores_trans; [exact Hw4|exact Hw5]. }
  apply returns_bind. eapply returns_mono.
  { apply (update_session_context_spec sid _ w5 s1).
    rewrite Hs5. apply lookup_insert_eq. }
  intros b w6 (Hp6 & Hh6 & Hs6).
  apply returns_bind. eapply returns_eq; [apply add_meal_history_run|].
  set (entry := mkMealHistory (user_id s1) plan (clock env (ticks w6)) None).
  set (w7 := set_bank_meal_history _ (set_ticks S w6)).
  apply returns_bind.
  apply (returns_mono _ _
           (λ _ w8, sessions w8 = sessions w7
                    ∧ bank_meal_history w8 = bank_meal_history w7)).
  { destruct restrictions as [rs|]; [|by apply returns_ret].
    apply (returns_for_ (λ w8, sessions w8 = sessions w7
                               ∧ bank_meal_history w8 = bank_meal_history w7)); [done|].
    intros x w' _ [Hs' Hh']. eapply returns_mono; [apply add_preference_keeps|].
    intros ? w'' [Hs'' Hh'']. split; congruence. }
  intros [] w8 [Hs8 Hh8].
  apply returns_bind.
  apply (returns_mono _ _
           (λ _ w9, sessions w9 = sessions w7
                    ∧ bank_meal_history w9 = bank_meal_history w7)).
  { destruct prefs as [[|x ps]|]; try by apply returns_ret.
    eapply returns_mono; [apply add_preference_keeps|].
    intros ? w'' [Hs'' Hh'']. split; congruence. }
  intros [] w9 [Hs9 Hh9]. apply returns_ret.
  cbn [res_session_id res_shopping_list res_nutrition res_recipes res_meal_plan].
  split; [done|]. split; [done|]. split; [done|]. split; [done|].
  assert (bank_meal_history w6 = bank_meal_history w) as Hh6'.
  { rewrite Hh6, Hh5. unfold w1. cbn. exact Hh0. }
  rewrite Hs9, Hh9. unfold w7. cbn [bank_meal_history set_bank_meal_history set_ticks
                                     sessions].
  cbv zeta. rewrite Hh6'. fold entry. cbn [user_id s1
    InMemorySessionService.with_last_accessed] in *.
  split; [|split].
  - destruct (capped_history_snoc (default [] (bank_meal_history w !! user_id s)) entry)
      as (kept & Hkept & Hsuffix).
    exists kept, (clock env (ticks w6)). rewrite lookup_insert_eq.
    split; [by rewrite Hkept|]. split; [done|].
    assert (length (kept ++ [entry]) ≤ 50) as Hlen; [|rewrite length_app in Hlen; simpl in Hlen; lia].
    rewrite <- Hkept. rewrite length_app. cbn [length].
    destruct (50 <? length (default [] (bank_meal_history w !! user_id s)) + 1) eqn:Hcap.
    + unfold MemoryBank.last_n. rewrite length_drop, length_app. cbn [length]. lia.
    + apply Nat.ltb_ge in Hcap. rewrite length_app. cbn [length]. lia.
  - intros uid Hne. by rewrite lookup_insert_ne.
  - intros Hgap. rewrite Hs6.
    + eexists. split; [apply lookup_insert_eq|].
      cbn [user_id context InMemorySessionService.with_last_accessed
           InMemorySessionService.with_context].
      split; [done|]. rewrite !lookup_union_override.
      split; [by rewrite lookup_insert_eq|].
      split; [by rewrite lookup_insert_ne, lookup_insert_eq|].
      by rewrite lookup_insert_ne, lookup_insert_ne, lookup_insert_eq.
    + unfold idle_time. rewrite Ht5. unfold w1. cbn. rewrite Ht0. exact Hgap.
Qed.
End workflow_extra.

Lemma workflow_records_plan_witness :
  returns (OrchestratorAgent.plan_meals Demo.env "s1" 2 (Some ["vegetarian"]) None None
             true true) Demo.world1 (λ res w',
    res_session_id res = "s1"
    ∧ (is_Some (res_shopping_list res) ↔ true = true)
    ∧ (is_Some (res_nutrition res) ↔ true = true)
    ∧ total_meals (res_recipes res) = length (meals (res_meal_plan res))
    ∧ (∃ kept date,
         bank_meal_history w' !! user_id Demo.s1
         = Some (kept ++ [mkMealHistory (user_id Demo.s1) (res_meal_plan res) date None])
         ∧ kept `suffix_of` default [] (bank_meal_history Demo.world1 !! user_id Demo.s1)
         ∧ length kept < 50)
    ∧ (∀ uid, uid ≠ user_id Demo.s1 →
         bank_meal_history w' !! uid = bank_meal_history Demo.world1 !! uid)
    ∧ ((clock Demo.env (S (S (ticks Demo.world1))) - clock Demo.env (S (ticks Demo.world1))
        ≤ InMemorySessionService.session_timeout Demo.env)%Z →
       ∃ s', sessions w' !! "s1" = Some s'
             ∧ user_id s' = user_id Demo.s1
             ∧ context s' !! "last_meal_plan" = Some (CMealPlan (res_meal_plan res))
             ∧ context s' !! "last_recipes" = Some (CRecipes (res_recipes res))
             ∧ context s' !! "last_shopping_list"
               = Some (CShoppingList (res_shopping_list res)))).
Proof.
  apply (workflow_records_plan Demo.env Demo.world1 "s1" Demo.s1 2
           (Some ["vegetarian"]) None None true true).
  - reflexivity.
  - vm_compute. discriminate.
  - reflexivity.
Defined.

(** ** Order links *)

Section ordering.
Context (env : Env).
Import OrderingService.

Lemma order_links_services (shopping_list : ShoppingList) preferred_service :
  (services (generate_order_links shopping_list preferred_service)).*1
  = supported_services.
Proof. reflexivity. Qed.

Lemma order_items_grouped (shopping_list : ShoppingList) preferred_service :
  order_items (generate_order_links shopping_list preferred_service)
  = concat (default [] (grouped_by_section shopping_list)).*2.
Proof.
  unfold generate_order_links. cbn [order_items].
  by destruct (grouped_by_section shopping_list) as [[|e g]|].
Qed.

(** X26. The order links made from a generated shopping list offer the
    six supported services, in their order, and count the order items.
    From an optimised list, as the workflow makes it, the order items are
    exactly the items of the shopping list, each as often, and the counts
    agree; from a list generated without optimisation, which has no
    sections, the order has no items whatever the list holds. *)
Theorem order_links_of_generated_list (recipes : list (string * option Recipe))
    (optimize : bool) (preferred_service : option string) (w : World) :
  returns (ShoppingListAgent.generate_shopping_list env recipes optimize) w (λ g _,
    (services (generate_order_links (ShoppingListAgent.shopping_list g)
                 preferred_service)).*1 = supported_services
    ∧ order_total_items (generate_order_links (ShoppingListAgent.shopping_list g)
                           preferred_service)
      = length (order_items (generate_order_links (ShoppingListAgent.shopping_list g)
                               preferred_service))
    ∧ if optimize
      then order_items (generate_order_links (ShoppingListAgent.shopping_list g)
                          preferred_service)
           ≡ₚ items (ShoppingListAgent.shopping_list g)
           ∧ order_total_items (generate_order_links (ShoppingListAgent.shopping_list g)
                                  preferred_service)
             = total_items (ShoppingListAgent.shopping_list g)
      else order_items (generate_order_links (ShoppingListAgent.shopping_list g)
                          preferred_service) = []).
Proof.
  unfold returns. rewrite generate_shopping_list_run. cbv zeta.
  destruct optimize; (eexists _, _; split; [reflexivity|]);
    cbn [ShoppingListAgent.shopping_list]; (split; [apply order_links_services|]);
    (split; [done|]).
  - set (normalized := ShoppingOptimizerTool._normalize_ingredients _).
    assert (order_items
              (generate_order_links
                 (mkShoppingList normalized
                    (Some (ShoppingOptimizerTool._group_by_section normalized))
                    (length normalized)
                    (Some (ShoppingOptimizerTool._estimate_costs normalized))
                    (Some (PyDict.keys (ShoppingOptimizerTool._group_by_section normalized))))
                 preferred_service) ≡ₚ normalized) as Hperm.
    { rewrite order_items_grouped. cbn [grouped_by_section default id].
      destruct (group_by_section_final normalized)
        as (g & u & (_ & Hperm & _) & _ & ->).
      cbn [fst snd] in Hperm. destruct u as [|y0 u].
      - by rewrite app_nil_r in Hperm.
      - rewrite fmap_app, concat_app. cbn. by rewrite app_nil_r. }
    cbn [items total_items]. split; [done|].
    change (order_total_items (generate_order_links ?sl ?p))
      with (length (order_items (generate_order_links sl p))).
    by rewrite Hperm.
  - by rewrite order_items_grouped.
Qed.
End ordering.

(** ** Orchestrator: how the steps compose *)

Section workflow_composition.
Context (env : Env).

Lemma returns_graph {A} (c : M A) w (Q : A → World → Prop) :
  returns c w Q → returns c w (λ a w', c w = (Ok a, w')).
Proof. intros (a & w' & Hc & _). by exists a, w'. Qed.

(** On a live session every part of the result of the workflow is what
    the agent of that step returns, from some state, on the results of the
    steps before. *)
Lemma workflow_composes (w : World) (sid : string) (s : Session)
    (n_days : Z) (restrictions prefs : option (list string))
    (budget : option Qcanon.Qc) (include_nutrition include_shopping_list : bool) :
  sessions w !! sid = Some s →
  (idle_time env w s ≤ InMemorySessionService.session_timeout env)%Z →
  returns (OrchestratorAgent.plan_meals env sid n_days restrictions prefs budget
             include_nutrition include_shopping_list) w (λ res _,
    (∃ uc w1 w1',
       MealPlannerAgent.plan_meals env n_days restrictions prefs budget uc w1
       = (Ok (res_meal_plan res), w1'))
    ∧ (∃ w2 w2',
         RecipeFinderAgent.find_recipes_for_meals env (meals (res_meal_plan res))
           restrictions w2 = (Ok (res_recipes res), w2'))
    ∧ (if include_shopping_list
       then ∃ g w3 w3',
              ShoppingListAgent.generate_shopping_list env
                (meal_recipes (res_recipes res)) true w3 = (Ok g, w3')
              ∧ res_shopping_list res = Some (ShoppingListAgent.shopping_list g)
       else res_shopping_list res = None)
    ∧ (if include_nutrition
       then ∃ a w4 w4',
              NutritionAnalysisTool.analyze_meal_nutrition env
                (OrchestratorAgent.meals_with_recipes (meals (res_meal_plan res))
                   (meal_recipes (res_recipes res))) w4 = (Ok a, w4')
              ∧ res_nutrition res = Some a
       else res_nutrition res = None)).
Proof.
  intros Hs Hidle. unfold OrchestratorAgent.plan_meals, trace_operation.
  apply returns_bind. eapply returns_eq; [apply start_span_run|].
  apply returns_bind. eapply returns_eq; [apply start_span_run|].
  apply returns_try_except.
  apply returns_bind. eapply returns_eq.
  { apply (get_session_live_run env _ sid s).
    - by rewrite !traced_sessions.
    - by rewrite !traced_idle_time. }
  apply returns_bind. eapply returns_mono; [eapply returns_graph, planner_frame|].
  intros plan w1 Hplan.
  apply returns_bind. eapply returns_mono; [eapply returns_graph, find_recipes_spec|].
  intros rr w2 Hrr.
  apply returns_bind.
  apply (returns_mono _ _
           (λ shopping _,
              if include_shopping_list
              then ∃ g w3 w3',
                     ShoppingListAgent.generate_shopping_list env (meal_recipes rr) true w3
                     = (Ok g, w3')
                     ∧ shopping = Some (ShoppingListAgent.shopping_list g)
              else shopping = None)).
  { destruct include_shopping_list; [|by apply returns_ret].
    apply returns_bind. eapply returns_mono; [eapply returns_graph, shopping_frame|].
    intros g w3 Hg. apply returns_ret. eexists _, _, _. split; [exact Hg|done]. }
  intros shopping w3 Hshopping.
  apply returns_bind.
  apply (returns_mono _ _
           (λ nutrition _,
              if include_nutrition
              then ∃ a w4 w4',
                     NutritionAnalysisTool.analyze_meal_nutrition env
                       (OrchestratorAgent.meals_with_recipes (meals plan) (meal_recipes rr))
                       w4 = (Ok a, w4')
                     ∧ nutrition = Some a
              else nutrition = None)).
  { destruct include_nutrition; [|by apply returns_ret].
    apply returns_bind. eapply returns_mono; [eapply returns_graph, nutrition_frame|].
    intros a w4 Ha. apply returns_ret. eexists _, _, _. split; [exact Ha|done]. }
  intros nutrition w4 Hnutrition.
  apply returns_always_bind;
    [intros P HP; by apply update_session_context_returns|].
  intros b w5.
  apply returns_always_bind;
    [intros P HP; by apply add_meal_history_returns|].
  intros [] w6.
  apply returns_always_bind.
  { intros P HP. destruct restrictions as [rs|]; [|by apply returns_ret].
    apply for_returns; [|done].
    intros x w' P' HP'. by apply add_preference_returns. }
  intros [] w7.
  apply returns_always_bind.
  { intros P HP. destruct prefs as [[|x ps]|]; try by apply returns_ret.
    by apply add_preference_returns. }
  intros [] w8. apply returns_ret.
  cbn [res_meal_plan res_recipes res_shopping_list res_nutrition].
  split; [eexists _, _, _; exact Hplan|]. split; [eexists _, _; exact Hrr|]. done.
Qed.

Lemma planner_mock_meatless n_days (r : list string) prefs budget user_context w :
  gemini env = None →
  "vegan" ∈ r ∨ "vegetarian" ∈ r →
  returns (MealPlannerAgent.plan_meals env n_days (Some r) prefs budget user_context) w
    (λ plan _,
       Forall (λ m, existsb (λ k, PyStr.contains k (PyStr.lower (name m)))
                      RecipeSearchTool.meat_keywords = false) (meals plan)).
Proof.
  intros Hg Hr. unfold MealPlannerAgent.plan_meals.
  apply returns_trace_operation. intros w1.
  apply returns_bind, returns_start_span. intros w2.
  apply returns_try_except. rewrite Hg.
  eapply returns_eq; [apply _generate_mock_meal_plan_run|].
  cbv zeta. cbn [meals]. by apply mock_meals_meatless.
Qed.

Lemma group_member_section (ingredients : list string) sec :
  sec ∈ (ShoppingOptimizerTool._group_by_section ingredients).*1 →
  sec ≠ "other" →
  ∃ y, y ∈ ingredients ∧ section_of y = Some sec.
Proof.
  destruct (group_by_section_final ingredients)
    as (g & u & (_ & _ & Hg & _) & _ & ->).
  cbn [fst snd] in Hg. intros Hsec Hne.
  assert (sec ∈ g.*1) as Hin.
  { destruct u as [|y0 u]; [done|].
    rewrite fmap_app in Hsec.
    apply elem_of_app in Hsec as [?|Hsec%list_elem_of_singleton]; done. }
  apply list_elem_of_fmap in Hin as ([sec' items] & -> & Hin).
  destruct (Hg _ _ Hin) as [Hitems Hall].
  destruct items as [|y items]; [done|].
  exists y. apply Hall. by left.
Qed.

Lemma mock_ingredients_no_meat meal_name :
  PyStr.contains "chicken" (PyStr.lower meal_name) = false →
  Forall (λ y, section_of y ≠ Some "meat")
    (ShoppingListAgent._generate_mock_ingredients meal_name).
Proof.
  intros Hchicken. unfold ShoppingListAgent._generate_mock_ingredients. cbv zeta.
  rewrite Hchicken.
  repeat (destruct (PyStr.contains _ _)); cbn [app];
    repeat (apply Forall_cons; split; [by vm_compute|]); apply Forall_nil_2.
Qed.

Lemma shopping_items_from_meals recipes w g w' :
  ShoppingListAgent.generate_shopping_list env recipes true w = (Ok g, w') →
  sections (ShoppingListAgent.shopping_list g)
  = Some (ShoppingOptimizerTool._group_by_section
            (items (ShoppingListAgent.shopping_list g))).*1
  ∧ ∀ x, x ∈ items (ShoppingListAgent.shopping_list g) →
         ∃ meal_name r, (meal_name, Some r) ∈ recipes
                        ∧ x ∈ ShoppingListAgent._generate_mock_ingredients meal_name.
Proof.
  rewrite generate_shopping_list_run. cbv zeta. intros [= <- _].
  cbn [ShoppingListAgent.shopping_list sections items]. split; [done|].
  intros x Hx.
  destruct (normalize_fold
              (foldl (λ acc '(meal_name, recipe),
                        match recipe with
                        | Some r => acc ++ ShoppingListAgent._extract_ingredients r meal_name
                        | None => acc
                        end) [] recipes) [] [])
    as (kept & Hf & Hsub & _); [constructor|apply not_elem_of_nil|].
  assert (ShoppingOptimizerTool._normalize_ingredients
            (foldl (λ acc '(meal_name, recipe),
                      match recipe with
                      | Some r => acc ++ ShoppingListAgent._extract_ingredients r meal_name
                      | None => acc
                      end) [] recipes) = PyStr.strip <$> kept) as Heq
    by exact (f_equal fst Hf).
  rewrite Heq in Hx. apply list_elem_of_fmap in Hx as (y & -> & Hy).
  apply (elem_of_sublist _ _ _ Hy) in Hsub.
  apply all_ingredients_elem in Hsub as [Hnil|(m & r & Hin & Hm)];
    [by apply elem_of_nil in Hnil|].
  exists m, r. split; [done|].
  destruct (proj1 (Forall_forall _ _) (mock_ingredients_normal m) y Hm) as (-> & _).
  done.
Qed.

(** X27. Without a language model, on a live session and under a
    restriction list that names vegan or vegetarian, the workflow plans only
    meals whose names contain none of the meat words, and the shopping list
    it returns has no item that belongs to the meat section and no meat
    section. *)
Theorem workflow_vegetarian_no_meat (w : World) (sid : string) (s : Session)
    (n_days : Z) (r : list string) (prefs : option (list string))
    (budget : option Qcanon.Qc) (include_nutrition : bool) :
  sessions w !! sid = Some s →
  (idle_time env w s ≤ InMemorySessionService.session_timeout env)%Z →
  gemini env = None →
  "vegan" ∈ r ∨ "vegetarian" ∈ r →
  returns (OrchestratorAgent.plan_meals env sid n_days (Some r) prefs budget
             include_nutrition true) w (λ res _,
    Forall (λ m, existsb (λ k, PyStr.contains k (PyStr.lower (name m)))
                   RecipeSearchTool.meat_keywords = false) (meals (res_meal_plan res))
    ∧ ∃ sl secs,
        res_shopping_list res = Some sl
        ∧ sections sl = Some secs
        ∧ ("meat" ∉ secs)
        ∧ Forall (λ x, section_of x ≠ Some "meat") (items sl)).
Proof.
  intros Hs Hidle Hg Hr.
  eapply returns_mono; [by eapply workflow_composes|].
  intros res w' ((uc & w1 & w1' & Hplan) & (w2 & w2' & Hrr) & Hshopping & _).
  destruct Hshopping as (g & w3 & w3' & Hgen & Hsl).
  pose proof (returns_inv _ _ _ _ _ (planner_mock_meatless n_days r prefs budget uc w1 Hg Hr)
                Hplan) as Hnames.
  cbv beta in Hnames. split; [done|].
  pose proof (returns_inv _ _ _ _ _
                (find_recipes_entries env (meals (res_meal_plan res)) (Some r) w2) Hrr)
    as Hentries.
  cbv beta in Hentries.
  destruct (shopping_items_from_meals _ _ _ _ Hgen) as [Hsections Hitems].
  assert (Forall (λ x, section_of x ≠ Some "meat")
            (items (ShoppingListAgent.shopping_list g))) as Hmeatless.
  { apply Forall_forall. intros x (m & rc & Hin & Hx)%Hitems.
    destruct (Hentries _ _ Hin) as (i & meal & Hi & -> & _).
    apply list_elem_of_lookup_2 in Hi.
    pose proof (proj1 (Forall_forall _ _) Hnames meal Hi) as Hmeal. cbv beta in Hmeal.
    assert (PyStr.contains "chicken" (PyStr.lower (name meal)) = false) as Hchicken.
    { unfold RecipeSearchTool.meat_keywords in Hmeal. cbn [existsb] in Hmeal.
      by apply orb_false_elim in Hmeal as [? _]. }
    by apply (proj1 (Forall_forall _ _) (mock_ingredients_no_meat _ Hchicken)). }
  eexists _, _. split; [exact Hsl|]. split; [exact Hsections|]. split; [|done].
  intros Hmeat. apply group_member_section in Hmeat as (y & Hy & Hsec); [|done].
  by apply (proj1 (Forall_forall _ _) Hmeatless y Hy).
Qed.

Lemma omap_length_le {A B} (f : A → option B) (l : list A) :
  length (omap f l) ≤ length l.
Proof.
  induction l as [|x l IH]; [done|]. cbn. destruct (f x); cbn; lia.
Qed.

Lemma mock_lookup_titles restrictions i meal rc :
  spoonacular env = None →
  lookup_outcome env restrictions i meal = Some rc → title rc ≠ None.
Proof.
  intros Hapi. unfold lookup_outcome, search_result. rewrite Hapi.
  destruct (future_raises env i); [done|].
  destruct (mock_recipes_shape (name meal) restrictions None 3) as (_ & _ & Htitles).
  intros Hhead. apply head_Some_elem_of in Hhead.
  destruct (proj1 (Forall_forall _ _) Htitles rc Hhead) as [t Ht]. by rewrite Ht.
Qed.

Lemma analyze_meal_nutrition_ok ms w r w' :
  (∀ m, m ∈ ms → title m ≠ None) →
  NutritionAnalysisTool.analyze_meal_nutrition env ms w = (Ok r, w') →
  ∃ a, r = inr a ∧ meals_analyzed a = length ms.
Proof.
  intros Htitles. unfold NutritionAnalysisTool.analyze_meal_nutrition.
  unfold bind at 1. rewrite start_span_run. cbv zeta.
  pose proof (nutrition_fold ms 0 0 0 0) as Hfold.
  destruct (foldl _ _ ms) as [[[[c p] cb] f]|].
  - intros [= <- _]. by eexists.
  - destruct Hfold as (m & Hm & Ht). by destruct (Htitles m Hm).
Qed.

(** X28. Without a recipe API, on a live session, when the planner
    obtains no document from the language model, the nutrition analysis
    that the workflow returns is never an error, and it analyses as many
    meals as the plan has meals with a recipe, at most the meals of the
    plan. *)
Theorem workflow_nutrition_no_error (w : World) (sid : string) (s : Session)
    (n_days : Z) (restrictions prefs : option (list string))
    (budget : option Qcanon.Qc) (include_shopping_list : bool) :
  sessions w !! sid = Some s →
  (idle_time env w s ≤ InMemorySessionService.session_timeout env)%Z →
  spoonacular env = None →
  llm_plan env (mkPlanRequest n_days restrictions prefs budget
                  (OrchestratorAgent.context_user_context s)) = None →
  returns (OrchestratorAgent.plan_meals env sid n_days restrictions prefs budget
             true include_shopping_list) w (λ res _,
    ∃ a, res_nutrition res = Some (inr a)
         ∧ meals_analyzed a
           = length (OrchestratorAgent.meals_with_recipes (meals (res_meal_plan res))
                       (meal_recipes (res_recipes res)))
         ∧ meals_analyzed a ≤ length (meals (res_meal_plan res))).
Proof.
  intros Hs Hidle Hapi _.
  eapply returns_mono; [by eapply workflow_composes|].
  intros res w' (_ & (w2 & w2' & Hrr) & _ & (r & w4 & w4' & Hrun & Hnut)).
  pose proof (returns_inv _ _ _ _ _
                (find_recipes_entries env (meals (res_meal_plan res)) restrictions w2) Hrr)
    as Hentries.
  cbv beta in Hentries.
  apply analyze_meal_nutrition_ok in Hrun as (a & -> & Hcount).
  - exists a. split; [done|]. split; [done|]. rewrite Hcount.
    unfold OrchestratorAgent.meals_with_recipes. apply omap_length_le.
  - intros rc Hrc. unfold OrchestratorAgent.meals_with_recipes in Hrc.
    apply list_elem_of_omap in Hrc as (meal & _ & Hget).
    destruct (PyDict.get (name meal) (meal_recipes (res_recipes res))) as [v|] eqn:Hv;
      [|done].
    cbn in Hget. subst v. apply pydict_get_Some_elem in Hv.
    destruct (Hentries _ _ Hv) as (i & meal' & _ & _ & Hout).
    by eapply mock_lookup_titles.
Qed.
End workflow_composition.

Lemma workflow_vegetarian_no_meat_witness :
  returns (OrchestratorAgent.plan_meals Demo.env "s1" 2 (Some ["vegetarian"]) None None
             true true) Demo.world1 (λ res _,
    Forall (λ m, existsb (λ k, PyStr.contains k (PyStr.lower (name m)))
                   RecipeSearchTool.meat_keywords = false) (meals (res_meal_plan res))
    ∧ ∃ sl secs,
        res_shopping_list res = Some sl
        ∧ sections sl = Some secs
        ∧ ("meat" ∉ secs)
        ∧ Forall (λ x, section_of x ≠ Some "meat") (items sl)).
Proof.
  apply (workflow_vegetarian_no_meat Demo.env Demo.world1 "s1" Demo.s1 2
           ["vegetarian"] None None true).
  - reflexivity.
  - vm_compute. discriminate.
  - reflexivity.
  - right. by left.
Defined.

Lemma workflow_nutrition_no_error_witness :
  returns (OrchestratorAgent.plan_meals Demo.env "s1" 2 None None None true true)
    Demo.world1 (λ res _,
      ∃ a, res_nutrition res = Some (inr a)
           ∧ meals_analyzed a
             = length (OrchestratorAgent.meals_with_recipes (meals (res_meal_plan res))
                         (meal_recipes (res_recipes res)))
           ∧ meals_analyzed a ≤ length (meals (res_meal_plan res))).
Proof.
  apply (workflow_nutrition_no_error Demo.env Demo.world1 "s1" Demo.s1 2 None None None
           true).
  - reflexivity.
  - vm_compute. discriminate.
  - reflexivity.
  - reflexivity.
Defined.

(** ** Spoonacular results and the keys of the session store *)

Section spoonacular.
Import RecipeSearchTool.

Lemma substring_length_le (n m : nat) (s : string) :
  String.length (String.substring n m s) ≤ m.
Proof.
  revert n m. induction s as [|c s IH]; intros n m.
  - destruct n, m; simpl; lia.
  - destruct n as [|n]; [destruct m as [|m]|]; simpl; [lia| |apply IH].
    specialize (IH 0 m). lia.
Qed.

Lemma string_length_app (s1 s2 : string) :
  String.length (s1 +:+ s2) = String.length s1 + String.length s2.
Proof. induction s1 as [|c s1 IH]; simpl; [done|]. by rewrite IH. Qed.

Lemma slice_length_le (b : nat) (s : string) :
  String.length (PyStr.slice 0 (Z.of_nat b) s) ≤ b.
Proof.
  unfold PyStr.slice. cbv zeta.
  etrans; [apply substring_length_le|].
  unfold PyStr.clamp. simpl.
  destruct (Z.of_nat b <? 0)%Z eqn:Hb; [apply Z.ltb_lt in Hb; lia|]. lia.
Qed.

Lemma map_result_summary (rc : Recipe) :
  String.length (recipe_summary (map_result rc)) ≤ 203
  ∧ (recipe_summary rc = EmptyString ↔ recipe_summary (map_result rc) = EmptyString)
  ∧ recipe_id (map_result rc) = recipe_id rc
  ∧ title (map_result rc) = title rc.
Proof.
  unfold map_result. cbn [recipe_summary recipe_id title].
  destruct (recipe_summary rc) as [|c s] eqn:Hsum.
  - split; [simpl; lia|]. done.
  - split; [|split; [|done]].
    + rewrite string_length_app. pose proof (slice_length_le 200 (String c s)) as Hle.
      change (Z.of_nat 200) with 200%Z in Hle. simpl String.length at 2. lia.
    + split; [done|]. intros Happ.
      apply (f_equal String.length) in Happ. rewrite string_length_app in Happ.
      simpl in Happ. lia.
Qed.

(** X29. [_search_spoonacular] fails exactly when the request raises.
    Otherwise it returns the first [max_results] results of the API, in
    their order and with their ids and titles. For results whose summaries
    are written in ASCII characters, the summary of each is cut to 200
    characters followed by three dots, so it has at most 203 characters,
    and an empty summary stays empty. *)
Theorem search_spoonacular_maps (api : string → option (list string) → ApiOutcome)
    (query : string) (restrictions : option (list string)) (max_results : nat) :
  match api query restrictions with
  | ApiRaised => _search_spoonacular api query restrictions max_results = None
  | ApiResults results =>
      ∃ rs, _search_spoonacular api query restrictions max_results = Some rs
            ∧ length rs = max_results `min` length results
            ∧ recipe_id <$> rs = recipe_id <$> take max_results results
            ∧ title <$> rs = title <$> take max_results results
            ∧ (Forall (λ rc, PyStr.is_ascii (recipe_summary rc) = true) results →
               Forall2 (λ rc mapped,
                          String.length (recipe_summary mapped) ≤ 203
                          ∧ (recipe_summary rc = EmptyString
                             ↔ recipe_summary mapped = EmptyString))
                 (take max_results results) rs)
  end.
Proof.
  unfold _search_spoonacular. destruct (api query restrictions) as [results|]; [|done].
  eexists. split; [done|]. split; [by rewrite length_fmap, length_take|].
  split; [|split].
  - rewrite <- list_fmap_compose. apply list_fmap_ext. intros i rc _.
    apply (map_result_summary rc).
  - rewrite <- list_fmap_compose. apply list_fmap_ext. intros i rc _.
    apply (map_result_summary rc).
  - intros _. apply Forall2_fmap_r, Forall_Forall2_diag, Forall_forall. intros rc _.
    destruct (map_result_summary rc) as (? & ? & _). done.
Qed.
End spoonacular.

Section session_keys.
Context (env : Env).
Import InMemorySessionService.

Lemma sessions_keyed_insert (w w' : World) sid s :
  sessions_keyed w →
  sessions w' = <[sid := s]> (sessions w) → session_id s = sid → sessions_keyed w'.
Proof.
  intros Hw Hs Hid sid' s'. rewrite Hs, lookup_insert.
  destruct (decide (sid = sid')) as [<-|Hne]; [by intros [= <-]|apply Hw].
Qed.

Lemma sessions_keyed_delete (w w' : World) sid :
  sessions_keyed w → sessions w' = delete sid (sessions w) → sessions_keyed w'.
Proof.
  intros Hw Hs sid' s'. rewrite Hs, lookup_delete.
  destruct (decide (sid = sid')); [done|apply Hw].
Qed.

(** X30. The session store keeps every session under its own id: from a
    store in which this holds, it holds again after [create_session],
    [get_session], [update_session_context], [update_preferences],
    [delete_session] and [cleanup_expired_sessions]; the session that
    [get_session] returns carries the id asked for, and so does every
    session that [get_user_sessions] lists carry the id it is stored
    under. *)
Theorem session_ids_are_keys (w : World) (uid sid : string)
    (ctx : option (gmap string CtxVal)) (updates : gmap string CtxVal)
    (prefs : gmap string PyVal) :
  sessions_keyed w →
  returns (create_session env uid ctx) w (λ s w', sessions_keyed w')
  ∧ returns (get_session env sid) w (λ r w',
      sessions_keyed w' ∧ ∀ s, r = Some s → session_id s = sid)
  ∧ returns (update_session_context env sid updates) w (λ _ w', sessions_keyed w')
  ∧ returns (update_preferences env sid prefs) w (λ _ w', sessions_keyed w')
  ∧ returns (delete_session sid) w (λ _ w', sessions_keyed w')
  ∧ returns (cleanup_expired_sessions env) w (λ _ w', sessions_keyed w')
  ∧ returns (get_user_sessions uid) w (λ l w',
      w' = w ∧ Forall (λ s, sessions w !! session_id s = Some s) l).
Proof.
  intros Hw.
  split.
  { eapply returns_eq; [apply create_session_run|]. cbv zeta.
    by eapply (sessions_keyed_insert w); [|reflexivity|]. }
  assert (returns (get_session env sid) w (λ r w',
            sessions_keyed w' ∧ ∀ s, r = Some s → session_id s = sid)) as Hget.
  { destruct (sessions w !! sid) as [s|] eqn:Hs.
    - destruct (Z_le_gt_dec (idle_time env w s) (session_timeout env)) as [Hlive|Hexp].
      + eapply returns_eq; [by apply get_session_live_run|].
        split; [|intros s' [= <-]; cbn; by apply Hw].
        eapply (sessions_keyed_insert w); [done|reflexivity|]. cbn. by apply Hw.
      + eapply returns_eq; [apply (get_session_expired_run env w sid s Hs); lia|].
        split; [by eapply (sessions_keyed_delete w)|done].
    - eapply returns_eq; [by apply get_session_absent_run|]. done. }
  split; [done|].
  split.
  { destruct (sessions w !! sid) as [s|] eqn:Hs.
    - destruct (Z_le_gt_dec (idle_time env w s) (session_timeout env)) as [Hlive|Hexp].
      + eapply returns_eq; [by apply update_session_context_live_run|].
        eapply (sessions_keyed_insert w); [done|reflexivity|]. cbn. by apply Hw.
      + eapply returns_eq.
        { unfold update_session_context. unfold bind at 1.
          rewrite (get_session_expired_run env w sid s Hs) by lia. reflexivity. }
        by eapply (sessions_keyed_delete w).
    - eapply returns_eq.
      { unfold update_session_context. unfold bind at 1.
        rewrite (get_session_absent_run env w sid Hs). reflexivity. }
      done. }
  split.
  { destruct (sessions w !! sid) as [s|] eqn:Hs.
    - destruct (Z_le_gt_dec (idle_time env w s) (session_timeout env)) as [Hlive|Hexp].
      + eapply returns_eq; [by apply update_preferences_live_run|].
        eapply (sessions_keyed_insert w); [done|reflexivity|]. cbn. by apply Hw.
      + eapply returns_eq.
        { unfold update_preferences. unfold bind at 1.
          rewrite (get_session_expired_run env w sid s Hs) by lia. reflexivity. }
        by eapply (sessions_keyed_delete w).
    - eapply returns_eq.
      { unfold update_preferences. unfold bind at 1.
        rewrite (get_session_absent_run env w sid Hs). reflexivity. }
      done. }
  split.
  { eapply returns_eq; [apply delete_session_run|]. by eapply (sessions_keyed_delete w). }
  split.
  { eapply returns_eq; [apply cleanup_expired_sessions_run|]. cbv zeta.
    intros sid' s'. cbn [sessions set_sessions set_ticks].
    rewrite foldl_delete_lookup. destruct (decide _); [done|apply Hw]. }
  eapply returns_eq; [reflexivity|]. split; [done|].
  apply Forall_forall. intros s [_ Hs]%list_elem_of_filter.
  apply list_elem_of_fmap in Hs as ([k s'] & -> & Hin).
  apply elem_of_map_to_list in Hin. cbn. by rewrite (Hw _ _ Hin).
Qed.
End session_keys.

Lemma session_ids_are_keys_witness :
  sessions_keyed Demo.world1
  ∧ returns (InMemorySessionService.get_session Demo.env "s1") Demo.world1 (λ r w',
      sessions_keyed w' ∧ ∀ s, r = Some s → session_id s = "s1").
Proof.
  assert (sessions_keyed Demo.world1) as Hw.
  { intros sid s. unfold Demo.world1. cbn [sessions].
    intros [<- <-]%lookup_singleton_Some. reflexivity. }
  split; [exact Hw|].
  exact (proj1 (proj2 (session_ids_are_keys Demo.env Demo.world1 "u1" "s1" None ∅ ∅ Hw))).
Defined.
